(** * Crime Record Management System: access gate, incident and evidence routes

    A shallow embedding of the request handlers of the repository
    (middleware.ts, app/api/incidents/route.ts, app/api/incidents/[id]/route.ts,
    app/api/incidents/[id]/evidence/route.ts,
    app/api/incidents/[id]/evidence/[evidenceId]/route.ts, app/lib/schemas.ts)
    over an explicit model of the Prisma store, followed by the properties
    the specification states about them.

    Handlers are state-passing functions [Store -> Request -> Response * Store].
    Services that live outside the repository (Date parsing, JWT verification,
    the database's ORDER BY and case-insensitive matching, the integers the
    Prisma client takes, the ISO-datetime regular expression of zod) are
    fields of the class [Platform].  Strings are held as UTF-8 bytes,
    numbers as the doubles with integer values, NaN and the infinities. *)

From Stdlib Require Import ZArith String Ascii List Bool Lia.
From stdpp Require Import base option list gmap strings fin_maps.

Set Warnings "-register-all".
Local Open Scope string_scope.

(* ===================================================================== *)
(** ** JavaScript values and string primitives                            *)
(* ===================================================================== *)

Module Js.

(** A Number as the list route computes with it: NaN, an infinity, or a
    double whose value is an integer.  Every integer up to 2^53 in absolute
    value is a double; beyond that a double is a multiple of a power of
    two. *)
Inductive Num := NaN | Int (z : Z) | Inf (negative : bool).

(** The Number value of a mathematical integer: the nearest double, ties
    to the even mantissa, and an infinity from 2^1024 on. *)
Definition double (z : Z) : Num :=
  let a := Z.abs z in
  if (a <? 2 ^ 53)%Z then Int z
  else
    let e := (Z.log2 a - 52)%Z in
    let q := (a / 2 ^ e)%Z in
    let r := (a mod 2 ^ e)%Z in
    let half := (2 ^ (e - 1))%Z in
    let m := if (half <? r)%Z || ((r =? half)%Z && Z.odd q) then (q + 1)%Z else q in
    if (2 ^ 1024 <=? m * 2 ^ e)%Z then Inf (z <? 0)%Z
    else Int (Z.sgn z * (m * 2 ^ e)).

(** Strings are held as their UTF-8 bytes: a character below U+0800 takes
    one or two bytes, one of the rest of the basic plane three, and a
    surrogate pair four.

    White space in the sense of [String.prototype.trim] and [parseInt]
    (WhiteSpace and LineTerminator of the language): TAB, LF, VT, FF, CR
    and SPACE in one byte; U+00A0 in two; U+1680, U+2000 to U+200A, U+2028,
    U+2029, U+202F, U+205F, U+3000 and U+FEFF in three. *)
Definition is_ws (c : ascii) : bool :=
  let n := nat_of_ascii c in
  Nat.eqb n 32 || (Nat.leb 9 n && Nat.leb n 13).

Definition is_ws2 (c d : ascii) : bool :=
  Nat.eqb (nat_of_ascii c) 194 && Nat.eqb (nat_of_ascii d) 160.

Definition is_ws3 (c d e : ascii) : bool :=
  let c := nat_of_ascii c in
  let d := nat_of_ascii d in
  let e := nat_of_ascii e in
  (Nat.eqb c 225 && Nat.eqb d 154 && Nat.eqb e 128)
  || (Nat.eqb c 226 && Nat.eqb d 128
      && ((Nat.leb 128 e && Nat.leb e 138) || Nat.eqb e 168 || Nat.eqb e 169
          || Nat.eqb e 175))
  || (Nat.eqb c 226 && Nat.eqb d 129 && Nat.eqb e 159)
  || (Nat.eqb c 227 && Nat.eqb d 128 && Nat.eqb e 128)
  || (Nat.eqb c 239 && Nat.eqb d 187 && Nat.eqb e 191).

(** The string without the white space at its head.  With [back] the
    string is read from its last byte on (it is given reversed), so that
    the bytes of a character come in the opposite order. *)
Fixpoint strip (back : bool) (s : string) : string :=
  match s with
  | String c r =>
      if is_ws c then strip back r
      else
        match r with
        | String d r1 =>
            if (if back then is_ws2 d c else is_ws2 c d) then strip back r1
            else
              match r1 with
              | String e r2 =>
                  if (if back then is_ws3 e d c else is_ws3 c d e) then strip back r2
                  else s
              | EmptyString => s
              end
        | EmptyString => s
        end
  | EmptyString => EmptyString
  end.

Definition trimStart (s : string) : string := strip false s.

Definition trim (s : string) : string :=
  String.rev (strip true (String.rev (strip false s))).

(** [s.length], the number of UTF-16 code units: one for a character of
    up to three bytes, two for one of four.  [pending] counts the
    continuation bytes the character being read still has; a continuation
    byte that belongs to no character counts as one unit. *)
Fixpoint units (pending : nat) (s : string) : nat :=
  match s with
  | EmptyString => 0
  | String c r =>
      let n := nat_of_ascii c in
      if Nat.leb 128 n && Nat.ltb n 192 && Nat.ltb 0 pending then units (pending - 1) r
      else if Nat.ltb n 192 then S (units 0 r)
      else if Nat.ltb n 224 then S (units 1 r)
      else if Nat.ltb n 240 then S (units 2 r)
      else S (S (units 3 r))
  end.

Definition length (s : string) : nat := units 0 s.

(** [s.split(sep)] for a one-character separator. *)
Fixpoint split_go (sep : ascii) (cur : string) (s : string) : list string :=
  match s with
  | EmptyString => [String.rev cur]
  | String c r =>
      if Ascii.eqb c sep then String.rev cur :: split_go sep "" r
      else split_go sep (String c cur) r
  end.

Definition split (sep : ascii) (s : string) : list string := split_go sep "" s.

Definition startsWith (s p : string) : bool := String.prefix p s.

(** [s.substring(n)] *)
Fixpoint substring_from (n : nat) (s : string) : string :=
  match n, s with
  | O, _ => s
  | S n', String _ r => substring_from n' r
  | S _, EmptyString => EmptyString
  end.

Definition digit (c : ascii) : option Z :=
  let n := nat_of_ascii c in
  if Nat.leb 48 n && Nat.leb n 57 then Some (Z.of_nat (n - 48)) else None.

(** The longest prefix of decimal digits; [None] when it is empty. *)
Fixpoint digits (acc : Z) (seen : bool) (s : string) : option Z :=
  match s with
  | String c r =>
      match digit c with
      | Some d => digits (10 * acc + d) true r
      | None => if seen then Some acc else None
      end
  | EmptyString => if seen then Some acc else None
  end.

(** [parseInt(s, 10)]: the Number value of the digits read.  (Beyond
    twenty significant digits the language lets an implementation round
    the digits before the value; the value here is the nearest double of
    the digits as they stand.) *)
Definition parseInt (s : string) : Num :=
  match trimStart s with
  | String "-" r => match digits 0 false r with Some n => double (- n) | None => NaN end
  | String "+" r => match digits 0 false r with Some n => double n | None => NaN end
  | t => match digits 0 false t with Some n => double n | None => NaN end
  end.

(** [Math.max(a, b)] and [Math.min(a, b)]: NaN if either argument is. *)
Definition max (a b : Num) : Num :=
  match a, b with
  | NaN, _ | _, NaN => NaN
  | Inf false, _ | _, Inf false => Inf false
  | Inf true, x | x, Inf true => x
  | Int x, Int y => Int (Z.max x y)
  end.

Definition min (a b : Num) : Num :=
  match a, b with
  | NaN, _ | _, NaN => NaN
  | Inf true, _ | _, Inf true => Inf true
  | Inf false, x | x, Inf false => x
  | Int x, Int y => Int (Z.min x y)
  end.

(** [a - b] and [a * b]: the exact result, rounded. *)
Definition sub (a b : Num) : Num :=
  match a, b with
  | NaN, _ | _, NaN => NaN
  | Int x, Int y => double (x - y)
  | Inf n, Int _ => Inf n
  | Int _, Inf n => Inf (negb n)
  | Inf n, Inf m => if Bool.eqb n m then NaN else Inf n
  end.

Definition mul (a b : Num) : Num :=
  match a, b with
  | NaN, _ | _, NaN => NaN
  | Int x, Int y => double (x * y)
  | Inf n, Int y | Int y, Inf n =>
      if (y =? 0)%Z then NaN else Inf (xorb n (y <? 0)%Z)
  | Inf n, Inf m => Inf (xorb n m)
  end.

(** [a <= x] and [x <= b] on a number: false on NaN. *)
Definition ge (x : Num) (a : Z) : Prop :=
  match x with
  | Int z => (a <= z)%Z
  | Inf negative => negative = false
  | NaN => False
  end.

Definition le (x : Num) (b : Z) : Prop :=
  match x with
  | Int z => (z <= b)%Z
  | Inf negative => negative = true
  | NaN => False
  end.

(** The ceiling of the quotient a / b of two integers, b <> 0. *)
Definition ceil_div (a b : Z) : Z := (- ((- a) / b))%Z.

(** [Math.ceil(a / b)].  For a dividend below 2^53 in absolute value, as
    a count of rows is, the double quotient has the ceiling of the exact
    one: the quotient is off an integer by at least 1/b, more than its
    rounding error. *)
Definition ceil_quot (a b : Num) : Num :=
  match a, b with
  | NaN, _ | _, NaN => NaN
  | Int x, Int y =>
      if (y =? 0)%Z
      then (if (x =? 0)%Z then NaN else Inf (x <? 0)%Z)
      else Int (ceil_div x y)
  | Int _, Inf _ => Int 0
  | Inf n, Int y => Inf (xorb n (y <? 0)%Z)
  | Inf _, Inf _ => NaN
  end.

(** [x || d] on a string that may be null: the default replaces null and
    the empty string. *)
Definition or_default (x : option string) (d : string) : string :=
  match x with
  | Some (String c r) => String c r
  | _ => d
  end.

(** Truthiness of a string that may be null or undefined. *)
Definition truthy (x : option string) : bool :=
  match x with
  | Some (String _ _) => true
  | _ => false
  end.

(** Lower case as header names are normalized: on the letters A to Z. *)
Definition lower_ascii (c : ascii) : ascii :=
  let n := nat_of_ascii c in
  if Nat.leb 65 n && Nat.leb n 90 then ascii_of_nat (n + 32) else c.

Fixpoint toLowerCase (s : string) : string :=
  match s with
  | EmptyString => EmptyString
  | String c r => String (lower_ascii c) (toLowerCase r)
  end.

(** [xs.includes(x)] on an array of strings. *)
Definition includes (xs : list string) (x : string) : bool :=
  existsb (String.eqb x) xs.

End Js.

(** A parsed JSON document, as [request.json()] returns it.  An object is
    the list of its own properties; a number keeps its literal. *)
Inductive json :=
| JNull
| JBool (b : bool)
| JNum (literal : string)
| JStr (s : string)
| JArr (items : list json)
| JObj (props : list (string * json)).

(** [obj[key]]; [None] is undefined. *)
Fixpoint prop (key : string) (props : list (string * json)) : option json :=
  match props with
  | [] => None
  | (k, v) :: rest => if String.eqb k key then Some v else prop key rest
  end.

(* ===================================================================== *)
(** ** The store (prisma/schema.prisma)                                   *)
(* ===================================================================== *)

Record User := {
  user_id : string;
  user_badgeId : string;
  user_name : string;
  user_password : string;
  user_isAdmin : bool;
}.

(** [status] is a plain String column; [closingReason] is nullable. *)
Record Incident := {
  id : string;
  caseNumber : string;
  reportedAt : Z;
  occurredAt : Z;
  location : string;
  crimeType : string;
  description : string;
  status : string;
  closingReason : option string;
  createdAt : Z;
  updatedAt : Z;
  reportedById : string;
}.

Record Evidence := {
  ev_id : string;
  ev_description : string;
  ev_type : string;
  ev_storageReference : string;
  ev_createdAt : Z;
  ev_updatedAt : Z;
  incidentId : string;
  addedById : string;
}.

Record Store := {
  users : gmap string User;
  incidents : gmap string Incident;
  evidence : gmap string Evidence;
}.

(** What the database supplies on a write: the clock and the two cuid()
    defaults of a new row. *)
Record Env := {
  now : Z;
  cuid_id : string;
  cuid_caseNumber : string;
}.

(** [orderBy] of [findMany]: a column and a direction. *)
Record OrderBy := { ob_field : string; ob_order : string }.

(** The claims the login route signs. *)
Record TokenPayload := {
  userId : string;
  badgeId : string;
  isAdmin : bool;
}.

(** Outcome of [jose.jwtVerify]: the payload, which is the JSON object the
    token carries, whatever its keys and their types, or a thrown error
    with its [code] (absent on errors that are not jose's). *)
Inductive JwtResult :=
| Verified (payload : list (string * json))
| Thrown (code : option string).

Class Platform := {
  (** [new Date(x)]: milliseconds since the epoch, [None] for Invalid Date *)
  newDate : json -> option Z;
  (** zod's [.datetime()] and [.cuid()] tests on a string *)
  isIsoDatetime : string -> bool;
  isCuid : string -> bool;
  (** [jose.jwtVerify(token, key, { algorithms: ['HS256'] })] *)
  jwtVerify : string -> string -> JwtResult;
  (** [String(n)] for the number a JSON literal denotes *)
  numberString : string -> string;
  (** Prisma's [{ contains: q, mode: 'insensitive' }] on a column value *)
  containsInsensitive : string -> string -> bool;
  (** the database's ORDER BY for one [findMany]: the rows in the order
      the query with this skip and this take puts them.  Rows that are
      equal on the column may come in another order from one query to the
      next. *)
  orderRows : OrderBy -> Z -> Z -> list Incident -> list Incident;
  (** the integers the Prisma client takes for skip and take *)
  dbInt : Z -> bool;
}.

(* ===================================================================== *)
(** ** Requests and responses                                             *)
(* ===================================================================== *)

(** Header names are case-insensitive: the map is keyed by the lower-cased
    name. *)
Definition headers_get (h : gmap string string) (name : string) : option string :=
  h !! Js.toLowerCase name.

Definition headers_set (h : gmap string string) (name value : string)
  : gmap string string :=
  <[Js.toLowerCase name := value]> h.

Module Headers.

(** A header value is converted to a ByteString: a code unit above 0xFF,
    that is a character that takes more than the two bytes of U+0080 to
    U+00FF, is a TypeError. *)
Fixpoint byteString (s : string) : bool :=
  match s with
  | EmptyString => true
  | String c r =>
      let n := nat_of_ascii c in
      if Nat.ltb n 128 then byteString r
      else if Nat.eqb n 194 || Nat.eqb n 195 then
        match r with
        | String d r' =>
            Nat.leb 128 (nat_of_ascii d) && Nat.ltb (nat_of_ascii d) 192 && byteString r'
        | EmptyString => false
        end
      else false
  end.

(** HTTP whitespace: TAB, LF, CR and SPACE. *)
Definition is_http_ws (c : ascii) : bool :=
  let n := nat_of_ascii c in
  Nat.eqb n 9 || Nat.eqb n 10 || Nat.eqb n 13 || Nat.eqb n 32.

Fixpoint stripStart (s : string) : string :=
  match s with
  | String c r => if is_http_ws c then stripStart r else s
  | EmptyString => EmptyString
  end.

(** The value without its leading and trailing HTTP whitespace. *)
Definition normalize (s : string) : string :=
  String.rev (stripStart (String.rev (stripStart s))).

(** A normalized value may hold no NUL, LF or CR. *)
Fixpoint clean (s : string) : bool :=
  match s with
  | EmptyString => true
  | String c r =>
      let n := nat_of_ascii c in
      negb (Nat.eqb n 0 || Nat.eqb n 10 || Nat.eqb n 13) && clean r
  end.

(** The value [headers.set(name, v)] stores for the string [v]; [None]
    when it throws a TypeError. *)
Definition value (v : string) : option string :=
  if byteString v
  then let n := normalize v in if clean n then Some n else None
  else None.

(** Printable ASCII without white space, as a cuid or a badge number is. *)
Fixpoint plain (s : string) : bool :=
  match s with
  | EmptyString => true
  | String c r =>
      Nat.leb 33 (nat_of_ascii c) && Nat.leb (nat_of_ascii c) 126 && plain r
  end.

(** [headers.set(name, v)] for one of the header names of the program. *)
Definition set (h : gmap string string) (name v : string)
  : option (gmap string string) :=
  headers_set h name <$> value v.

End Headers.

(** [String(v)] for a JSON value; an array joins its elements with a
    comma, null counting as the empty string. *)
Fixpoint json_String `{Platform} (v : json) : string :=
  match v with
  | JNull => "null"
  | JBool b => if b then "true" else "false"
  | JNum literal => numberString literal
  | JStr s => s
  | JArr items =>
      (fix join (xs : list json) : string :=
         match xs with
         | [] => ""
         | x :: rest =>
             (match x with JNull => "" | _ => json_String x end)
             ++ match rest with [] => "" | _ :: _ => "," ++ join rest end
         end) items
  | JObj _ => "[object Object]"
  end.

(** [String(v)] for a property that may be undefined. *)
Definition js_String `{Platform} (v : option json) : string :=
  match v with
  | Some j => json_String j
  | None => "undefined"
  end.

(** [URLSearchParams.get]: the first value of the name, or null. *)
Fixpoint searchParams_get (q : list (string * string)) (name : string)
  : option string :=
  match q with
  | [] => None
  | (k, v) :: rest => if String.eqb k name then Some v else searchParams_get rest name
  end.

(** [json_body] is what [request.json()] yields; [None] when it throws a
    SyntaxError. *)
Record Request := {
  pathname : string;
  headers : gmap string string;
  searchParams : list (string * string);
  json_body : option json;
}.

(** [select: { id, name, badgeId }] of the related user. *)
Record UserSummary := { us_id : string; us_name : string; us_badgeId : string }.

Record Pagination := {
  currentPage : Js.Num;
  totalPages : Js.Num;
  totalCount : Z;
  limit : Js.Num;
}.

Inductive Payload :=
| NoContent
| Message (message : string)
| InvalidInput (message : string) (fieldErrors : list string)
| IncidentJson (i : Incident) (reportedBy : option UserSummary)
| EvidenceJson (e : Evidence) (addedBy : option UserSummary)
| IncidentPage (rows : list (Incident * option UserSummary)) (pagination : Pagination).

Record Response := { http_status : Z; payload : Payload }.

Definition respond (p : Payload) (code : Z) : Response :=
  {| http_status := code; payload := p |}.

(* ===================================================================== *)
(** ** Prisma client calls                                                *)
(* ===================================================================== *)

Module Db.

Inductive Error :=
| P2002 (target : string)       (* unique constraint *)
| P2003 (field_name : string).  (* foreign key constraint *)

(** [Prisma.IncidentUpdateInput] as the PATCH handler builds it: a key is
    present ([Some]) or was deleted; [closingReason] may be set to null. *)
Record IncidentUpdateInput := {
  set_occurredAt : option Z;
  set_location : option string;
  set_crimeType : option string;
  set_description : option string;
  set_status : option string;
  set_closingReason : option (option string);
}.

Definition summary (st : Store) (uid : string) : option UserSummary :=
  (fun u => {| us_id := user_id u; us_name := user_name u;
               us_badgeId := user_badgeId u |}) <$> users st !! uid.

Definition write (t : Z) (d : IncidentUpdateInput) (i : Incident) : Incident :=
  {| id := id i;
     caseNumber := caseNumber i;
     reportedAt := reportedAt i;
     occurredAt := default (occurredAt i) (set_occurredAt d);
     location := default (location i) (set_location d);
     crimeType := default (crimeType i) (set_crimeType d);
     description := default (description i) (set_description d);
     status := default (status i) (set_status d);
     closingReason := default (closingReason i) (set_closingReason d);
     createdAt := createdAt i;
     updatedAt := t;
     reportedById := reportedById i |}.

(** [prisma.incident.update({ where: { id }, data })] on an existing row;
    [@updatedAt] takes the clock. *)
Definition incident_update (st : Store) (t : Z) (key : string)
    (d : IncidentUpdateInput) : Store :=
  {| users := users st;
     incidents := alter (write t d) key (incidents st);
     evidence := evidence st |}.

(** [prisma.incident.delete({ where: { id } })]; the relation of Evidence
    to Incident is [onDelete: Cascade]. *)
Definition incident_delete (st : Store) (key : string) : Store :=
  {| users := users st;
     incidents := delete key (incidents st);
     evidence := filter (fun kv => incidentId kv.2 <> key) (evidence st) |}.

Definition caseNumber_taken (st : Store) (cn : string) : bool :=
  bool_decide (Exists (fun kv => caseNumber kv.2 = cn) (map_to_list (incidents st))).

(** [prisma.incident.create]: id and caseNumber default to cuid(),
    reportedAt and the timestamps to now(); both id and caseNumber are
    unique, reportedById references users. *)
Definition incident_create (st : Store) (env : Env) (occ : Z)
    (loc cri des rep sta : string) : Error + (Incident * Store) :=
  match incidents st !! cuid_id env with
  | Some _ => inl (P2002 "id")
  | None =>
      if caseNumber_taken st (cuid_caseNumber env) then inl (P2002 "caseNumber")
      else match users st !! rep with
           | None => inl (P2003 "incidents_reportedById_fkey (index)")
           | Some _ =>
               let i := {| id := cuid_id env;
                           caseNumber := cuid_caseNumber env;
                           reportedAt := now env;
                           occurredAt := occ;
                           location := loc;
                           crimeType := cri;
                           description := des;
                           status := sta;
                           closingReason := None;
                           createdAt := now env;
                           updatedAt := now env;
                           reportedById := rep |} in
               inr (i, {| users := users st;
                          incidents := <[cuid_id env := i]> (incidents st);
                          evidence := evidence st |})
           end
  end.

(** [prisma.evidence.create]: id defaults to cuid(); incidentId and
    addedById are foreign keys. *)
Definition evidence_create (st : Store) (env : Env)
    (des typ ref inc adder : string) : Error + (Evidence * Store) :=
  match evidence st !! cuid_id env with
  | Some _ => inl (P2002 "id")
  | None =>
      match incidents st !! inc, users st !! adder with
      | None, _ => inl (P2003 "evidence_incidentId_fkey (index)")
      | _, None => inl (P2003 "evidence_addedById_fkey (index)")
      | Some _, Some _ =>
          let e := {| ev_id := cuid_id env;
                      ev_description := des;
                      ev_type := typ;
                      ev_storageReference := ref;
                      ev_createdAt := now env;
                      ev_updatedAt := now env;
                      incidentId := inc;
                      addedById := adder |} in
          inr (e, {| users := users st;
                     incidents := incidents st;
                     evidence := <[cuid_id env := e]> (evidence st) |})
      end
  end.

(** [prisma.evidence.delete({ where: { id } })] on an existing row. *)
Definition evidence_delete (st : Store) (key : string) : Store :=
  {| users := users st;
     incidents := incidents st;
     evidence := delete key (evidence st) |}.

(** [Prisma.IncidentWhereInput] of the list route: an optional status
    equality and an optional search term matched against four columns. *)
Record Where := { where_status : option string; where_OR : option string }.

Definition matches `{Platform} (w : Where) (i : Incident) : bool :=
  match where_status w with
  | Some s => String.eqb (status i) s
  | None => true
  end
  &&
  match where_OR w with
  | Some q => containsInsensitive (caseNumber i) q
              || containsInsensitive (crimeType i) q
              || containsInsensitive (location i) q
              || containsInsensitive (description i) q
  | None => true
  end.

Definition selected `{Platform} (st : Store) (w : Where) : list Incident :=
  List.filter (matches w) (snd <$> map_to_list (incidents st)).

(** [prisma.incident.count({ where })] *)
Definition count `{Platform} (st : Store) (w : Where) : Z :=
  Z.of_nat (length (selected st w)).

(** [prisma.incident.findMany({ where, skip, take, orderBy, include })].
    [skip] and [take] are Int arguments: NaN, an infinity or an integer
    the client does not take makes the call throw ([None]). *)
Definition findMany `{Platform} (st : Store) (w : Where) (skip take : Js.Num)
    (ob : OrderBy) : option (list (Incident * option UserSummary)) :=
  match skip, take with
  | Js.Int s, Js.Int t =>
      if dbInt s && dbInt t
      then Some ((fun i => (i, summary st (reportedById i)))
                   <$> firstn (Z.to_nat t)
                         (skipn (Z.to_nat s) (orderRows ob s t (selected st w))))
      else None
  | _, _ => None
  end.

End Db.

(* ===================================================================== *)
(** ** zod schemas (app/lib/schemas.ts and app/api/incidents/route.ts)   *)
(* ===================================================================== *)

Module Schemas.

(** Outcome of parsing one value. *)
Inductive Parse (A : Type) := Valid (a : A) | Issue.
Arguments Valid {A} a.
Arguments Issue {A}.

(** Outcome of [schema.safeParse]: the data, or the keys of
    [error.flatten().fieldErrors]. *)
Inductive SafeParse (A : Type) := Success (data : A) | Failure (fieldErrors : list string).
Arguments Success {A} data.
Arguments Failure {A} fieldErrors.

(** [z.string().trim().min(1)] *)
Definition string_trim_min1 (x : json) : Parse string :=
  match x with
  | JStr s => let t := Js.trim s in
              if bool_decide (t = "") then Issue else Valid t
  | _ => Issue
  end.

(** [z.string().trim()] *)
Definition string_trim (x : json) : Parse string :=
  match x with
  | JStr s => Valid (Js.trim s)
  | _ => Issue
  end.

(** [z.enum(values)] *)
Definition enum (values : list string) (x : json) : Parse string :=
  match x with
  | JStr s => if Js.includes values s then Valid s else Issue
  | _ => Issue
  end.

(** [z.coerce.date()]: [new Date(input)], rejected when invalid. *)
Definition coerce_date `{Platform} (x : json) : Parse Z :=
  match newDate x with
  | Some d => Valid d
  | None => Issue
  end.

(** [z.string().datetime().min(1)] *)
Definition string_datetime `{Platform} (x : json) : Parse string :=
  match x with
  | JStr s => if isIsoDatetime s && negb (bool_decide (s = "")) then Valid s else Issue
  | _ => Issue
  end.

(** [z.string().cuid()] *)
Definition string_cuid `{Platform} (x : json) : Parse string :=
  match x with
  | JStr s => if isCuid s then Valid s else Issue
  | _ => Issue
  end.

(** [.optional()]: undefined passes as undefined. *)
Definition optional {A} (p : json -> Parse A) (x : option json) : Parse (option A) :=
  match x with
  | None => Valid None
  | Some v => match p v with Valid a => Valid (Some a) | Issue => Issue end
  end.

(** [.nullable()]: null passes as null. *)
Definition nullable {A} (p : json -> Parse A) (x : json) : Parse (option A) :=
  match x with
  | JNull => Valid None
  | v => match p v with Valid a => Valid (Some a) | Issue => Issue end
  end.

(** A key of the shape that is not optional: undefined is an issue. *)
Definition required {A} (p : json -> Parse A) (x : option json) : Parse A :=
  match x with
  | None => Issue
  | Some v => p v
  end.

Definition failed {A} (name : string) (r : Parse A) : list string :=
  match r with Valid _ => [] | Issue => [name] end.

Definition statuses : list string := ["Open"; "Under Investigation"; "Closed"].

Definition evidenceTypes : list string :=
  ["Photo"; "Document"; "Physical Item"; "Statement"; "Video"; "Audio"; "Other"].

(** The parsed output of IncidentUpdateSchema: a key of the shape is in
    the output exactly when it is in the input; unknown keys are
    stripped. *)
Record IncidentUpdate := {
  up_occurredAt : option Z;
  up_location : option string;
  up_crimeType : option string;
  up_description : option string;
  up_status : option string;
  up_closingReason : option (option string);
}.

Definition present {A} (x : option A) : nat :=
  match x with Some _ => 1 | None => 0 end.

(** [Object.keys(data).length] *)
Definition keys (d : IncidentUpdate) : nat :=
  present (up_occurredAt d) + present (up_location d) + present (up_crimeType d)
  + present (up_description d) + present (up_status d) + present (up_closingReason d).

Definition IncidentUpdateSchema `{Platform} (body : json) : SafeParse IncidentUpdate :=
  match body with
  | JObj props =>
      let occ := optional coerce_date (prop "occurredAt" props) in
      let loc := optional string_trim_min1 (prop "location" props) in
      let cri := optional string_trim_min1 (prop "crimeType" props) in
      let des := optional string_trim_min1 (prop "description" props) in
      let sta := optional (enum statuses) (prop "status" props) in
      let clo := optional (nullable string_trim) (prop "closingReason" props) in
      match occ, loc, cri, des, sta, clo with
      | Valid o, Valid l, Valid c, Valid d, Valid s, Valid r =>
          let data := {| up_occurredAt := o; up_location := l; up_crimeType := c;
                         up_description := d; up_status := s;
                         up_closingReason := r |} in
          (* .refine(data => Object.keys(data).length > 0) *)
          if Nat.ltb 0 (keys data) then Success data else Failure []
      | _, _, _, _, _, _ =>
          Failure (failed "occurredAt" occ ++ failed "location" loc
                   ++ failed "crimeType" cri ++ failed "description" des
                   ++ failed "status" sta ++ failed "closingReason" clo)
      end
  | _ => Failure []
  end.

(** The schema of app/api/incidents/route.ts. *)
Record IncidentCreate := {
  new_occurredAt : string;
  new_location : string;
  new_crimeType : string;
  new_description : string;
  new_reportedById : string;
  new_status : option string;
}.

Definition IncidentCreateSchema `{Platform} (body : json) : SafeParse IncidentCreate :=
  match body with
  | JObj props =>
      let occ := required string_datetime (prop "occurredAt" props) in
      let loc := required string_trim_min1 (prop "location" props) in
      let cri := required string_trim_min1 (prop "crimeType" props) in
      let des := required string_trim_min1 (prop "description" props) in
      let rep := required string_cuid (prop "reportedById" props) in
      let sta := optional (enum statuses) (prop "status" props) in
      match occ, loc, cri, des, rep, sta with
      | Valid o, Valid l, Valid c, Valid d, Valid r, Valid s =>
          Success {| new_occurredAt := o; new_location := l; new_crimeType := c;
                     new_description := d; new_reportedById := r;
                     new_status := s |}
      | _, _, _, _, _, _ =>
          Failure (failed "occurredAt" occ ++ failed "location" loc
                   ++ failed "crimeType" cri ++ failed "description" des
                   ++ failed "reportedById" rep ++ failed "status" sta)
      end
  | _ => Failure []
  end.

Record EvidenceCreate := {
  new_ev_description : string;
  new_ev_type : string;
  new_ev_storageReference : string;
}.

Definition EvidenceCreateSchema (body : json) : SafeParse EvidenceCreate :=
  match body with
  | JObj props =>
      let des := required string_trim_min1 (prop "description" props) in
      let typ := required (enum evidenceTypes) (prop "type" props) in
      let ref := required string_trim_min1 (prop "storageReference" props) in
      match des, typ, ref with
      | Valid d, Valid t, Valid r =>
          Success {| new_ev_description := d; new_ev_type := t;
                     new_ev_storageReference := r |}
      | _, _, _ =>
          Failure (failed "description" des ++ failed "type" typ
                   ++ failed "storageReference" ref)
      end
  | _ => Failure []
  end.

End Schemas.

(* ===================================================================== *)
(** ** middleware.ts: the access gate                                     *)
(* ===================================================================== *)

Module Middleware.

(** The gate either answers itself or lets the request proceed with the
    given request headers ([NextResponse.next]). *)
Inductive Outcome :=
| Respond (r : Response)
| Next (requestHeaders : gmap string string).

(** Module-level bindings: [const JWT_SECRET = process.env.JWT_SECRET] and
    the cached [let secretKey]. *)
Record State := {
  JWT_SECRET : option string;
  secretKey : option string;
}.

Definition initial (secret : option string) : State :=
  {| JWT_SECRET := secret; secretKey := None |}.

(** The message chosen in the catch block from [error.code]. *)
Definition failure_message (code : option string) : string :=
  if bool_decide (code = Some "ERR_JWT_EXPIRED") then "Token has expired."
  else if match code with Some c => Js.startsWith c "ERR_JWT" | None => false end
       then "Invalid token (verification failed)."
  else if bool_decide (code = Some "ERR_JOSE_GENERIC") then "Token processing failed."
  else "Invalid or expired token.".

Definition string_of_bool (b : bool) : string := if b then "true" else "false".

(** The header value a claim of a verified payload gives: the claim as a
    string, normalized; [None] when [Headers.set] refuses it. *)
Definition claim `{Platform} (payload : list (string * json)) (name : string)
  : option string :=
  Headers.value (js_String (prop name payload)).

(** [token]: set when the Authorization header exists and starts with
    'Bearer ', to what follows the prefix. *)
Definition token (request : Request) : option string :=
  let authHeader := headers_get (headers request) "Authorization" in
  match authHeader with
  | Some a => if Js.truthy authHeader && Js.startsWith a "Bearer "
              then Some (Js.substring_from 7 a) else None
  | None => None
  end.

(** The cached key after the first lines of the middleware:
    [if (!secretKey && JWT_SECRET) secretKey = encode(JWT_SECRET)].  The
    key is kept as the string whose bytes TextEncoder yields. *)
Definition cached_key (s : State) : option string :=
  match secretKey s with
  | Some k => Some k
  | None => if Js.truthy (JWT_SECRET s) then JWT_SECRET s else None
  end.

Definition middleware `{Platform} (s : State) (request : Request) : Outcome * State :=
  let key := cached_key s in
  let s' := {| JWT_SECRET := JWT_SECRET s; secretKey := key |} in
  let requestHeaders := headers request in
  match token request with
  | Some (String c r as tok) =>
      match key with
      | None =>
          (Respond (respond (Message "Internal server configuration error.") 500), s')
      | Some k =>
          match jwtVerify tok k with
          | Verified payload =>
              (* the three calls are inside the try: a TypeError of
                 Headers.set is caught like an error of jose, without a
                 code *)
              match
                Headers.set requestHeaders "X-User-Id" (js_String (prop "userId" payload))
                ≫= fun h1 =>
                Headers.set h1 "X-User-BadgeId" (js_String (prop "badgeId" payload))
                ≫= fun h2 =>
                Headers.set h2 "X-User-IsAdmin" (js_String (prop "isAdmin" payload))
              with
              | Some h3 => (Next h3, s')
              | None => (Respond (respond (Message (failure_message None)) 401), s')
              end
          | Thrown code =>
              (Respond (respond (Message (failure_message code)) 401), s')
          end
      end
  | _ => (Respond (respond (Message "Authentication required.") 401), s')
  end.

(** [config.matcher]: '/api/incidents' and '/api/incidents/:id*'.  The
    framework compiles an entry to the regular expression
    ^(?:\/(_next\/data\/[^/]{1,}))?<entry>(.json)?[\/#\?]?$, so that a path
    matches when, after an optional /_next/data/<build> in front, it is
    the prefix followed by any number of non-empty segments and an
    optional trailing slash, or the prefix followed by one more character
    and "json". *)
Fixpoint segments_ok (rest : list string) : bool :=
  match rest with
  | [] => true
  | [""] => true
  | seg :: more => negb (bool_decide (seg = "")) && segments_ok more
  end.

Definition data_prefix (segments : list string) : list string :=
  match segments with
  | "" :: "_next" :: "data" :: String c build :: rest => "" :: rest
  | _ => segments
  end.

(** "incidents", one character and "json" *)
Definition incidents_json (seg : string) : bool :=
  String.prefix "incidents" seg
  && match Js.substring_from 9 seg with
     | String c "json" => true
     | _ => false
     end.

Definition matcher (path : string) : bool :=
  match data_prefix (Js.split "/" path) with
  | "" :: "api" :: "incidents" :: rest => segments_ok rest
  | "" :: "api" :: seg :: rest =>
      incidents_json seg && match rest with [] | [""] => true | _ => false end
  | _ => false
  end.

(** The framework runs the middleware on the matched paths only. *)
Definition gate `{Platform} (s : State) (request : Request) : Outcome * State :=
  if matcher (pathname request) then middleware s request
  else (Next (headers request), s).

(** A route handler behind the middleware stage: it sees the request
    headers the gate passed on. *)
Definition guarded `{Platform} {A : Type}
    (handler : Request -> Response * A) (unchanged : A)
    (s : State) (request : Request) : Response * A * State :=
  match gate s request with
  | (Respond r, s') => (r, unchanged, s')
  | (Next h, s') =>
      (handler {| pathname := pathname request; headers := h;
                  searchParams := searchParams request;
                  json_body := json_body request |}, s')
  end.

End Middleware.

(* ===================================================================== *)
(** ** The authorization test shared by the mutating handlers             *)
(* ===================================================================== *)

(** [!isAdmin && owner !== loggedInUserId] is the denial; this is its
    negation. *)
Definition allowed (isAdmin : bool) (loggedInUserId owner : string) : bool :=
  isAdmin || bool_decide (owner = loggedInUserId).

(** The identity a handler reads from the request headers. *)
Definition loggedInUserId (request : Request) : option string :=
  headers_get (headers request) "X-User-Id".

Definition isAdmin_header (request : Request) : bool :=
  bool_decide (headers_get (headers request) "X-User-IsAdmin" = Some "true").

(* ===================================================================== *)
(** ** app/api/incidents/[id]/route.ts                                    *)
(* ===================================================================== *)

Module IncidentIdRoute.

(** [segments[segments.length - 1]] of [pathname.split('/')] *)
Definition path_id (request : Request) : option string :=
  last (Js.split "/" (pathname request)).

(** The construction of [updateData] from the validated patch, up to and
    including the removal of the undefined keys. *)
Definition updateData (v : Schemas.IncidentUpdate) : Db.IncidentUpdateInput :=
  let closing :=
    match Schemas.up_closingReason v with
    | Some r => Some (if bool_decide (r = Some "") then None else r)
    | None => None
    end in
  let closing' :=
    if Js.truthy (Schemas.up_status v)
       && negb (bool_decide (Schemas.up_status v = Some "Closed"))
    then Some None else closing in
  {| Db.set_occurredAt := Schemas.up_occurredAt v;
     Db.set_location := Schemas.up_location v;
     Db.set_crimeType := Schemas.up_crimeType v;
     Db.set_description := Schemas.up_description v;
     Db.set_status := Schemas.up_status v;
     Db.set_closingReason := closing' |}.

(** [Object.keys(updateData).length] *)
Definition keys (d : Db.IncidentUpdateInput) : nat :=
  Schemas.present (Db.set_occurredAt d) + Schemas.present (Db.set_location d)
  + Schemas.present (Db.set_crimeType d) + Schemas.present (Db.set_description d)
  + Schemas.present (Db.set_status d) + Schemas.present (Db.set_closingReason d).

Definition PATCH `{Platform} (st : Store) (env : Env) (request : Request)
  : Response * Store :=
  match path_id request with
  | Some (String c r as key) =>
      if bool_decide (key = "[id]")
      then (respond (Message "Incident ID missing or invalid in URL path.") 400, st)
      else
      match loggedInUserId request with
      | Some (String c' r' as uid) =>
          match incidents st !! key with
          | None => (respond (Message ("Incident " ++ key ++ " not found.")) 404, st)
          | Some incident =>
              if negb (isAdmin_header request)
                 && negb (bool_decide (reportedById incident = uid))
              then (respond (Message "Forbidden: Not authorized.") 403, st)
              else
              match json_body request with
              | None => (respond (Message "Invalid JSON payload.") 400, st)
              | Some body =>
                  match Schemas.IncidentUpdateSchema body with
                  | Schemas.Failure errors =>
                      (respond (InvalidInput "Invalid input." errors) 400, st)
                  | Schemas.Success validatedData =>
                      let d := updateData validatedData in
                      if Nat.eqb (keys d) 0
                      then (respond (Message
                             "No valid fields provided for update after processing.") 400, st)
                      else
                        let st' := Db.incident_update st (now env) key d in
                        let updatedIncident := Db.write (now env) d incident in
                        (respond (IncidentJson updatedIncident
                                    (Db.summary st' (reportedById updatedIncident))) 200,
                         st')
                  end
              end
          end
      | _ => (respond (Message "User ID not found.") 401, st)
      end
  | _ => (respond (Message "Incident ID missing or invalid in URL path.") 400, st)
  end.

Definition DELETE (st : Store) (request : Request) : Response * Store :=
  match path_id request with
  | Some (String c r as key) =>
      if bool_decide (key = "[id]")
      then (respond (Message "Incident ID missing or invalid in URL path.") 400, st)
      else
      match loggedInUserId request with
      | Some (String c' r' as uid) =>
          match incidents st !! key with
          | None => (respond (Message ("Incident " ++ key ++ " not found.")) 404, st)
          | Some incident =>
              if negb (isAdmin_header request)
                 && negb (bool_decide (reportedById incident = uid))
              then (respond (Message "Forbidden: Not authorized.") 403, st)
              else (respond NoContent 204, Db.incident_delete st key)
          end
      | _ => (respond (Message "User ID not found.") 401, st)
      end
  | _ => (respond (Message "Incident ID missing or invalid in URL path.") 400, st)
  end.

End IncidentIdRoute.

(* ===================================================================== *)
(** ** app/api/incidents/route.ts                                         *)
(* ===================================================================== *)

Module IncidentsRoute.

Definition allowedSortByFields : list string :=
  ["reportedAt"; "occurredAt"; "status"; "crimeType"; "location"].

Definition page (request : Request) : Js.Num :=
  Js.parseInt (Js.or_default (searchParams_get (searchParams request) "page") "1").

Definition limit (request : Request) : Js.Num :=
  Js.parseInt (Js.or_default (searchParams_get (searchParams request) "limit") "10").

Definition validatedPage (request : Request) : Js.Num :=
  Js.max (Js.Int 1) (page request).

Definition validatedLimit (request : Request) : Js.Num :=
  Js.max (Js.Int 1) (Js.min (Js.Int 50) (limit request)).

Definition skip (request : Request) : Js.Num :=
  Js.mul (Js.sub (validatedPage request) (Js.Int 1)) (validatedLimit request).

Definition whereClause (request : Request) : Db.Where :=
  let statusFilter := searchParams_get (searchParams request) "status" in
  let searchQuery := searchParams_get (searchParams request) "searchQuery" in
  {| Db.where_status :=
       match statusFilter with
       | Some f => if Js.truthy statusFilter && Js.includes Schemas.statuses f
                   then Some f else None
       | None => None
       end;
     Db.where_OR :=
       match searchQuery with
       | Some q => if Js.truthy searchQuery && Nat.ltb 0 (Js.length (Js.trim q))
                   then Some q else None
       | None => None
       end |}.

Definition sortBy (request : Request) : string :=
  Js.or_default (searchParams_get (searchParams request) "sortBy") "reportedAt".

Definition sortOrder (request : Request) : string :=
  Js.or_default (searchParams_get (searchParams request) "sortOrder") "desc".

Definition orderByClause (request : Request) : OrderBy :=
  if Js.includes allowedSortByFields (sortBy request)
     && Js.includes ["asc"; "desc"] (sortOrder request)
  then {| ob_field := sortBy request; ob_order := sortOrder request |}
  else {| ob_field := "reportedAt"; ob_order := "desc" |}.

Definition GET `{Platform} (st : Store) (request : Request) : Response :=
  match Db.findMany st (whereClause request) (skip request) (validatedLimit request)
                    (orderByClause request) with
  | Some rows =>
      let totalCount := Db.count st (whereClause request) in
      let totalPages := Js.ceil_quot (Js.Int totalCount) (validatedLimit request) in
      (* { currentPage: validatedPage, totalPages, totalCount, limit: validatedLimit } *)
      respond (IncidentPage rows
                 (Build_Pagination (validatedPage request) totalPages totalCount
                                   (validatedLimit request))) 200
  | None => respond (Message "Failed to retrieve incidents.") 500
  end.

Definition POST `{Platform} (st : Store) (env : Env) (request : Request)
  : Response * Store :=
  match json_body request with
  | None => (respond (Message "Invalid JSON payload.") 400, st)
  | Some body =>
      match Schemas.IncidentCreateSchema body with
      | Schemas.Failure errors =>
          (respond (InvalidInput "Invalid input." errors) 400, st)
      | Schemas.Success data =>
          let reportedById := Schemas.new_reportedById data in
          match users st !! reportedById with
          | None =>
              (respond (Message ("Reporting user with ID " ++ reportedById
                                 ++ " not found or invalid.")) 400, st)
          | Some reportingUser =>
              (* new Date(occurredAt); an Invalid Date is refused by the
                 client and falls to the last line of the catch block *)
              match newDate (JStr (Schemas.new_occurredAt data)) with
              | None => (respond (Message "Failed to create incident.") 500, st)
              | Some occ =>
                  match Db.incident_create st env occ
                          (Schemas.new_location data) (Schemas.new_crimeType data)
                          (Schemas.new_description data) reportedById
                          (Js.or_default (Schemas.new_status data) "Open") with
                  | inr (newIncident, st') =>
                      (respond (IncidentJson newIncident
                                  (Db.summary st' reportedById)) 201, st')
                  | inl (Db.P2002 target) =>
                      (respond (Message ("Unique constraint violation: " ++ target)) 409, st)
                  | inl (Db.P2003 field_name) =>
                      (respond (Message ("Foreign key constraint violation: "
                                         ++ field_name)) 400, st)
                  end
              end
          end
      end
  end.

End IncidentsRoute.

(* ===================================================================== *)
(** ** app/api/incidents/[id]/evidence/route.ts                           *)
(* ===================================================================== *)

Module EvidenceRoute.

(** [segments.length >= 3 ? segments[segments.length - 2] : undefined] *)
Definition path_incidentId (request : Request) : option string :=
  let segments := Js.split "/" (pathname request) in
  if Nat.leb 3 (length segments) then segments !! (length segments - 2)%nat else None.

Definition POST (st : Store) (env : Env) (request : Request) : Response * Store :=
  match path_incidentId request with
  | Some (String c r as incidentId) =>
      if bool_decide (incidentId = "[id]")
      then (respond (Message "Incident ID missing or invalid in URL path.") 400, st)
      else
      match loggedInUserId request with
      | Some (String c' r' as uid) =>
          match incidents st !! incidentId with
          | None =>
              (respond (Message ("Incident with ID " ++ incidentId ++ " not found.")) 404, st)
          | Some incidentExists =>
              match json_body request with
              | None => (respond (Message "Invalid JSON payload.") 400, st)
              | Some body =>
                  match Schemas.EvidenceCreateSchema body with
                  | Schemas.Failure errors =>
                      (respond (InvalidInput "Invalid input." errors) 400, st)
                  | Schemas.Success data =>
                      match Db.evidence_create st env
                              (Schemas.new_ev_description data) (Schemas.new_ev_type data)
                              (Schemas.new_ev_storageReference data) incidentId uid with
                      | inr (newEvidence, st') =>
                          (respond (EvidenceJson newEvidence (Db.summary st' uid)) 201, st')
                      | inl (Db.P2003 _) =>
                          (respond (Message
                             "Foreign key constraint violation. Ensure incident and user exist.")
                             400, st)
                      | inl (Db.P2002 _) =>
                          (respond (Message
                             "Failed to add evidence due to an internal server error.") 500, st)
                      end
                  end
              end
          end
      | _ => (respond (Message "Authentication required.") 401, st)
      end
  | _ => (respond (Message "Incident ID missing or invalid in URL path.") 400, st)
  end.

End EvidenceRoute.

(* ===================================================================== *)
(** ** app/api/incidents/[id]/evidence/[evidenceId]/route.ts              *)
(* ===================================================================== *)

Module EvidenceIdRoute.

(** [params]: the two dynamic segments of the matched route, [id] and
    [evidenceId]. *)
Record RouteParams := { param_id : string; param_evidenceId : string }.

Definition DELETE (st : Store) (request : Request) (params : RouteParams)
  : Response * Store :=
  let pathIncidentId := param_id params in
  let evidenceId := param_evidenceId params in
  if bool_decide (pathIncidentId = "") || bool_decide (evidenceId = "")
  then (respond (Message "Incident ID and Evidence ID are required.") 400, st)
  else
  match loggedInUserId request with
  | Some (String c r as uid) =>
      match evidence st !! evidenceId with
      | None =>
          (respond (Message ("Evidence with ID " ++ evidenceId ++ " not found.")) 404, st)
      | Some evidenceItem =>
          if negb (bool_decide (incidentId evidenceItem = pathIncidentId))
          then (respond (Message ("Evidence " ++ evidenceId
                                  ++ " does not belong to incident "
                                  ++ pathIncidentId ++ ".")) 400, st)
          else if negb (isAdmin_header request)
                  && negb (bool_decide (addedById evidenceItem = uid))
          then (respond (Message
                  "Forbidden: You are not authorized to delete this evidence.") 403, st)
          else (respond NoContent 204, Db.evidence_delete st evidenceId)
      end
  | _ => (respond (Message "Authentication required.") 401, st)
  end.

End EvidenceIdRoute.

(* ===================================================================== *)
(** ** The API as a transition system on the store                        *)
(* ===================================================================== *)

Inductive Call :=
| PatchIncident (env : Env) (request : Request)
| DeleteIncident (request : Request)
| CreateIncident (env : Env) (request : Request)
| ListIncidents (request : Request)
| CreateEvidence (env : Env) (request : Request)
| DeleteEvidence (request : Request) (params : EvidenceIdRoute.RouteParams).

Definition handle `{Platform} (st : Store) (c : Call) : Response * Store :=
  match c with
  | PatchIncident env request => IncidentIdRoute.PATCH st env request
  | DeleteIncident request => IncidentIdRoute.DELETE st request
  | CreateIncident env request => IncidentsRoute.POST st env request
  | ListIncidents request => (IncidentsRoute.GET st request, st)
  | CreateEvidence env request => EvidenceRoute.POST st env request
  | DeleteEvidence request params => EvidenceIdRoute.DELETE st request params
  end.

Fixpoint run `{Platform} (st : Store) (calls : list Call) : Store :=
  match calls with
  | [] => st
  | c :: rest => run (handle st c).2 rest
  end.

(** The call creates an incident under the id [k]. *)
Definition creates (k : string) (c : Call) : Prop :=
  match c with
  | CreateIncident env _ => cuid_id env = k
  | _ => False
  end.

(** The three operations the ownership rule guards, and the owner of the
    record each one addresses. *)
Inductive Mutation :=
| UpdateIncident (env : Env)
| RemoveIncident
| RemoveEvidence (params : EvidenceIdRoute.RouteParams).

Definition mutate `{Platform} (op : Mutation) (st : Store) (request : Request)
  : Response * Store :=
  match op with
  | UpdateIncident env => IncidentIdRoute.PATCH st env request
  | RemoveIncident => IncidentIdRoute.DELETE st request
  | RemoveEvidence params => EvidenceIdRoute.DELETE st request params
  end.

Definition owner (op : Mutation) (st : Store) (request : Request) : option string :=
  match op with
  | UpdateIncident _ | RemoveIncident =>
      match IncidentIdRoute.path_id request with
      | Some key => reportedById <$> incidents st !! key
      | None => None
      end
  | RemoveEvidence params =>
      addedById <$> evidence st !! EvidenceIdRoute.param_evidenceId params
  end.

(** The route was matched with non-empty dynamic segments. *)
Definition routed (op : Mutation) (request : Request) : Prop :=
  match op with
  | UpdateIncident _ | RemoveIncident =>
      exists key, IncidentIdRoute.path_id request = Some key
                  /\ key <> "" /\ key <> "[id]"
  | RemoveEvidence params =>
      EvidenceIdRoute.param_id params <> ""
      /\ EvidenceIdRoute.param_evidenceId params <> ""
  end.

(** For an evidence delete: the evidence belongs to the incident of the
    path. *)
Definition path_consistent (op : Mutation) (st : Store) : Prop :=
  match op with
  | RemoveEvidence params =>
      forall e, evidence st !! EvidenceIdRoute.param_evidenceId params = Some e ->
                incidentId e = EvidenceIdRoute.param_id params
  | _ => True
  end.

Definition valid_status (i : Incident) : Prop :=
  status i = "Open" \/ status i = "Under Investigation" \/ status i = "Closed".

(** The JSON values the status enum accepts. *)
Definition status_value (x : json) : Prop :=
  x = JStr "Open" \/ x = JStr "Under Investigation" \/ x = JStr "Closed".

#[global] Instance valid_status_dec (i : Incident) : Decision (valid_status i).
Proof. unfold valid_status. apply _. Defined.

(** The keys of the update schema. *)
Definition updatable : list string :=
  ["occurredAt"; "location"; "crimeType"; "description"; "status"; "closingReason"].

(** The number of updatable fields a patch carries. *)
Definition effective_fields (body : json) : nat :=
  match body with
  | JObj props => length (List.filter (fun k => bool_decide (is_Some (prop k props))) updatable)
  | _ => 0
  end.

(** The signing secret the deployment configures, if any: an empty
    JWT_SECRET counts as none. *)
Definition configured_secret (s : Middleware.State) : option string :=
  if Js.truthy (Middleware.JWT_SECRET s) then Middleware.JWT_SECRET s else None.

(** The header names the gate writes. *)
Definition identity_headers : list string :=
  ["x-user-id"; "x-user-badgeid"; "x-user-isadmin"].

(** The gate's invariant on its cached key: it is empty or the configured,
    non-empty secret. *)
Definition key_cached (s : Middleware.State) : Prop :=
  Middleware.secretKey s = None
  \/ (Middleware.secretKey s = Middleware.JWT_SECRET s
      /\ Js.truthy (Middleware.JWT_SECRET s) = true).

(* ===================================================================== *)
(** ** A concrete platform, store and requests for the examples           *)
(* ===================================================================== *)

Module Sample.

Definition officer : TokenPayload :=
  {| userId := "cuser0001"; badgeId := "OFFICER123"; isAdmin := false |}.

(** A no-break space (U+00A0) and an e with acute accent (U+00E9), two
    bytes each. *)
Definition nbsp : string := String "194" (String "160" "").
Definition e_acute : string := String "195" (String "169" "").

(** An officer whose badge id starts with a Greek capital omega (U+03A9,
    the bytes 206 and 169). *)
Definition omega_7 : string := String "206" (String "169" "-7").

Definition inspector : TokenPayload :=
  {| userId := "cnew00001"; badgeId := omega_7; isAdmin := false |}.

(** The payload jose returns for a token of the login route: the claims
    signed and the two times set on signing. *)
Definition claims (p : TokenPayload) : list (string * json) :=
  [("userId", JStr (userId p)); ("badgeId", JStr (badgeId p));
   ("isAdmin", JBool (isAdmin p));
   ("iat", JNum "1745140072"); ("exp", JNum "1745143672")].

(** The payload of the token of the seeding script, signed before isAdmin
    was added to the claims. *)
Definition seeding : list (string * json) :=
  [("userId", JStr "cuser0001"); ("badgeId", JStr "OFFICER123");
   ("iat", JNum "1745140072"); ("exp", JNum "1745143672")].

Fixpoint contains (hay needle : string) : bool :=
  String.prefix needle hay
  || match hay with
     | String _ r => contains r needle
     | EmptyString => false
     end.

(** ORDER BY as an insertion sort on the column, strings by their bytes. *)
Definition before (ob : OrderBy) (a b : Incident) : bool :=
  let up :=
    if String.eqb (ob_field ob) "occurredAt" then (occurredAt a <=? occurredAt b)%Z
    else if String.eqb (ob_field ob) "status" then String.leb (status a) (status b)
    else if String.eqb (ob_field ob) "crimeType" then String.leb (crimeType a) (crimeType b)
    else if String.eqb (ob_field ob) "location" then String.leb (location a) (location b)
    else (reportedAt a <=? reportedAt b)%Z in
  let down :=
    if String.eqb (ob_field ob) "occurredAt" then (occurredAt b <=? occurredAt a)%Z
    else if String.eqb (ob_field ob) "status" then String.leb (status b) (status a)
    else if String.eqb (ob_field ob) "crimeType" then String.leb (crimeType b) (crimeType a)
    else if String.eqb (ob_field ob) "location" then String.leb (location b) (location a)
    else (reportedAt b <=? reportedAt a)%Z in
  if String.eqb (ob_order ob) "asc" then up else down.

Fixpoint place (ob : OrderBy) (x : Incident) (rows : list Incident) : list Incident :=
  match rows with
  | [] => [x]
  | y :: rest => if before ob x y then x :: rows else y :: place ob x rest
  end.

Definition sort (ob : OrderBy) (rows : list Incident) : list Incident :=
  foldr (place ob) [] rows.

Definition platform : Platform :=
  {| newDate := fun x => match x with
                         | JStr "2025-04-20T10:00:00Z" => Some 1745143200000%Z
                         | _ => None
                         end;
     isIsoDatetime := fun s => bool_decide (s = "2025-04-20T10:00:00Z");
     isCuid := fun s => String.prefix "c" s && Nat.leb 9 (String.length s);
     jwtVerify := fun tok key =>
       if bool_decide (tok = "signed.by.officer") && bool_decide (key = "s3cret")
       then Verified (claims officer)
       else if bool_decide (tok = "signed.by.inspector") && bool_decide (key = "s3cret")
       then Verified (claims inspector)
       else if bool_decide (tok = "signed.for.seeding") && bool_decide (key = "s3cret")
       then Verified seeding
       else if bool_decide (tok = "old.token") then Thrown (Some "ERR_JWT_EXPIRED")
       else Thrown (Some "ERR_JWS_SIGNATURE_VERIFICATION_FAILED");
     numberString := fun literal => literal;
     containsInsensitive := fun hay needle =>
       contains (Js.toLowerCase hay) (Js.toLowerCase needle);
     orderRows := fun ob _ _ rows => sort ob rows;
     dbInt := fun z => (- 2 ^ 63 <=? z)%Z && (z <? 2 ^ 63)%Z |}.

Definition user (i b : string) (a : bool) : User :=
  {| user_id := i; user_badgeId := b; user_name := b;
     user_password := "$2a$10$hash"; user_isAdmin := a |}.

Definition theft : Incident :=
  {| id := "cinc00001"; caseNumber := "ccase0001"; reportedAt := 100;
     occurredAt := 90; location := "Brodipet 4th Lane, Guntur";
     crimeType := "Petty Theft (Shop)"; description := "Report filed.";
     status := "Open"; closingReason := None; createdAt := 100;
     updatedAt := 100; reportedById := "cuser0001" |}.

Definition burglary : Incident :=
  {| id := "cinc00002"; caseNumber := "ccase0002"; reportedAt := 200;
     occurredAt := 150; location := "Market Center, Old Guntur";
     crimeType := "Burglary (Residential - Attempted)"; description := "Witness pending.";
     status := "Closed"; closingReason := Some "Suspect charged."; createdAt := 200;
     updatedAt := 250; reportedById := "cuser0002" |}.

Definition photo : Evidence :=
  {| ev_id := "cevid0001"; ev_description := "Shop front"; ev_type := "Photo";
     ev_storageReference := "locker-7"; ev_createdAt := 110; ev_updatedAt := 110;
     incidentId := "cinc00001"; addedById := "cuser0001" |}.

Definition store : Store :=
  {| users := <["cuser0001" := user "cuser0001" "OFFICER123" false]>
              (<["cuser0002" := user "cuser0002" "OFFICER456" false]>
               (<["cadmin001" := user "cadmin001" "CHIEF1" true]> ∅));
     incidents := <["cinc00001" := theft]> (<["cinc00002" := burglary]> ∅);
     evidence := <["cevid0001" := photo]> ∅ |}.

Definition env : Env :=
  {| now := 1000; cuid_id := "cnew00001"; cuid_caseNumber := "cnewcase1" |}.

(** The request headers a handler sees for a given caller. *)
Definition as_user (uid : string) (admin : bool) : gmap string string :=
  headers_set (headers_set ∅ "X-User-Id" uid) "X-User-IsAdmin"
              (Middleware.string_of_bool admin).

Definition request (path : string) (h : gmap string string)
    (q : list (string * string)) (b : option json) : Request :=
  {| pathname := path; headers := h; searchParams := q; json_body := b |}.

Definition state : Middleware.State := Middleware.initial (Some "s3cret").

(** DELETE /api/incidents/:pid/evidence/cevid0001 as the given caller. *)
Definition photo_params (pid : string) : EvidenceIdRoute.RouteParams :=
  {| EvidenceIdRoute.param_id := pid; EvidenceIdRoute.param_evidenceId := "cevid0001" |}.

Definition delete_photo (pid uid : string) (admin : bool) : Request :=
  request ("/api/incidents/" ++ pid ++ "/evidence/cevid0001") (as_user uid admin) [] None.

(** /api/incidents/cinc00001 as the given caller, with a JSON body. *)
Definition on_theft (uid : string) (admin : bool) (b : option json) : Request :=
  request "/api/incidents/cinc00001" (as_user uid admin) [] b.

(** A patch of closingReason alone, and one that reopens with a reason. *)
Definition reason_only : Request :=
  on_theft "cuser0001" false (Some (JObj [("closingReason", JStr "left open")])).

Definition reopen_with_reason : Request :=
  on_theft "cuser0001" false
    (Some (JObj [("status", JStr "Under Investigation");
                 ("closingReason", JStr "should not stay")])).

(** POST /api/incidents/cinc00001/evidence with the officer's token, a
    forged X-User-Id header and a body that names another adder. *)
Definition add_evidence : Request :=
  request "/api/incidents/cinc00001/evidence"
    (headers_set (headers_set ∅ "Authorization" "Bearer signed.by.officer")
                 "X-User-Id" "cuser0002")
    []
    (Some (JObj [("description", JStr "CCTV still"); ("type", JStr "Photo");
                 ("storageReference", JStr "locker-9");
                 ("addedById", JStr "cuser0002")])).

(** /api/incidents with a query string, and with a JSON body. *)
Definition listing (q : list (string * string)) : Request :=
  request "/api/incidents" ∅ q None.

Definition create (uid : string) (b : json) : Request :=
  request "/api/incidents" (as_user uid false) [] (Some b).

(** A valid report naming [rep] as the reporting user, with extra keys. *)
Definition report (rep : string) (extra : list (string * json)) : json :=
  JObj ([("occurredAt", JStr "2025-04-20T10:00:00Z");
         ("location", JStr "RTC Bus Stand Complex, Guntur");
         ("crimeType", JStr "Pickpocketing (Bus Stand)");
         ("description", JStr "Reported by patrol unit.");
         ("reportedById", JStr rep)] ++ extra).

(** The record POST stores for [report "cuser0002" []] under [env]. *)
Definition filed : Incident :=
  {| id := "cnew00001"; caseNumber := "cnewcase1"; reportedAt := 1000;
     occurredAt := 1745143200000; location := "RTC Bus Stand Complex, Guntur";
     crimeType := "Pickpocketing (Bus Stand)"; description := "Reported by patrol unit.";
     status := "Open"; closingReason := None; createdAt := 1000;
     updatedAt := 1000; reportedById := "cuser0002" |}.

Definition later : Env :=
  {| now := 2000; cuid_id := "cnew00002"; cuid_caseNumber := "cnewcase2" |}.

(** The admin closes the new incident. *)
Definition close_filed : Call :=
  PatchIncident later
    (request "/api/incidents/cnew00001" (as_user "cadmin001" true) []
       (Some (JObj [("status", JStr "Closed"); ("closingReason", JStr "Resolved.");
                    ("reportedById", JStr "cadmin001")]))).

Definition filed_closed : Incident :=
  {| id := "cnew00001"; caseNumber := "cnewcase1"; reportedAt := 1000;
     occurredAt := 1745143200000; location := "RTC Bus Stand Complex, Guntur";
     crimeType := "Pickpocketing (Bus Stand)"; description := "Reported by patrol unit.";
     status := "Closed"; closingReason := Some "Resolved."; createdAt := 1000;
     updatedAt := 2000; reportedById := "cuser0002" |}.

End Sample.

(** What a patch says about closingReason: the trimmed string it carries
    (the empty one standing for null), null, or, when the patch has no such
    key, the value held before. *)
Definition patched_closingReason (props : list (string * json))
    (previous : option string) : option string :=
  match prop "closingReason" props with
  | Some (JStr r) => if bool_decide (Js.trim r = "") then None else Some (Js.trim r)
  | Some _ => None
  | None => previous
  end.

(* ===================================================================== *)
(** ** Statements of the specification that the handlers do not satisfy   *)
(* ===================================================================== *)

(** C1 as the specification has it: after every successful PATCH the
    stored closingReason is null whenever the stored status is not
    'Closed'. *)
Definition closingReason_null_unless_closed : Prop :=
  forall (P : Platform) (st st' : Store) (env : Env) (request : Request)
         (resp : Response) (key : string) (i' : Incident),
    IncidentIdRoute.PATCH st env request = (resp, st') ->
    http_status resp = 200%Z ->
    IncidentIdRoute.path_id request = Some key ->
    incidents st' !! key = Some i' ->
    status i' <> "Closed" ->
    closingReason i' = None.

(** C2 as the specification has it: an authenticated actor who is neither
    admin nor owner of the addressed record gets 403, on each of the three
    operations. *)
Definition denied_is_forbidden : Prop :=
  forall (P : Platform) (op : Mutation) (st : Store) (request : Request)
         (uid o : string),
    loggedInUserId request = Some uid -> uid <> "" ->
    routed op request ->
    owner op st request = Some o ->
    allowed (isAdmin_header request) uid o = false ->
    http_status (mutate op st request).1 = 403%Z /\ (mutate op st request).2 = st.

(** C3 as the specification has it: the incident created by POST /incidents
    is owned by the caller the gate identified. *)
Definition creator_becomes_owner : Prop :=
  forall (P : Platform) (st st' : Store) (env : Env) (request : Request)
         (resp : Response) (uid : string),
    loggedInUserId request = Some uid ->
    IncidentsRoute.POST st env request = (resp, st') ->
    http_status resp = 201%Z ->
    exists i, incidents st' !! cuid_id env = Some i /\ reportedById i = uid.

(* ===================================================================== *)
(** ** Further services: bcrypt, SignJWT, ORDER BY on evidence            *)
(* ===================================================================== *)

Class Services := {
  (** [bcrypt.hash(password, rounds)], with the salt it draws *)
  bcryptHash : string -> Z -> string -> string;
  (** [bcrypt.compare(password, hash)] *)
  bcryptCompare : string -> string -> bool;
  (** [new SignJWT(payload).setProtectedHeader({ alg: 'HS256' })
      .setIssuedAt().setExpirationTime('1h').sign(key)], at the given time *)
  signJWT : TokenPayload -> Z -> string -> string;
  (** the database's ORDER BY createdAt ASC on evidence rows *)
  orderEvidence : list Evidence -> list Evidence;
  (** [n.toString()] and [date.toISOString()] *)
  numberToString : Z -> string;
  toISOString : Z -> string;
}.

(* ===================================================================== *)
(** ** app/api/incidents/[id]/route.ts: GET                               *)
(* ===================================================================== *)

Module IncidentIdGet.

Definition GET (st : Store) (request : Request) : Response :=
  match IncidentIdRoute.path_id request with
  | Some (String c r as key) =>
      if bool_decide (key = "[id]")
      then respond (Message "Incident ID missing or invalid in URL path.") 400
      else
      match incidents st !! key with
      | None => respond (Message ("Incident with ID " ++ key ++ " not found.")) 404
      | Some incident =>
          respond (IncidentJson incident (Db.summary st (reportedById incident))) 200
      end
  | _ => respond (Message "Incident ID missing or invalid in URL path.") 400
  end.

End IncidentIdGet.

(* ===================================================================== *)
(** ** app/api/incidents/[id]/evidence/route.ts: GET                      *)
(* ===================================================================== *)

Module EvidenceList.

(** [prisma.evidence.findMany({ where: { incidentId }, orderBy: { createdAt:
    'asc' }, include: { addedBy } })] *)
Definition findMany `{Services} (st : Store) (pathId : string)
  : list (Evidence * option UserSummary) :=
  (fun e => (e, Db.summary st (addedById e)))
    <$> orderEvidence (List.filter (fun e => bool_decide (incidentId e = pathId))
                         (snd <$> map_to_list (evidence st))).

(** The answer is an error response or, with status 200, the JSON array of
    the rows. *)
Definition GET `{Services} (st : Store) (request : Request)
  : Response + list (Evidence * option UserSummary) :=
  match EvidenceRoute.path_incidentId request with
  | Some (String c r as pathId) =>
      if bool_decide (pathId = "[id]")
      then inl (respond (Message "Incident ID missing or invalid in URL path.") 400)
      else
      match loggedInUserId request with
      | Some (String c' r') =>
          match incidents st !! pathId with
          | None =>
              inl (respond (Message ("Incident with ID " ++ pathId ++ " not found.")) 404)
          | Some incidentExists => inr (findMany st pathId)
          end
      | _ => inl (respond (Message "Authentication required.") 401)
      end
  | _ => inl (respond (Message "Incident ID missing or invalid in URL path.") 400)
  end.

End EvidenceList.

(* ===================================================================== *)
(** ** app/api/users/route.ts: POST                                       *)
(* ===================================================================== *)

Module UsersRoute.

Definition SALT_ROUNDS : Z := 10.

(** [z.string().min(n)] *)
Definition string_min (n : nat) (x : json) : Schemas.Parse string :=
  match x with
  | JStr s => if Nat.leb n (Js.length s) then Schemas.Valid s else Schemas.Issue
  | _ => Schemas.Issue
  end.

Record CreateUser := {
  new_badgeId : string;
  new_name : string;
  new_password : string;
}.

Definition CreateUserSchema (body : json) : Schemas.SafeParse CreateUser :=
  match body with
  | JObj props =>
      let bad := Schemas.required Schemas.string_trim_min1 (prop "badgeId" props) in
      let nam := Schemas.required Schemas.string_trim_min1 (prop "name" props) in
      let pas := Schemas.required (string_min 6) (prop "password" props) in
      match bad, nam, pas with
      | Schemas.Valid b, Schemas.Valid n, Schemas.Valid p =>
          Schemas.Success {| new_badgeId := b; new_name := n; new_password := p |}
      | _, _, _ =>
          Schemas.Failure (Schemas.failed "badgeId" bad ++ Schemas.failed "name" nam
                           ++ Schemas.failed "password" pas)
      end
  | _ => Schemas.Failure []
  end.

(** [prisma.user.findUnique({ where: { badgeId } })] *)
Definition findUnique_badgeId (st : Store) (b : string) : option User :=
  head (List.filter (fun u => bool_decide (user_badgeId u = b))
          (snd <$> map_to_list (users st))).

(** The selected columns of the created user; the two timestamps of the
    new row are the clock's. *)
Record UserJson := {
  json_id : string;
  json_badgeId : string;
  json_name : string;
  json_createdAt : Z;
  json_updatedAt : Z;
}.

(** The answer is the created user with status 201, or an error. *)
Inductive Reply :=
| Created (u : UserJson)
| Refused (r : Response).

Definition POST `{Services} (st : Store) (env : Env) (salt : string) (request : Request)
  : Reply * Store :=
  match json_body request with
  | None => (Refused (respond (Message "Invalid JSON payload.") 400), st)
  | Some body =>
      match CreateUserSchema body with
      | Schemas.Failure errors =>
          (Refused (respond (InvalidInput "Invalid input." errors) 400), st)
      | Schemas.Success data =>
          match findUnique_badgeId st (new_badgeId data) with
          | Some existingUser =>
              (Refused (respond (Message ("User with badge ID " ++ new_badgeId data
                                          ++ " already exists.")) 409), st)
          | None =>
              let hashedPassword := bcryptHash salt SALT_ROUNDS (new_password data) in
              (* prisma.user.create: id defaults to cuid(), isAdmin to false *)
              match users st !! cuid_id env with
              | Some _ =>
                  (Refused (respond (Message
                     "Unique constraint violation: A user with this badgeId likely already exists.")
                     409), st)
              | None =>
                  let u := {| user_id := cuid_id env;
                              user_badgeId := new_badgeId data;
                              user_name := new_name data;
                              user_password := hashedPassword;
                              user_isAdmin := false |} in
                  (Created {| json_id := cuid_id env;
                              json_badgeId := new_badgeId data;
                              json_name := new_name data;
                              json_createdAt := now env;
                              json_updatedAt := now env |},
                   {| users := <[cuid_id env := u]> (users st);
                      incidents := incidents st;
                      evidence := evidence st |})
              end
          end
      end
  end.

End UsersRoute.

(* ===================================================================== *)
(** ** app/api/auth/login/route.ts and LoginSchema of app/lib/schemas.ts  *)
(* ===================================================================== *)

Module LoginRoute.

Record Login := { login_badgeId : string; login_password : string }.

Definition LoginSchema (body : json) : Schemas.SafeParse Login :=
  match body with
  | JObj props =>
      let bad := Schemas.required Schemas.string_trim_min1 (prop "badgeId" props) in
      let pas := Schemas.required (UsersRoute.string_min 1) (prop "password" props) in
      match bad, pas with
      | Schemas.Valid b, Schemas.Valid p =>
          Schemas.Success {| login_badgeId := b; login_password := p |}
      | _, _ =>
          Schemas.Failure (Schemas.failed "badgeId" bad ++ Schemas.failed "password" pas)
      end
  | _ => Schemas.Failure []
  end.

(** The claims signed for a user. *)
Definition payload_of (user : User) : TokenPayload :=
  {| userId := user_id user; badgeId := user_badgeId user;
     isAdmin := user_isAdmin user |}.

(** The answer is [{ token }] with status 200, or an error. *)
Inductive Reply :=
| Token (token : string)
| Refused (r : Response).

(** [secret] is [process.env.JWT_SECRET], [t] the time of the call. *)
Definition POST `{Services} (st : Store) (secret : option string) (t : Z)
    (request : Request) : Reply :=
  match json_body request with
  | None => Refused (respond (Message "Invalid JSON payload.") 400)
  | Some body =>
      match LoginSchema body with
      | Schemas.Failure errors => Refused (respond (InvalidInput "Invalid input." errors) 400)
      | Schemas.Success data =>
          match UsersRoute.findUnique_badgeId st (login_badgeId data) with
          | Some user =>
              if bcryptCompare (login_password data) (user_password user) then
                match secret with
                | Some (String c r as key) => Token (signJWT (payload_of user) t key)
                | _ => Refused (respond (Message "Authentication configuration error.") 500)
                end
              else Refused (respond (Message "Invalid credentials.") 401)
          | None => Refused (respond (Message "Invalid credentials.") 401)
          end
      end
  end.

End LoginRoute.

(* ===================================================================== *)
(** ** app/dashboard/page.tsx: sorting state and the query it sends       *)
(* ===================================================================== *)

Module Dashboard.

Inductive SortField :=
| ByReportedAt | ByOccurredAt | ByStatus | ByCrimeType | ByLocation | ByCaseNumber.

Inductive SortOrder := Asc | Desc.

#[global] Instance SortField_eq_dec : EqDecision SortField.
Proof. solve_decision. Defined.

#[global] Instance SortOrder_eq_dec : EqDecision SortOrder.
Proof. solve_decision. Defined.

(** The string each value of the two union types is. *)
Definition field_string (f : SortField) : string :=
  match f with
  | ByReportedAt => "reportedAt"
  | ByOccurredAt => "occurredAt"
  | ByStatus => "status"
  | ByCrimeType => "crimeType"
  | ByLocation => "location"
  | ByCaseNumber => "caseNumber"
  end.

Definition order_string (o : SortOrder) : string :=
  match o with Asc => "asc" | Desc => "desc" end.

(** The state the effect watches. *)
Record State := {
  currentPage : Z;
  sortBy : SortField;
  sortOrder : SortOrder;
}.

Definition handleSort (s : State) (field : SortField) : State :=
  let newSortOrder :=
    if bool_decide (sortBy s = field) && bool_decide (sortOrder s = Asc)
    then Desc else Asc in
  {| currentPage := 1; sortBy := field; sortOrder := newSortOrder |}.

Record Filters := { filter_status : string; filter_search : string }.

(** The URLSearchParams built by fetchIncidents. *)
Definition params `{Services} (page itemsLimit : Z) (filters : Filters)
    (by_ : SortField) (order : SortOrder) : list (string * string) :=
  [("page", numberToString page); ("limit", numberToString itemsLimit)]
  ++ (if Js.truthy (Some (filter_status filters))
      then [("status", filter_status filters)] else [])
  ++ (if Js.truthy (Some (filter_search filters))
         && Nat.ltb 0 (Js.length (Js.trim (filter_search filters)))
      then [("searchQuery", Js.trim (filter_search filters))] else [])
  ++ [("sortBy", field_string by_); ("sortOrder", order_string order)].

(** The request the list route receives for a state: [limit] is the
    constant 10 of the page. *)
Definition fetch `{Services} (s : State) (appliedFilters : Filters)
    (h : gmap string string) : Request :=
  {| pathname := "/api/incidents"; headers := h;
     searchParams := params (currentPage s) 10 appliedFilters (sortBy s) (sortOrder s);
     json_body := None |}.

End Dashboard.

(* ===================================================================== *)
(** ** app/components/IncidentForm.tsx: the payload of processSubmit      *)
(* ===================================================================== *)

Module IncidentForm.

(** [IncidentFormData], the validated form values. *)
Record IncidentFormData := {
  form_occurredAt : Z;
  form_location : string;
  form_crimeType : string;
  form_description : string;
  form_status : string;
  form_closingReason : option (option string);
}.

(** [data.closingReason || null] *)
Definition or_null (x : option (option string)) : json :=
  match x with
  | Some (Some (String c r)) => JStr (String c r)
  | _ => JNull
  end.

Definition basePayload `{Services} (data : IncidentFormData) : list (string * json) :=
  [("occurredAt", JStr (toISOString (form_occurredAt data)));
   ("location", JStr (form_location data));
   ("crimeType", JStr (form_crimeType data));
   ("description", JStr (form_description data));
   ("status", JStr (form_status data));
   ("closingReason",
    if bool_decide (form_status data = "Closed")
    then or_null (form_closingReason data) else JNull)].

(** [isEditMode ? basePayload : { ...basePayload, reportedById: userIdProp }] *)
Definition incidentPayload `{Services} (isEditMode : bool) (userIdProp : string)
    (data : IncidentFormData) : json :=
  if isEditMode then JObj (basePayload data)
  else JObj (basePayload data ++ [("reportedById", JStr userIdProp)]).

End IncidentForm.

(* ===================================================================== *)
(** ** Invariants of the store and further sample data                    *)
(* ===================================================================== *)

(** Incidents are stored under their id. *)
Definition keyed_by_id (st : Store) : Prop :=
  forall k i, incidents st !! k = Some i -> id i = k.

(** No two incidents share a case number. *)
Definition unique_caseNumbers (st : Store) : Prop :=
  forall k1 k2 i1 i2,
    incidents st !! k1 = Some i1 -> incidents st !! k2 = Some i2 ->
    caseNumber i1 = caseNumber i2 -> k1 = k2.

(** The foreign keys of incidents and evidence point at stored rows. *)
Definition references_hold (st : Store) : Prop :=
  (forall k i, incidents st !! k = Some i -> is_Some (users st !! reportedById i))
  /\ (forall k e, evidence st !! k = Some e ->
        is_Some (incidents st !! incidentId e) /\ is_Some (users st !! addedById e)).

(** The required texts of an incident are not empty. *)
Definition texts_filled (i : Incident) : Prop :=
  location i <> "" /\ crimeType i <> "" /\ description i <> "".

(** No two users share a badge id. *)
Definition unique_badgeIds (st : Store) : Prop :=
  forall k1 k2 u1 u2,
    users st !! k1 = Some u1 -> users st !! k2 = Some u2 ->
    user_badgeId u1 = user_badgeId u2 -> k1 = k2.

(** A path segment: not empty and without a slash. *)
Fixpoint slash_free (s : string) : bool :=
  match s with
  | EmptyString => true
  | String c r => negb (Ascii.eqb c "/") && slash_free r
  end.

Definition segment (s : string) : Prop := s <> "" /\ slash_free s = true.

(** The rows a list response carries. *)
Definition page_rows (r : Response) : list (Incident * option UserSummary) :=
  match payload r with IncidentPage rows _ => rows | _ => [] end.

Module Scenario.

Fixpoint digits_of (fuel : nat) (n : Z) (acc : string) : string :=
  match fuel with
  | O => acc
  | S f =>
      let acc' := String (ascii_of_nat (48 + Z.to_nat (n mod 10))) acc in
      if (n <? 10)%Z then acc' else digits_of f (n / 10) acc'
  end.

Definition services : Services :=
  {| bcryptHash := fun salt rounds pw => "$2a$10$" ++ pw;
     bcryptCompare := fun pw h => bool_decide (h = "$2a$10$" ++ pw);
     signJWT := fun p t key =>
       if bool_decide (userId p = "cuser0001") && bool_decide (badgeId p = "OFFICER123")
          && negb (isAdmin p) && bool_decide (key = "s3cret")
       then "signed.by.officer"
       else if bool_decide (userId p = "cnew00001")
               && bool_decide (badgeId p = Sample.omega_7)
               && negb (isAdmin p) && bool_decide (key = "s3cret")
       then "signed.by.inspector"
       else "signed.otherwise";
     orderEvidence := fun rows => rows;
     numberToString := fun n => digits_of 20 n "";
     toISOString := fun _ => "2025-04-20T10:00:00Z" |}.

(** POST /api/auth/login and POST /api/users bodies. *)
Definition credentials (b p : string) : Request :=
  Sample.request "/api/auth/login" ∅ [] (Some (JObj [("badgeId", JStr b); ("password", JStr p)])).

Definition signup (b n p : string) : Request :=
  Sample.request "/api/users" ∅ []
    (Some (JObj [("badgeId", JStr b); ("name", JStr n); ("password", JStr p)])).

(** What the edit form of the open incident sends when it is reopened with
    a stale reason in the text area. *)
Definition form_values : IncidentForm.IncidentFormData :=
  {| IncidentForm.form_occurredAt := 90;
     IncidentForm.form_location := "Brodipet 4th Lane, Guntur";
     IncidentForm.form_crimeType := "Petty Theft (Shop)";
     IncidentForm.form_description := "Report filed.";
     IncidentForm.form_status := "Under Investigation";
     IncidentForm.form_closingReason := Some (Some "stale reason") |}.

Definition edit_theft : Request :=
  Sample.on_theft "cuser0001" false
    (Some (IncidentForm.incidentPayload (H:=services) true "cuser0001" form_values)).

(** The evidence routes of the open incident, as its reporter. *)
Definition list_evidence (pid uid : string) : Request :=
  Sample.request ("/api/incidents/" ++ pid ++ "/evidence") (Sample.as_user uid false) [] None.

Definition post_evidence (pid uid : string) (b : json) : Request :=
  Sample.request ("/api/incidents/" ++ pid ++ "/evidence") (Sample.as_user uid false) []
    (Some b).

Definition cctv : json :=
  JObj [("description", JStr " CCTV still "); ("type", JStr "Photo");
        ("storageReference", JStr "locker-9")].

(** The same with a no-break space before the description. *)
Definition cctv_nbsp : json :=
  JObj [("description", JStr (Sample.nbsp ++ "CCTV still")); ("type", JStr "Photo");
        ("storageReference", JStr "locker-9 ")].

(** A bearer request on /api/incidents/cinc00001. *)
Definition bearer (tok : string) (b : option json) : Request :=
  Sample.request "/api/incidents/cinc00001"
    (headers_set ∅ "Authorization" ("Bearer " ++ tok)) [] b.

End Scenario.

(* ===================================================================== *)
(** * Properties                                                          *)
(* ===================================================================== *)

(** Case analysis on the matches of a handler. *)
Ltac branches := repeat (case_match; simplify_eq/=; try done).

(** ** The JavaScript primitives on a few inputs *)

Example parseInt_inputs :
  Js.parseInt "42" = Js.Int 42 /\ Js.parseInt "  -7px" = Js.Int (-7)
  /\ Js.parseInt "1e3" = Js.Int 1 /\ Js.parseInt "abc" = Js.NaN
  /\ Js.parseInt "" = Js.NaN /\ Js.parseInt "-" = Js.NaN.
Proof. repeat split; reflexivity. Qed.

Example split_path :
  Js.split "/" "/api/incidents/cinc00001/evidence"
  = [""; "api"; "incidents"; "cinc00001"; "evidence"]
  /\ Js.split "/" "" = [""].
Proof. split; reflexivity. Qed.

Example trim_inputs :
  Js.trim "  Market Center " = "Market Center" /\ Js.trim "   " = "".
Proof. split; reflexivity. Qed.

Example trim_unicode :
  Js.trim (Sample.nbsp ++ "Main St" ++ Sample.nbsp) = "Main St"
  /\ Js.trim (Sample.nbsp ++ " ") = ""
  /\ Js.trim (String "239" (String "187" (String "191" "Downtown"))) = "Downtown"
  /\ Js.trim (Sample.e_acute ++ " ") = Sample.e_acute.
Proof. repeat split; reflexivity. Qed.

Example length_units :
  Js.length "s3cure!" = 7
  /\ Js.length (Sample.e_acute ++ Sample.e_acute ++ Sample.e_acute) = 3
  /\ String.length (Sample.e_acute ++ Sample.e_acute ++ Sample.e_acute) = 6.
Proof. repeat split; reflexivity. Qed.

Example parseInt_rounds :
  Js.parseInt "9007199254740993" = Js.Int 9007199254740992
  /\ Js.parseInt "99999999999999999999" = Js.Int 100000000000000000000.
Proof. split; vm_compute; reflexivity. Qed.

Lemma allowed_true (a : bool) (uid o : string) :
  negb a && negb (bool_decide (o = uid)) = false -> allowed a uid o = true.
Proof. unfold allowed. destruct a, (bool_decide (o = uid)); simpl; congruence. Qed.

Lemma allowed_false (a : bool) (uid o : string) :
  allowed a uid o = false <-> negb a && negb (bool_decide (o = uid)) = true.
Proof. unfold allowed. destruct a, (bool_decide (o = uid)); simpl; split; congruence. Qed.

(** ** Evidence delete *)

(** C6: an evidence delete by an authenticated actor answers 404 when the
    evidence does not exist; else 400 when it belongs to another incident
    than the one of the path; else 403 unless the actor is admin or the
    adder; else it deletes the evidence (and nothing else) and answers 204
    without content. *)
Theorem evidence_delete_outcome (st : Store) (request : Request)
    (params : EvidenceIdRoute.RouteParams) (uid : string) :
  loggedInUserId request = Some uid -> uid <> "" ->
  EvidenceIdRoute.param_id params <> "" ->
  EvidenceIdRoute.param_evidenceId params <> "" ->
  let resp := (EvidenceIdRoute.DELETE st request params).1 in
  let st' := (EvidenceIdRoute.DELETE st request params).2 in
  match evidence st !! EvidenceIdRoute.param_evidenceId params with
  | None => http_status resp = 404%Z /\ st' = st
  | Some e =>
      if bool_decide (incidentId e = EvidenceIdRoute.param_id params) then
        if allowed (isAdmin_header request) uid (addedById e) then
          http_status resp = 204%Z /\ payload resp = NoContent
          /\ evidence st' = delete (EvidenceIdRoute.param_evidenceId params) (evidence st)
          /\ incidents st' = incidents st /\ users st' = users st
        else http_status resp = 403%Z /\ st' = st
      else http_status resp = 400%Z /\ st' = st
  end.
Proof.
  intros Hu Hne Hi He. unfold EvidenceIdRoute.DELETE. rewrite Hu.
  rewrite !bool_decide_eq_false_2 by done. simpl.
  destruct uid as [|c r]; [done|].
  destruct (evidence st !! _) as [e|] eqn:Hev; simpl; [|done].
  case_bool_decide; simpl; [|done].
  unfold allowed. destruct (isAdmin_header request); simpl; [done|].
  case_bool_decide; simpl; done.
Qed.

Lemma evidence_delete_outcome_witness :
  let resp := (EvidenceIdRoute.DELETE Sample.store
                 (Sample.delete_photo "cinc00001" "cuser0001" false)
                 (Sample.photo_params "cinc00001")).1 in
  let st' := (EvidenceIdRoute.DELETE Sample.store
                (Sample.delete_photo "cinc00001" "cuser0001" false)
                (Sample.photo_params "cinc00001")).2 in
  http_status resp = 204%Z /\ payload resp = NoContent
  /\ evidence st' = delete "cevid0001" (evidence Sample.store)
  /\ incidents st' = incidents Sample.store /\ users st' = users Sample.store.
Proof.
  exact (evidence_delete_outcome Sample.store
           (Sample.delete_photo "cinc00001" "cuser0001" false)
           (Sample.photo_params "cinc00001") "cuser0001"
           eq_refl ltac:(discriminate) ltac:(discriminate) ltac:(discriminate)).
Defined.

(** ** The ownership rule *)

Example mismatched_path_is_400 :
  allowed (isAdmin_header (Sample.delete_photo "cinc00002" "cuser0002" false))
          "cuser0002" (addedById Sample.photo) = false
  /\ EvidenceIdRoute.DELETE Sample.store
       (Sample.delete_photo "cinc00002" "cuser0002" false)
       (Sample.photo_params "cinc00002")
     = (respond (Message "Evidence cevid0001 does not belong to incident cinc00002.") 400,
        Sample.store).
Proof. split; reflexivity. Qed.

(** C2, counterexample: cuser0002, who is neither admin nor the adder of
    evidence cevid0001 (of incident cinc00001), asks for its deletion under
    the path of incident cinc00002; the answer is 400, not 403. *)
Lemma denied_is_forbidden_fails : ~ denied_is_forbidden.
Proof.
  intros Hclaim.
  destruct (Hclaim Sample.platform
              (RemoveEvidence (Sample.photo_params "cinc00002")) Sample.store
              (Sample.delete_photo "cinc00002" "cuser0002" false)
              "cuser0002" "cuser0001") as [H403 _].
  - reflexivity.
  - discriminate.
  - split; discriminate.
  - reflexivity.
  - reflexivity.
  - simpl in H403. rewrite (proj2 mismatched_path_is_400) in H403. discriminate H403.
Qed.

(** C2, amended: for an authenticated actor and an existing record (for an
    evidence delete: one that belongs to the incident of the path), the
    three operations are refused with 403, the store unchanged, exactly
    when the actor is neither admin nor the owner; an admitted delete
    answers 204 and removes the record, an admitted update answers 200 or,
    on an invalid patch, 400. *)
Theorem ownership_rule `{Platform} (op : Mutation) (st : Store) (request : Request)
    (uid o : string) :
  loggedInUserId request = Some uid -> uid <> "" ->
  routed op request ->
  owner op st request = Some o ->
  path_consistent op st ->
  let resp := (mutate op st request).1 in
  let st' := (mutate op st request).2 in
  if allowed (isAdmin_header request) uid o
  then http_status resp <> 403%Z
       /\ match op with
          | UpdateIncident _ =>
              http_status resp = 200%Z \/ (http_status resp = 400%Z /\ st' = st)
          | RemoveIncident =>
              http_status resp = 204%Z
              /\ forall key, IncidentIdRoute.path_id request = Some key ->
                             incidents st' !! key = None
          | RemoveEvidence params =>
              http_status resp = 204%Z
              /\ evidence st' !! EvidenceIdRoute.param_evidenceId params = None
          end
  else http_status resp = 403%Z /\ st' = st.
Proof.
  intros Hu Hne Hr Ho Hp.
  destruct (allowed (isAdmin_header request) uid o) eqn:Ha.
  - (* admitted *)
    assert (Hno : negb (isAdmin_header request) && negb (bool_decide (o = uid)) = false).
    { destruct (negb _ && negb _) eqn:E; [|done]. apply allowed_false in E. congruence. }
    destruct op as [env| |params]; simpl in *.
    + destruct Hr as (key & Hk & Hk1 & Hk2). rewrite Hk in Ho.
      destruct (incidents st !! key) as [i|] eqn:Hi; simplify_eq/=.
      unfold IncidentIdRoute.PATCH. rewrite Hk, Hu.
      destruct key as [|c r]; [done|]. rewrite bool_decide_eq_false_2 by done.
      destruct uid as [|c' r']; [done|]. rewrite Hi, Hno.
      branches; auto.
    + destruct Hr as (key & Hk & Hk1 & Hk2). rewrite Hk in Ho.
      destruct (incidents st !! key) as [i|] eqn:Hi; simplify_eq/=.
      unfold IncidentIdRoute.DELETE. rewrite Hk, Hu.
      destruct key as [|c r]; [done|]. rewrite bool_decide_eq_false_2 by done.
      destruct uid as [|c' r']; [done|]. rewrite Hi, Hno. simpl.
      repeat split; [done|]. intros key ?; simplify_eq. apply lookup_delete_eq.
    + destruct Hr as [Hi He].
      destruct (evidence st !! _) as [e|] eqn:Hev; simplify_eq/=.
      unfold EvidenceIdRoute.DELETE. rewrite Hu.
      rewrite !bool_decide_eq_false_2 by done. simpl.
      destruct uid as [|c' r']; [done|]. rewrite Hev.
      rewrite (bool_decide_eq_true_2 _ (Hp e eq_refl)). simpl. rewrite Hno. simpl.
      repeat split; [done|]. apply lookup_delete_eq.
  - (* refused *)
    apply allowed_false in Ha.
    destruct op as [env| |params]; simpl in *.
    + destruct Hr as (key & Hk & Hk1 & Hk2). rewrite Hk in Ho.
      destruct (incidents st !! key) as [i|] eqn:Hi; simplify_eq/=.
      unfold IncidentIdRoute.PATCH. rewrite Hk, Hu.
      destruct key as [|c r]; [done|]. rewrite bool_decide_eq_false_2 by done.
      destruct uid as [|c' r']; [done|]. rewrite Hi, Ha. done.
    + destruct Hr as (key & Hk & Hk1 & Hk2). rewrite Hk in Ho.
      destruct (incidents st !! key) as [i|] eqn:Hi; simplify_eq/=.
      unfold IncidentIdRoute.DELETE. rewrite Hk, Hu.
      destruct key as [|c r]; [done|]. rewrite bool_decide_eq_false_2 by done.
      destruct uid as [|c' r']; [done|]. rewrite Hi, Ha. done.
    + destruct Hr as [Hi He].
      destruct (evidence st !! _) as [e|] eqn:Hev; simplify_eq/=.
      unfold EvidenceIdRoute.DELETE. rewrite Hu.
      rewrite !bool_decide_eq_false_2 by done. simpl.
      destruct uid as [|c' r']; [done|]. rewrite Hev.
      rewrite (bool_decide_eq_true_2 _ (Hp e eq_refl)). simpl. rewrite Ha. done.
Qed.

Lemma ownership_rule_witness :
  http_status (IncidentIdRoute.DELETE Sample.store
                 (Sample.on_theft "cuser0002" false None)).1 = 403%Z
  /\ (IncidentIdRoute.DELETE Sample.store
        (Sample.on_theft "cuser0002" false None)).2 = Sample.store.
Proof.
  assert (R : routed RemoveIncident (Sample.on_theft "cuser0002" false None)).
  { exists "cinc00001". split; [vm_compute; reflexivity | split; discriminate]. }
  assert (W := ownership_rule (H:=Sample.platform) RemoveIncident Sample.store
                 (Sample.on_theft "cuser0002" false None) "cuser0002" "cuser0001").
  specialize (W ltac:(vm_compute; reflexivity)).
  specialize (W ltac:(discriminate) R).
  specialize (W ltac:(vm_compute; reflexivity) I).
  vm_compute in W. vm_compute. exact W.
Defined.

(** ** Incident update *)

Lemma optional_enum_valid (x : option json) (s : option string) :
  Schemas.optional (Schemas.enum Schemas.statuses) x = Schemas.Valid s ->
  (x = None /\ s = None)
  \/ exists t, x = Some (JStr t) /\ s = Some t
               /\ (t = "Open" \/ t = "Under Investigation" \/ t = "Closed").
Proof.
  unfold Schemas.optional, Schemas.enum. intros Hv.
  destruct x as [[]|]; simplify_eq/=; auto.
  destruct (_ || _)%bool eqn:E; simplify_eq/=.
  right. eexists; repeat split; eauto.
  rewrite !orb_true_iff, !String.eqb_eq in E.
  destruct E as [E|[E|[E|E]]]; subst; auto; discriminate.
Qed.

Lemma optional_closing_valid (x : option json) (r : option (option string)) :
  Schemas.optional (Schemas.nullable Schemas.string_trim) x = Schemas.Valid r ->
  match x with
  | None => r = None
  | Some JNull => r = Some None
  | Some (JStr t) => r = Some (Some (Js.trim t))
  | Some _ => False
  end.
Proof.
  unfold Schemas.optional, Schemas.nullable, Schemas.string_trim. intros Hv.
  destruct x as [[]|]; simplify_eq/=; done.
Qed.
Section Patch.
Context `{Platform}.
Lemma update_schema_success (body : json) (v : Schemas.IncidentUpdate) :
  Schemas.IncidentUpdateSchema body = Schemas.Success v ->
  exists props, body = JObj props
    /\ Schemas.optional (Schemas.enum Schemas.statuses) (prop "status" props)
       = Schemas.Valid (Schemas.up_status v)
    /\ Schemas.optional (Schemas.nullable Schemas.string_trim) (prop "closingReason" props)
       = Schemas.Valid (Schemas.up_closingReason v)
    /\ 0 < Schemas.keys v.
Proof.
  unfold Schemas.IncidentUpdateSchema. intros Hs.
  destruct body; try done. exists props.
  destruct (Schemas.optional Schemas.coerce_date _); try done.
  destruct (Schemas.optional Schemas.string_trim_min1 (prop "location" _)); try done.
  destruct (Schemas.optional Schemas.string_trim_min1 (prop "crimeType" _)); try done.
  destruct (Schemas.optional Schemas.string_trim_min1 (prop "description" _)); try done.
  destruct (Schemas.optional (Schemas.enum _) _); try done.
  destruct (Schemas.optional (Schemas.nullable _) _); try done.
  destruct (Nat.ltb 0 _) eqn:E; simplify_eq. simpl.
  repeat split; try done. by apply Nat.ltb_lt.
Qed.

Local Arguments IncidentIdRoute.updateData : simpl never.
Local Arguments Schemas.IncidentUpdateSchema : simpl never.
Local Arguments Db.incident_update : simpl never.
Local Arguments Db.write : simpl never.
Local Arguments IncidentIdRoute.keys : simpl never.

(** The answers of PATCH other than 200 leave the store as it was. *)
Lemma PATCH_unchanged (st : Store) (env : Env) (request : Request) :
  http_status (IncidentIdRoute.PATCH st env request).1 <> 200%Z ->
  (IncidentIdRoute.PATCH st env request).2 = st.
Proof. unfold IncidentIdRoute.PATCH. intros Hs. branches. Qed.

(** The path PATCH took when it answers 200. *)
Lemma PATCH_200 (st : Store) (env : Env) (request : Request) :
  http_status (IncidentIdRoute.PATCH st env request).1 = 200%Z ->
  exists key uid i body v,
    IncidentIdRoute.path_id request = Some key /\ key <> "" /\ key <> "[id]"
    /\ loggedInUserId request = Some uid /\ uid <> ""
    /\ incidents st !! key = Some i
    /\ allowed (isAdmin_header request) uid (reportedById i) = true
    /\ json_body request = Some body
    /\ Schemas.IncidentUpdateSchema body = Schemas.Success v
    /\ IncidentIdRoute.keys (IncidentIdRoute.updateData v) <> 0
    /\ IncidentIdRoute.PATCH st env request
       = (respond (IncidentJson (Db.write (now env) (IncidentIdRoute.updateData v) i)
                     (Db.summary (Db.incident_update st (now env) key
                                    (IncidentIdRoute.updateData v))
                        (reportedById (Db.write (now env) (IncidentIdRoute.updateData v) i))))
                  200,
          Db.incident_update st (now env) key (IncidentIdRoute.updateData v)).
Proof.
  unfold IncidentIdRoute.PATCH. intros Hs. branches.
  do 5 eexists. repeat split; try done.
  - match goal with E : bool_decide _ = false |- _ => by apply bool_decide_eq_false in E end.
  - by apply allowed_true.
  - by apply Nat.eqb_neq.
Qed.

(** X29: what a successful PATCH stores in closingReason: a patch that
    supplies a status other than 'Closed' stores that status with closingReason null, whatever
    closingReason the patch carried or the record held; when the patch
    omits status (or sets it to 'Closed') the stored closingReason is the
    one the patch supplies (trimmed, the empty string and null both giving
    null) or, when the patch has no closingReason, the one held before. *)
Theorem closingReason_after_patch (st : Store) (env : Env) (request : Request)
    (key : string) (i : Incident) :
  http_status (IncidentIdRoute.PATCH st env request).1 = 200%Z ->
  IncidentIdRoute.path_id request = Some key ->
  incidents st !! key = Some i ->
  exists props i',
    json_body request = Some (JObj props)
    /\ incidents (IncidentIdRoute.PATCH st env request).2 !! key = Some i'
    /\ match prop "status" props with
       | Some (JStr s) =>
           status i' = s
           /\ closingReason i' = if bool_decide (s = "Closed")
                                 then patched_closingReason props (closingReason i)
                                 else None
       | Some _ => False
       | None =>
           status i' = status i
           /\ closingReason i' = patched_closingReason props (closingReason i)
       end.
Proof.
  intros Hs Hk Hi.
  destruct (PATCH_200 st env request Hs)
    as (key' & uid & i0 & body & v & Hk' & _ & _ & _ & _ & Hi' & _ & Hb & Hv & _ & Heq).
  simplify_eq.
  destruct (update_schema_success _ _ Hv) as (props & -> & Hst & Hcl & _).
  exists props, (Db.write (now env) (IncidentIdRoute.updateData v) i).
  split; [done|]. split.
  { rewrite Heq. simpl. unfold Db.incident_update. simpl.
    rewrite lookup_alter_eq, Hi. done. }
  apply optional_closing_valid in Hcl.
  unfold patched_closingReason.
  destruct (optional_enum_valid _ _ Hst) as [[-> Hnone]|(t & -> & Hsome & Ht)].
  - unfold Db.write, IncidentIdRoute.updateData. simpl. rewrite Hnone. simpl.
    split; [done|].
    destruct (prop "closingReason" props) as [[]|]; try done; rewrite Hcl; simpl; try done.
    repeat case_bool_decide; congruence.
  - unfold Db.write, IncidentIdRoute.updateData. simpl. rewrite Hsome. simpl.
    split; [done|].
    destruct Ht as [-> | [-> | ->]]; simpl; try done.
    destruct (prop "closingReason" props) as [[]|]; try done; rewrite Hcl; simpl; try done.
    repeat case_bool_decide; congruence.
Qed.
End Patch.


Example patch_without_status_keeps_reason :
  let r := IncidentIdRoute.PATCH (H:=Sample.platform) Sample.store Sample.env
             Sample.reason_only in
  http_status r.1 = 200%Z
  /\ status <$> incidents Sample.store !! "cinc00001" = Some "Open"
  /\ status <$> incidents r.2 !! "cinc00001" = Some "Open"
  /\ closingReason <$> incidents r.2 !! "cinc00001" = Some (Some "left open").
Proof. vm_compute. done. Qed.

(** C1, the failing request: the owner of the open incident cinc00001
    sends the patch { closingReason: "left open" }.  The handler clears
    closingReason only when the patch itself carries a status other than
    'Closed'; this patch carries none, the answer is 200 and the record is
    stored with status 'Open' and closingReason "left open". *)
Theorem closingReason_null_unless_closed_fails : ~ closingReason_null_unless_closed.
Proof.
  intros Hclaim.
  destruct patch_without_status_keeps_reason as (H200 & _ & Hst & Hcl).
  destruct (incidents _ !! "cinc00001") as [i'|] eqn:Hi'; [|done].
  simpl in Hst, Hcl.
  assert (closingReason i' = None) as Hnone.
  { eapply (Hclaim Sample.platform Sample.store _ Sample.env Sample.reason_only _
              "cinc00001" i' (surjective_pairing _) H200); [done|exact Hi'|].
    injection Hst as ->. discriminate. }
  congruence.
Qed.

(** A location of white space alone, here a no-break space, is refused. *)
Example blank_location_refused :
  (IncidentIdRoute.PATCH (H:=Sample.platform) Sample.store Sample.env
     (Sample.on_theft "cuser0001" false (Some (JObj [("location", JStr Sample.nbsp)])))).1
  = respond (InvalidInput "Invalid input." ["location"]) 400.
Proof. vm_compute. reflexivity. Qed.

Lemma closingReason_after_patch_witness :
  exists props i',
    json_body Sample.reopen_with_reason = Some (JObj props)
    /\ incidents (IncidentIdRoute.PATCH (H:=Sample.platform) Sample.store Sample.env
                   Sample.reopen_with_reason).2 !! "cinc00001" = Some i'
    /\ match prop "status" props with
       | Some (JStr s) =>
           status i' = s
           /\ closingReason i' = if bool_decide (s = "Closed")
                                 then patched_closingReason props (closingReason Sample.theft)
                                 else None
       | Some _ => False
       | None =>
           status i' = status Sample.theft
           /\ closingReason i' = patched_closingReason props (closingReason Sample.theft)
       end.
Proof.
  apply (closingReason_after_patch (H:=Sample.platform) Sample.store Sample.env
           Sample.reopen_with_reason "cinc00001" Sample.theft);
    vm_compute; reflexivity.
Defined.

(** ** Empty patches *)

Section EmptyPatch.
Context `{Platform}.

Lemma no_field_no_parse (body : json) :
  effective_fields body = 0 ->
  Schemas.IncidentUpdateSchema body = Schemas.Failure [].
Proof.
  destruct body as [| | | | |props]; try done.
  intros He.
  assert (Hn : forall k, In k updatable -> prop k props = None).
  { intros k Hin. destruct (prop k props) as [x|] eqn:E; [exfalso|done].
    apply length_zero_iff_nil in He.
    assert (Hk : In k (List.filter (fun k => bool_decide (is_Some (prop k props)))
                         updatable)).
    { apply filter_In. split; [done|]. rewrite E. apply bool_decide_eq_true_2. eauto. }
    rewrite He in Hk. destruct Hk. }
  unfold Schemas.IncidentUpdateSchema.
  rewrite !Hn by (simpl; tauto). done.
Qed.

(** The processing of a validated patch drops none of its keys: the
    second test for an empty update never fires. *)
Remark updateData_keeps_keys (v : Schemas.IncidentUpdate) :
  Schemas.keys v <= IncidentIdRoute.keys (IncidentIdRoute.updateData v).
Proof.
  unfold Schemas.keys, IncidentIdRoute.keys, IncidentIdRoute.updateData. simpl.
  destruct (Schemas.up_closingReason v), (Js.truthy _ && _); simpl; lia.
Qed.

(** C8: a PATCH by an authorized actor on an existing record whose patch
    carries none of the updatable fields (an empty object, an object of
    unknown keys only, a document that is not an object), or whose
    validated fields leave no key in the update after processing, is
    answered 400 and leaves the store unchanged. *)
Theorem empty_patch_rejected (st : Store) (env : Env) (request : Request)
    (key uid : string) (i : Incident) (body : json) :
  IncidentIdRoute.path_id request = Some key -> key <> "" -> key <> "[id]" ->
  loggedInUserId request = Some uid -> uid <> "" ->
  incidents st !! key = Some i ->
  allowed (isAdmin_header request) uid (reportedById i) = true ->
  json_body request = Some body ->
  effective_fields body = 0
  \/ (forall v, Schemas.IncidentUpdateSchema body = Schemas.Success v ->
                IncidentIdRoute.keys (IncidentIdRoute.updateData v) = 0) ->
  http_status (IncidentIdRoute.PATCH st env request).1 = 400%Z
  /\ (IncidentIdRoute.PATCH st env request).2 = st.
Proof.
  intros Hk Hk1 Hk2 Hu Hu1 Hi Ha Hb He.
  unfold IncidentIdRoute.PATCH. rewrite Hk, Hu.
  destruct key as [|c r]; [done|]. rewrite bool_decide_eq_false_2 by done.
  destruct uid as [|c' r']; [done|]. rewrite Hi.
  destruct (negb _ && negb _) eqn:Hd.
  { apply allowed_false in Hd. congruence. }
  rewrite Hb. destruct He as [He|He].
  - rewrite (no_field_no_parse body He). done.
  - destruct (Schemas.IncidentUpdateSchema body) as [v|errors]; [|done].
    rewrite (He v eq_refl). done.
Qed.

End EmptyPatch.

Lemma empty_patch_rejected_witness :
  http_status (IncidentIdRoute.PATCH (H:=Sample.platform) Sample.store Sample.env
                 (Sample.on_theft "cuser0001" false (Some (JObj [])))).1 = 400%Z
  /\ (IncidentIdRoute.PATCH (H:=Sample.platform) Sample.store Sample.env
        (Sample.on_theft "cuser0001" false (Some (JObj [])))).2 = Sample.store.
Proof.
  apply (empty_patch_rejected (H:=Sample.platform) Sample.store Sample.env
           (Sample.on_theft "cuser0001" false (Some (JObj [])))
           "cinc00001" "cuser0001" Sample.theft (JObj []));
    first [discriminate | left; reflexivity | vm_compute; reflexivity].
Defined.

Example unknown_keys_rejected :
  IncidentIdRoute.PATCH (H:=Sample.platform) Sample.store Sample.env
    (Sample.on_theft "cadmin001" true
       (Some (JObj [("reportedById", JStr "cuser0002"); ("caseNumber", JStr "X")])))
  = (respond (InvalidInput "Invalid input." []) 400, Sample.store).
Proof. vm_compute. reflexivity. Qed.

(** ** Incident creation *)

Section Create.
Context `{Platform}.

Local Arguments Schemas.IncidentCreateSchema : simpl never.
Local Arguments Db.caseNumber_taken : simpl never.

Lemma create_schema_success (body : json) (d : Schemas.IncidentCreate) :
  Schemas.IncidentCreateSchema body = Schemas.Success d ->
  exists props, body = JObj props
    /\ prop "reportedById" props = Some (JStr (Schemas.new_reportedById d))
    /\ Schemas.optional (Schemas.enum Schemas.statuses) (prop "status" props)
       = Schemas.Valid (Schemas.new_status d).
Proof.
  unfold Schemas.IncidentCreateSchema. intros Hs.
  destruct body; try done. exists props.
  destruct (Schemas.required Schemas.string_datetime _); try done.
  destruct (Schemas.required Schemas.string_trim_min1 (prop "location" _)); try done.
  destruct (Schemas.required Schemas.string_trim_min1 (prop "crimeType" _)); try done.
  destruct (Schemas.required Schemas.string_trim_min1 (prop "description" _)); try done.
  destruct (Schemas.required Schemas.string_cuid _) eqn:Hr; try done.
  destruct (Schemas.optional (Schemas.enum _) _); try done.
  simplify_eq. simpl. repeat split; try done.
  unfold Schemas.required, Schemas.string_cuid in Hr.
  destruct (prop "reportedById" props) as [[]|]; try done.
  destruct (isCuid s); by simplify_eq.
Qed.

(** The answers of POST other than 201 leave the store as it was. *)
Lemma POST_unchanged (st : Store) (env : Env) (request : Request) :
  http_status (IncidentsRoute.POST st env request).1 <> 201%Z ->
  (IncidentsRoute.POST st env request).2 = st.
Proof. unfold IncidentsRoute.POST. intros Hs. branches. Qed.

(** The path POST took when it answers 201. *)
Lemma POST_201 (st : Store) (env : Env) (request : Request) :
  http_status (IncidentsRoute.POST st env request).1 = 201%Z ->
  exists body d i,
    json_body request = Some body
    /\ Schemas.IncidentCreateSchema body = Schemas.Success d
    /\ is_Some (users st !! Schemas.new_reportedById d)
    /\ incidents st !! cuid_id env = None
    /\ reportedById i = Schemas.new_reportedById d
    /\ status i = Js.or_default (Schemas.new_status d) "Open"
    /\ closingReason i = None
    /\ users (IncidentsRoute.POST st env request).2 = users st
    /\ evidence (IncidentsRoute.POST st env request).2 = evidence st
    /\ incidents (IncidentsRoute.POST st env request).2
       = <[cuid_id env := i]> (incidents st).
Proof.
  unfold IncidentsRoute.POST, Db.incident_create. intros Hs. branches.
  do 3 eexists. repeat split; done.
Qed.


Lemma or_default_status (s : option string) (x : option json) :
  Schemas.optional (Schemas.enum Schemas.statuses) x = Schemas.Valid s ->
  let t := Js.or_default s "Open" in
  (t = "Open" \/ t = "Under Investigation" \/ t = "Closed")
  /\ (x = None -> t = "Open").
Proof.
  intros Hv. destruct (optional_enum_valid _ _ Hv) as [[-> ->]|(t & -> & -> & Ht)].
  - simpl. auto.
  - destruct Ht as [-> | [-> | ->]]; simpl; (split; [auto | done]).
Qed.

(** A status that is not one of the three strings fails both schemas. *)
Lemma bad_status_no_parse (x : json) :
  ~ status_value x ->
  Schemas.optional (Schemas.enum Schemas.statuses) (Some x) = Schemas.Issue.
Proof.
  intros Hx. destruct (Schemas.optional _ _) as [s|] eqn:E; [exfalso|done].
  destruct (optional_enum_valid _ _ E) as [[? _]|(t & ? & _ & Ht)]; [done|].
  simplify_eq. unfold status_value in Hx. destruct Ht as [-> | [-> | ->]]; auto.
Qed.

Lemma bad_status_update (props : list (string * json)) (x : json) :
  prop "status" props = Some x -> ~ status_value x ->
  exists errors, Schemas.IncidentUpdateSchema (JObj props) = Schemas.Failure errors.
Proof.
  intros Hp Hx. unfold Schemas.IncidentUpdateSchema.
  rewrite Hp, (bad_status_no_parse x Hx).
  repeat case_match; eauto.
Qed.

Lemma bad_status_create (props : list (string * json)) (x : json) :
  prop "status" props = Some x -> ~ status_value x ->
  exists errors, Schemas.IncidentCreateSchema (JObj props) = Schemas.Failure errors.
Proof.
  intros Hp Hx. unfold Schemas.IncidentCreateSchema.
  rewrite Hp, (bad_status_no_parse x Hx).
  repeat case_match; eauto.
Qed.

End Create.

(** ** Every call, seen from one incident *)

Section Calls.
Context `{Platform}.

Lemma DELETE_incidents (st : Store) (request : Request) (k : string) (i : Incident) :
  incidents (IncidentIdRoute.DELETE st request).2 !! k = Some i ->
  incidents st !! k = Some i.
Proof.
  unfold IncidentIdRoute.DELETE. branches.
  intros Hl. by apply lookup_delete_Some in Hl as [_ ?].
Qed.

Lemma evidence_POST_incidents (st : Store) (env : Env) (request : Request) :
  incidents (EvidenceRoute.POST st env request).2 = incidents st.
Proof. unfold EvidenceRoute.POST, Db.evidence_create. branches. Qed.

Lemma evidence_DELETE_incidents (st : Store) (request : Request)
    (params : EvidenceIdRoute.RouteParams) :
  incidents (EvidenceIdRoute.DELETE st request params).2 = incidents st.
Proof. unfold EvidenceIdRoute.DELETE. branches. Qed.

(** An incident found after a call was there before and is untouched, or
    was there before and keeps its owner with its old or a valid status,
    or is new, created by this call, and has a valid status. *)
Lemma handle_incident (st : Store) (c : Call) (k : string) (i' : Incident) :
  incidents (handle st c).2 !! k = Some i' ->
  incidents st !! k = Some i'
  \/ (exists i, incidents st !! k = Some i
                /\ reportedById i' = reportedById i
                /\ (status i' = status i \/ valid_status i'))
  \/ (incidents st !! k = None /\ valid_status i' /\ creates k c).
Proof.
  destruct c as [env request|request|env request|request|env request|request params];
    simpl; intros Hl.
  - destruct (decide (http_status (IncidentIdRoute.PATCH st env request).1 = 200%Z))
      as [Hs|Hs].
    + destruct (PATCH_200 st env request Hs)
        as (key & uid & i & body & v & _ & _ & _ & _ & _ & Hi & _ & _ & Hv & _ & Heq).
      rewrite Heq in Hl. simpl in Hl.
      destruct (decide (key = k)) as [->|Hne].
      * rewrite lookup_alter_eq, Hi in Hl. simpl in Hl. simplify_eq.
        right; left. exists i. split; [done|]. split; [done|].
        destruct (update_schema_success _ _ Hv) as (props & _ & Hst & _ & _).
        destruct (optional_enum_valid _ _ Hst) as [[_ Hn]|(t & _ & Hsome & Ht)];
          simpl; rewrite ?Hn, ?Hsome; simpl; auto.
        right. unfold valid_status. simpl. rewrite Hsome. done.
      * rewrite lookup_alter_ne in Hl by done. auto.
    + rewrite (PATCH_unchanged st env request Hs) in Hl. auto.
  - left. by eapply DELETE_incidents.
  - destruct (decide (http_status (IncidentsRoute.POST st env request).1 = 201%Z))
      as [Hs|Hs].
    + destruct (POST_201 st env request Hs)
        as (body & d & i & _ & Hd & _ & Hfresh & _ & Hst & _ & _ & _ & Heq).
      rewrite Heq in Hl.
      destruct (decide (cuid_id env = k)) as [<-|Hne].
      * rewrite lookup_insert_eq in Hl. simplify_eq.
        right; right. split; [done|]. split; [|done].
        destruct (create_schema_success _ _ Hd) as (props & _ & _ & Hv).
        unfold valid_status. rewrite Hst. by apply (or_default_status _ _ Hv).
      * rewrite lookup_insert_ne in Hl by done. auto.
    + rewrite (POST_unchanged st env request Hs) in Hl. auto.
  - auto.
  - rewrite evidence_POST_incidents in Hl. auto.
  - rewrite evidence_DELETE_incidents in Hl. auto.
Qed.

Lemma handle_valid (st : Store) (c : Call) :
  (forall k i, incidents st !! k = Some i -> valid_status i) ->
  forall k i, incidents (handle st c).2 !! k = Some i -> valid_status i.
Proof.
  intros Hinv k i' Hl.
  destruct (handle_incident st c k i' Hl)
    as [Hsame|[(i & Hi & _ & [Hst|Hv])|(_ & Hv & _)]]; eauto.
  unfold valid_status. rewrite Hst. by eapply Hinv.
Qed.

Lemma run_valid (st : Store) (calls : list Call) :
  (forall k i, incidents st !! k = Some i -> valid_status i) ->
  forall k i, incidents (run st calls) !! k = Some i -> valid_status i.
Proof.
  revert st. induction calls as [|c rest IH]; intros st Hinv; simpl; [done|].
  apply IH. by apply handle_valid.
Qed.

(** An id that no call creates stays absent once absent, and an incident
    under it keeps its owner as long as it is stored. *)
Lemma run_absent (st : Store) (calls : list Call) (k : string) :
  Forall (fun c => ~ creates k c) calls ->
  incidents st !! k = None ->
  incidents (run st calls) !! k = None.
Proof.
  intros Hf. revert st. induction Hf as [|c rest Hc _ IH]; intros st Hn; simpl; [done|].
  apply IH. destruct (incidents (handle st c).2 !! k) as [i'|] eqn:E; [exfalso|done].
  destruct (handle_incident st c k i' E) as [Hsame|[(i & Hi & _)|(_ & _ & Hcr)]];
    [congruence|congruence|by apply Hc].
Qed.

Lemma run_owner (st : Store) (calls : list Call) (k : string) (i i' : Incident) :
  Forall (fun c => ~ creates k c) calls ->
  incidents st !! k = Some i ->
  incidents (run st calls) !! k = Some i' ->
  reportedById i' = reportedById i.
Proof.
  intros Hf. revert st i.
  induction Hf as [|c rest Hc Hrest IH]; intros st i Hi Hi'; simpl in Hi'; [congruence|].
  destruct (incidents (handle st c).2 !! k) as [i1|] eqn:E.
  - rewrite (IH _ i1 E Hi').
    destruct (handle_incident st c k i1 E) as [Hsame|[(i0 & Hi0 & Hr & _)|(Hn & _)]];
      congruence.
  - rewrite (run_absent _ rest k Hrest E) in Hi'. discriminate.
Qed.

End Calls.

(** ** Owner and status of a stored incident *)

Section Written.
Context `{Platform}.

(** C3, amended: the incident a successful POST /incidents stores is owned
    by the user the body names in reportedById, who must exist, whoever the
    caller is; and the reportedById of a stored incident stays what it is
    through any sequence of calls, as long as the incident is stored (ids
    being fresh, no later creation reuses its id). *)
Theorem owner_named_by_body (st : Store) (env : Env) (request : Request)
    (st1 : Store) (calls : list Call) (k : string) (i i' : Incident) :
  http_status (IncidentsRoute.POST st env request).1 = 201%Z ->
  Forall (fun c => ~ creates k c) calls ->
  incidents st1 !! k = Some i ->
  incidents (run st1 calls) !! k = Some i' ->
  (exists props r inew,
      json_body request = Some (JObj props)
      /\ prop "reportedById" props = Some (JStr r)
      /\ is_Some (users st !! r)
      /\ incidents (IncidentsRoute.POST st env request).2 !! cuid_id env = Some inew
      /\ reportedById inew = r)
  /\ reportedById i' = reportedById i.
Proof.
  intros Hs Hf Hi Hi'. split.
  - destruct (POST_201 st env request Hs)
      as (body & d & inew & Hb & Hd & Hu & _ & Hr & _ & _ & _ & _ & Heq).
    destruct (create_schema_success _ _ Hd) as (props & -> & Hp & _).
    exists props, (Schemas.new_reportedById d), inew.
    rewrite Heq, lookup_insert_eq. done.
  - by eapply run_owner.
Qed.

(** C10: in a store whose incidents have one of the three statuses, every
    incident still has one after any sequence of calls; a creation whose
    body omits status stores 'Open'; a creation whose status is any other
    value is answered 400, and an update with such a status never answers
    200 (it answers 400 once the actor is authorized); both leave the
    store unchanged. *)
Theorem written_status_valid (st0 st : Store) (calls : list Call) (env : Env)
    (request : Request) (props : list (string * json)) :
  (forall k i, incidents st0 !! k = Some i -> valid_status i) ->
  json_body request = Some (JObj props) ->
  (forall k i, incidents (run st0 calls) !! k = Some i -> valid_status i)
  /\ (prop "status" props = None ->
      http_status (IncidentsRoute.POST st env request).1 = 201%Z ->
      exists i, incidents (IncidentsRoute.POST st env request).2 !! cuid_id env = Some i
                /\ status i = "Open")
  /\ (forall x, prop "status" props = Some x -> ~ status_value x ->
      (http_status (IncidentsRoute.POST st env request).1 = 400%Z
       /\ (IncidentsRoute.POST st env request).2 = st)
      /\ (http_status (IncidentIdRoute.PATCH st env request).1 <> 200%Z
          /\ (IncidentIdRoute.PATCH st env request).2 = st)
      /\ (forall key uid i,
             IncidentIdRoute.path_id request = Some key -> key <> "" -> key <> "[id]" ->
             loggedInUserId request = Some uid -> uid <> "" ->
             incidents st !! key = Some i ->
             allowed (isAdmin_header request) uid (reportedById i) = true ->
             http_status (IncidentIdRoute.PATCH st env request).1 = 400%Z)).
Proof.
  intros Hinv Hb. split; [by apply run_valid|]. split.
  - intros Hnone Hs.
    destruct (POST_201 st env request Hs)
      as (body & d & i & Hb' & Hd & _ & _ & _ & Hst & _ & _ & _ & Heq).
    destruct (create_schema_success _ _ Hd) as (props' & -> & _ & Hv).
    simplify_eq. exists i. rewrite Heq, lookup_insert_eq. split; [done|].
    rewrite Hst. by apply (or_default_status _ _ Hv).
  - intros x Hx Hbad.
    destruct (bad_status_create props x Hx Hbad) as (e1 & He1).
    destruct (bad_status_update props x Hx Hbad) as (e2 & He2).
    assert (Hno : http_status (IncidentIdRoute.PATCH st env request).1 <> 200%Z).
    { intros Hs. destruct (PATCH_200 st env request Hs)
        as (? & ? & ? & body & v & _ & _ & _ & _ & _ & _ & _ & Hb' & Hv & _).
      congruence. }
    split; [|split; [split|]].
    + unfold IncidentsRoute.POST. rewrite Hb, He1. done.
    + done.
    + by apply PATCH_unchanged.
    + intros key uid i Hk Hk1 Hk2 Hu Hu1 Hi Ha.
      unfold IncidentIdRoute.PATCH. rewrite Hk, Hu.
      destruct key as [|c r]; [done|]. rewrite bool_decide_eq_false_2 by done.
      destruct uid as [|c' r']; [done|]. rewrite Hi.
      destruct (negb _ && negb _) eqn:Hd.
      { apply allowed_false in Hd. congruence. }
      rewrite Hb, He2. done.
Qed.

End Written.


Example post_for_another_user :
  let request := Sample.create "cuser0001" (Sample.report "cuser0002" []) in
  let r := IncidentsRoute.POST (H:=Sample.platform) Sample.store Sample.env request in
  loggedInUserId request = Some "cuser0001"
  /\ http_status r.1 = 201%Z
  /\ incidents r.2 !! "cnew00001" = Some Sample.filed.
Proof. vm_compute. done. Qed.

(** C3, counterexample: the caller the gate identified as cuser0001 posts a
    report whose body names cuser0002 in reportedById; the answer is 201
    and the stored incident is owned by cuser0002. *)
Lemma creator_becomes_owner_fails : ~ creator_becomes_owner.
Proof.
  intros Hclaim.
  destruct post_for_another_user as (Hu & H201 & Hi).
  destruct (Hclaim Sample.platform Sample.store _ Sample.env _ _ "cuser0001"
              Hu (surjective_pairing _) H201) as (i & Hi' & Hr).
  change (cuid_id Sample.env) with "cnew00001" in Hi'.
  rewrite Hi in Hi'. injection Hi' as <-. discriminate Hr.
Qed.

Lemma owner_named_by_body_witness :
  (exists props r inew,
      json_body (Sample.create "cuser0001" (Sample.report "cuser0002" [])) = Some (JObj props)
      /\ prop "reportedById" props = Some (JStr r)
      /\ is_Some (users Sample.store !! r)
      /\ incidents (IncidentsRoute.POST (H:=Sample.platform) Sample.store Sample.env
                     (Sample.create "cuser0001" (Sample.report "cuser0002" []))).2
           !! cuid_id Sample.env = Some inew
      /\ reportedById inew = r)
  /\ reportedById Sample.filed_closed = reportedById Sample.filed.
Proof.
  apply (owner_named_by_body (H:=Sample.platform) Sample.store Sample.env
           (Sample.create "cuser0001" (Sample.report "cuser0002" []))
           (IncidentsRoute.POST (H:=Sample.platform) Sample.store Sample.env
              (Sample.create "cuser0001" (Sample.report "cuser0002" []))).2
           [Sample.close_filed;
            DeleteIncident (Sample.on_theft "cuser0001" false None)]
           "cnew00001" Sample.filed Sample.filed_closed);
    first [ repeat (constructor; [intros []|]); constructor
          | vm_compute; reflexivity ].
Defined.

Lemma written_status_valid_witness :
  (forall k i,
      incidents (run (H:=Sample.platform) Sample.store
                   [CreateIncident Sample.env
                      (Sample.create "cuser0001" (Sample.report "cuser0002" []));
                    Sample.close_filed]) !! k = Some i ->
      valid_status i)
  /\ (prop "status" [("status", JStr "Archived")] = None ->
      http_status (IncidentsRoute.POST (H:=Sample.platform) Sample.store Sample.env
                     (Sample.on_theft "cadmin001" true
                        (Some (JObj [("status", JStr "Archived")])))).1 = 201%Z ->
      exists i, incidents (IncidentsRoute.POST (H:=Sample.platform) Sample.store Sample.env
                             (Sample.on_theft "cadmin001" true
                                (Some (JObj [("status", JStr "Archived")])))).2
                  !! cuid_id Sample.env = Some i
                /\ status i = "Open")
  /\ (forall x, prop "status" [("status", JStr "Archived")] = Some x -> ~ status_value x ->
      (http_status (IncidentsRoute.POST (H:=Sample.platform) Sample.store Sample.env
                      (Sample.on_theft "cadmin001" true
                         (Some (JObj [("status", JStr "Archived")])))).1 = 400%Z
       /\ (IncidentsRoute.POST (H:=Sample.platform) Sample.store Sample.env
             (Sample.on_theft "cadmin001" true
                (Some (JObj [("status", JStr "Archived")])))).2 = Sample.store)
      /\ (http_status (IncidentIdRoute.PATCH (H:=Sample.platform) Sample.store Sample.env
                         (Sample.on_theft "cadmin001" true
                            (Some (JObj [("status", JStr "Archived")])))).1 <> 200%Z
          /\ (IncidentIdRoute.PATCH (H:=Sample.platform) Sample.store Sample.env
                (Sample.on_theft "cadmin001" true
                   (Some (JObj [("status", JStr "Archived")])))).2 = Sample.store)
      /\ (forall key uid i,
             IncidentIdRoute.path_id (Sample.on_theft "cadmin001" true
                (Some (JObj [("status", JStr "Archived")]))) = Some key ->
             key <> "" -> key <> "[id]" ->
             loggedInUserId (Sample.on_theft "cadmin001" true
                (Some (JObj [("status", JStr "Archived")]))) = Some uid -> uid <> "" ->
             incidents Sample.store !! key = Some i ->
             allowed (isAdmin_header (Sample.on_theft "cadmin001" true
                (Some (JObj [("status", JStr "Archived")])))) uid (reportedById i) = true ->
             http_status (IncidentIdRoute.PATCH (H:=Sample.platform) Sample.store Sample.env
                            (Sample.on_theft "cadmin001" true
                               (Some (JObj [("status", JStr "Archived")])))).1 = 400%Z)).
Proof.
  apply (written_status_valid (H:=Sample.platform) Sample.store Sample.store
           [CreateIncident Sample.env (Sample.create "cuser0001" (Sample.report "cuser0002" []));
            Sample.close_filed]
           Sample.env
           (Sample.on_theft "cadmin001" true (Some (JObj [("status", JStr "Archived")])))
           [("status", JStr "Archived")]).
  - apply (bool_decide_unpack (map_Forall (fun _ i => valid_status i)
                                 (incidents Sample.store))).
    vm_compute. exact I.
  - vm_compute. reflexivity.
Defined.

(** ** The access gate *)

Lemma append_cons (c : ascii) (s t : string) : String c s ++ t = String c (s ++ t).
Proof. reflexivity. Qed.

Lemma append_empty_l (t : string) : "" ++ t = t.
Proof. reflexivity. Qed.

Lemma injected_headers (h : gmap string string) (u b a : string) :
  let h' := headers_set (headers_set (headers_set h "X-User-Id" u) "X-User-BadgeId" b)
                        "X-User-IsAdmin" a in
  headers_get h' "X-User-Id" = Some u
  /\ headers_get h' "X-User-BadgeId" = Some b
  /\ headers_get h' "X-User-IsAdmin" = Some a
  /\ forall name, Js.toLowerCase name ∉ identity_headers ->
                  headers_get h' name = headers_get h name.
Proof.
  unfold headers_get, headers_set.
  change (Js.toLowerCase "X-User-Id") with "x-user-id".
  change (Js.toLowerCase "X-User-BadgeId") with "x-user-badgeid".
  change (Js.toLowerCase "X-User-IsAdmin") with "x-user-isadmin".
  simpl. repeat split.
  - rewrite !lookup_insert_ne by done. apply lookup_insert_eq.
  - rewrite lookup_insert_ne by done. apply lookup_insert_eq.
  - apply lookup_insert_eq.
  - intros name Hn. unfold identity_headers in Hn.
    rewrite !lookup_insert_ne; [done|set_solver..].
Qed.

Lemma cached_key_configured (s : Middleware.State) :
  key_cached s -> Middleware.cached_key s = configured_secret s.
Proof.
  unfold key_cached, Middleware.cached_key, configured_secret.
  intros [->|[-> Ht]]; [done|]. rewrite Ht. by destruct (Middleware.JWT_SECRET s).
Qed.

Lemma key_cached_initial (secret : option string) :
  key_cached (Middleware.initial secret).
Proof. by left. Qed.

(** The Bearer scheme: the token is what follows the prefix. *)
Lemma prefix_split (p a : string) :
  String.prefix p a = true ->
  exists r, a = p ++ r /\ Js.substring_from (String.length p) a = r.
Proof.
  revert a. induction p as [|c p IH]; intros a.
  - intros _. exists a. by destruct a.
  - destruct a as [|d a]; [done|]. simpl.
    destruct (ascii_dec c d) as [->|]; [|done]. intros Hp.
    destruct (IH a Hp) as (r & -> & Hr). exists r. by rewrite append_cons.
Qed.

Lemma prefix_append (p r : string) : String.prefix p (p ++ r) = true.
Proof.
  induction p as [|c p IH]; [by destruct r|].
  rewrite append_cons. simpl. by destruct (ascii_dec c c).
Qed.

Lemma substring_from_append (p r : string) :
  Js.substring_from (String.length p) (p ++ r) = r.
Proof. induction p as [|c p IH]; [by destruct r|]. by rewrite append_cons. Qed.

Lemma token_bearer (request : Request) (tok : string) :
  headers_get (headers request) "Authorization" = Some ("Bearer " ++ tok) ->
  Middleware.token request = Some tok.
Proof.
  intros Ha. unfold Middleware.token, Js.startsWith. rewrite Ha.
  rewrite prefix_append.
  change 7 with (String.length "Bearer "). rewrite substring_from_append.
  by rewrite !append_cons.
Qed.

Lemma token_other (request : Request) :
  (forall tok, headers_get (headers request) "Authorization" <> Some ("Bearer " ++ tok)) ->
  Middleware.token request = None.
Proof.
  intros Hno. unfold Middleware.token, Js.startsWith.
  destruct (headers_get _ _) as [a|] eqn:Ha; [|done].
  destruct (String.prefix "Bearer " a) eqn:Hp; [|by rewrite andb_false_r].
  destruct (prefix_split _ _ Hp) as (r & -> & _). by destruct (Hno r).
Qed.

Lemma append_empty (s : string) : s ++ "" = s.
Proof. induction s as [|c s IH]; [done|]. by rewrite append_cons, IH. Qed.

Lemma rev_app_rev_app (s a b : string) :
  String.rev_app (String.rev_app s a) b = String.rev_app a (s ++ b).
Proof.
  revert a. induction s as [|c s IH]; intros a; [done|].
  rewrite append_cons. simpl. by rewrite IH.
Qed.

Lemma rev_rev_app (s : string) : String.rev (String.rev_app s "") = s.
Proof. unfold String.rev. rewrite rev_app_rev_app. simpl. apply append_empty. Qed.

Lemma plain_cons (c : ascii) (v : string) :
  Headers.plain (String c v) = true
  <-> (33 <= nat_of_ascii c <= 126) /\ Headers.plain v = true.
Proof.
  cbn [Headers.plain]. rewrite !andb_true_iff, !Nat.leb_le. tauto.
Qed.

Lemma plain_stripStart (v : string) :
  Headers.plain v = true -> Headers.stripStart v = v.
Proof.
  destruct v as [|c v]; [done|]. intros [Hc _]%plain_cons.
  cbn [Headers.stripStart]. unfold Headers.is_http_ws.
  destruct (Nat.eqb_spec (nat_of_ascii c) 9); [lia|].
  destruct (Nat.eqb_spec (nat_of_ascii c) 10); [lia|].
  destruct (Nat.eqb_spec (nat_of_ascii c) 13); [lia|].
  destruct (Nat.eqb_spec (nat_of_ascii c) 32); [lia|]. done.
Qed.

Lemma plain_rev_app (v acc : string) :
  Headers.plain v = true -> Headers.plain acc = true ->
  Headers.plain (String.rev_app v acc) = true.
Proof.
  revert acc. induction v as [|c v IH]; intros acc Hv Hacc; [done|].
  apply plain_cons in Hv as [Hc Hv]. cbn [String.rev_app].
  apply IH; [done|]. by apply plain_cons.
Qed.

Lemma plain_byteString (v : string) :
  Headers.plain v = true -> Headers.byteString v = true.
Proof.
  induction v as [|c v IH]; [done|]. intros [Hc Hv]%plain_cons.
  cbn [Headers.byteString]. cbv zeta.
  destruct (Nat.ltb_spec (nat_of_ascii c) 128); [auto|lia].
Qed.

Lemma plain_clean (v : string) :
  Headers.plain v = true -> Headers.clean v = true.
Proof.
  induction v as [|c v IH]; [done|]. intros [Hc Hv]%plain_cons.
  cbn [Headers.clean]. cbv zeta.
  destruct (Nat.eqb_spec (nat_of_ascii c) 0); [lia|].
  destruct (Nat.eqb_spec (nat_of_ascii c) 10); [lia|].
  destruct (Nat.eqb_spec (nat_of_ascii c) 13); [lia|]. by apply IH.
Qed.

Lemma plain_normalize (v : string) :
  Headers.plain v = true -> Headers.normalize v = v.
Proof.
  intros Hp. unfold Headers.normalize. rewrite (plain_stripStart v Hp).
  unfold String.rev at 2.
  rewrite (plain_stripStart _ (plain_rev_app v "" Hp eq_refl)).
  apply rev_rev_app.
Qed.

(** A plain value is stored as it is. *)
Lemma value_plain (v : string) : Headers.plain v = true -> Headers.value v = Some v.
Proof.
  intros Hp. unfold Headers.value.
  by rewrite (plain_byteString v Hp), (plain_normalize v Hp), (plain_clean v Hp).
Qed.

Section Gate.
Context `{Platform}.

(** The three [Headers.set] calls of the middleware succeed together. *)
Lemma set_identity (h : gmap string string) (c : list (string * json)) :
  (Headers.set h "X-User-Id" (js_String (prop "userId" c)) ≫= fun h1 =>
   Headers.set h1 "X-User-BadgeId" (js_String (prop "badgeId" c)) ≫= fun h2 =>
   Headers.set h2 "X-User-IsAdmin" (js_String (prop "isAdmin" c)))
  = match Middleware.claim c "userId", Middleware.claim c "badgeId",
          Middleware.claim c "isAdmin" with
    | Some u, Some b, Some a =>
        Some (headers_set (headers_set (headers_set h "X-User-Id" u) "X-User-BadgeId" b)
                "X-User-IsAdmin" a)
    | _, _, _ => None
    end.
Proof.
  unfold Headers.set, Middleware.claim.
  destruct (Headers.value (js_String (prop "userId" c))); simpl; [|done].
  destruct (Headers.value (js_String (prop "badgeId" c))); simpl; [|done].
  by destruct (Headers.value (js_String (prop "isAdmin" c))).
Qed.


Lemma middleware_keeps_cache (s : Middleware.State) (request : Request) :
  key_cached s -> key_cached (Middleware.middleware s request).2.
Proof.
  intros Hc.
  assert (Hk : key_cached {| Middleware.JWT_SECRET := Middleware.JWT_SECRET s;
                             Middleware.secretKey := Middleware.cached_key s |}).
  { unfold key_cached, Middleware.cached_key in *. simpl.
    destruct Hc as [->|[-> Ht]].
    - destruct (Js.truthy (Middleware.JWT_SECRET s)) eqn:E; auto.
    - right. rewrite Ht. by destruct (Middleware.JWT_SECRET s). }
  unfold Middleware.middleware.
  destruct (Middleware.token request) as [[|c r]|]; try done.
  destruct (Middleware.cached_key s); [|done].
  destruct (jwtVerify _ _); [|done].
  by destruct (_ ≫= _).
Qed.

(** X28: what the gate answers on a protected path, read off the
    Authorization header.  Without the header, with a header that does not start with
    "Bearer " or with nothing after the prefix: 401 "Authentication
    required.".  With a token: 500 when no signing secret is configured;
    401 when the verification throws, the message alone depending on the
    code of the error; and for a verified payload the request passes on
    with the three claims, as strings, in X-User-Id, X-User-BadgeId and
    X-User-IsAdmin and the other headers untouched, unless one of the
    claims is refused as a header value, which is answered 401 "Invalid
    or expired token." as well. *)
Theorem gate_outcomes (s : Middleware.State) (request : Request) :
  Middleware.matcher (pathname request) = true ->
  key_cached s ->
  let answer := (Middleware.gate s request).1 in
  let refused m := Middleware.Respond (respond (Message m) 401) in
  key_cached (Middleware.gate s request).2
  /\ ((forall tok, headers_get (headers request) "Authorization"
                   <> Some ("Bearer " ++ tok))
      \/ headers_get (headers request) "Authorization" = Some "Bearer " ->
      answer = refused "Authentication required.")
  /\ forall tok,
       tok <> "" ->
       headers_get (headers request) "Authorization" = Some ("Bearer " ++ tok) ->
       match configured_secret s with
       | None =>
           answer = Middleware.Respond
                      (respond (Message "Internal server configuration error.") 500)
       | Some secret =>
           match jwtVerify tok secret with
           | Thrown code =>
               exists m,
                 answer = refused m
                 /\ (code = Some "ERR_JWT_EXPIRED" -> m = "Token has expired.")
                 /\ (forall c, code = Some c -> c <> "ERR_JWT_EXPIRED" ->
                                String.prefix "ERR_JWT" c = true ->
                                m = "Invalid token (verification failed).")
                 /\ (code = Some "ERR_JOSE_GENERIC" -> m = "Token processing failed.")
                 /\ ((forall c, code = Some c ->
                                 String.prefix "ERR_JWT" c = false
                                 /\ c <> "ERR_JOSE_GENERIC") ->
                     m = "Invalid or expired token.")
           | Verified c =>
               match Middleware.claim c "userId", Middleware.claim c "badgeId",
                     Middleware.claim c "isAdmin" with
               | Some u, Some b, Some a =>
                   exists h,
                     answer = Middleware.Next h
                     /\ headers_get h "X-User-Id" = Some u
                     /\ headers_get h "X-User-BadgeId" = Some b
                     /\ headers_get h "X-User-IsAdmin" = Some a
                     /\ forall name, Js.toLowerCase name ∉ identity_headers ->
                                     headers_get h name
                                     = headers_get (headers request) name
               | _, _, _ => answer = refused "Invalid or expired token."
               end
           end
       end.
Proof.
  intros Hm Hc answer refused. subst answer refused. unfold Middleware.gate.
  rewrite Hm. split; [by apply middleware_keeps_cache|].
  unfold Middleware.middleware. rewrite (cached_key_configured s Hc). split.
  - intros [Hno|He].
    + by rewrite (token_other request Hno).
    + by rewrite (token_bearer request "" He).
  - intros tok Hne Ha. rewrite (token_bearer request tok Ha).
    destruct tok as [|c0 r0]; [done|].
    destruct (configured_secret s) as [secret|]; [|done].
    destruct (jwtVerify _ secret) as [c|code].
    + rewrite set_identity.
      destruct (Middleware.claim c "userId") as [u|]; [|done].
      destruct (Middleware.claim c "badgeId") as [b|]; [|done].
      destruct (Middleware.claim c "isAdmin") as [a|]; [|done].
      simpl. eexists. split; [done|]. apply injected_headers.
    + simpl. eexists. split; [done|].
      unfold Middleware.failure_message, Js.startsWith.
      repeat split.
      * by intros ->.
      * intros c -> Hx Hp. rewrite bool_decide_eq_false_2 by congruence.
        by rewrite Hp.
      * by intros ->.
      * intros Hother. destruct code as [c|]; [|done].
        destruct (Hother c eq_refl) as [Hp Hg].
        case_bool_decide as E; [injection E as ->; done|].
        rewrite Hp. by rewrite bool_decide_eq_false_2 by congruence.
Qed.

End Gate.

Lemma gate_outcomes_witness :
  exists h,
    (Middleware.gate (H:=Sample.platform) Sample.state Sample.add_evidence).1
    = Middleware.Next h
    /\ headers_get h "X-User-Id" = Some "cuser0001"
    /\ headers_get h "X-User-BadgeId" = Some "OFFICER123"
    /\ headers_get h "X-User-IsAdmin" = Some "false"
    /\ forall name, Js.toLowerCase name ∉ identity_headers ->
                    headers_get h name = headers_get (headers Sample.add_evidence) name.
Proof.
  apply (proj2 (proj2 (gate_outcomes (H:=Sample.platform) Sample.state Sample.add_evidence
                         eq_refl (or_introl eq_refl)))
           "signed.by.officer"); [discriminate|reflexivity].
Defined.

Example gate_without_header :
  (Middleware.gate (H:=Sample.platform) Sample.state (Sample.listing [])).1
  = Middleware.Respond (respond (Message "Authentication required.") 401).
Proof. reflexivity. Qed.

Example gate_other_scheme :
  (Middleware.gate (H:=Sample.platform) Sample.state
     (Sample.request "/api/incidents"
        (headers_set ∅ "Authorization" "Basic signed.by.officer") [] None)).1
  = Middleware.Respond (respond (Message "Authentication required.") 401).
Proof. reflexivity. Qed.

Example gate_without_secret :
  (Middleware.gate (H:=Sample.platform) (Middleware.initial None) Sample.add_evidence).1
  = Middleware.Respond (respond (Message "Internal server configuration error.") 500).
Proof. reflexivity. Qed.

Example gate_expired_token :
  (Middleware.gate (H:=Sample.platform) Sample.state
     (Sample.request "/api/incidents"
        (headers_set ∅ "authorization" "Bearer old.token") [] None)).1
  = Middleware.Respond (respond (Message "Token has expired.") 401).
Proof. reflexivity. Qed.

(** The token of the seeding script carries no isAdmin: the gate writes
    the string of undefined. *)
Example gate_seeding_token :
  exists h,
    (Middleware.gate (H:=Sample.platform) Sample.state
       (Scenario.bearer "signed.for.seeding" None)).1 = Middleware.Next h
    /\ headers_get h "X-User-Id" = Some "cuser0001"
    /\ headers_get h "X-User-IsAdmin" = Some "undefined".
Proof. eexists. split; [reflexivity|]. split; reflexivity. Qed.

(** C7, the failing request.  An officer signs up with the badge id
    "\206\169-7" (a capital omega, U+03A9, in front), logs in and gets a
    token; the token verifies, with the claims the login signed.  Sent as
    "Bearer <token>" to /api/incidents/cinc00001 it is refused all the
    same: Headers.set throws on the badge id, which holds a character
    beyond U+00FF, the catch block of the verification takes the
    TypeError, and the gate answers 401 "Invalid or expired token." where
    the request should proceed with the claims in its headers. *)
Theorem verified_token_refused :
  let st' := (UsersRoute.POST (H:=Scenario.services) Sample.store Sample.env "salt"
                (Scenario.signup Sample.omega_7 "Inspector" "s3cure!")).2 in
  LoginRoute.POST (H:=Scenario.services) st' (Some "s3cret") 5
    (Scenario.credentials Sample.omega_7 "s3cure!")
  = LoginRoute.Token "signed.by.inspector"
  /\ jwtVerify (Platform:=Sample.platform) "signed.by.inspector" "s3cret"
     = Verified (Sample.claims Sample.inspector)
  /\ Middleware.claim (H:=Sample.platform) (Sample.claims Sample.inspector) "badgeId" = None
  /\ Middleware.matcher (pathname (Scenario.bearer "signed.by.inspector" None)) = true
  /\ (Middleware.gate (H:=Sample.platform) Sample.state
        (Scenario.bearer "signed.by.inspector" None)).1
     = Middleware.Respond (respond (Message "Invalid or expired token.") 401).
Proof. repeat split; vm_compute; reflexivity. Qed.

(** ** Evidence creation *)

Lemma evidence_POST_201 (st : Store) (env : Env) (request : Request) :
  http_status (EvidenceRoute.POST st env request).1 = 201%Z ->
  exists uid pathIncident e,
    loggedInUserId request = Some uid
    /\ EvidenceRoute.path_incidentId request = Some pathIncident
    /\ evidence (EvidenceRoute.POST st env request).2 !! cuid_id env = Some e
    /\ addedById e = uid
    /\ incidentId e = pathIncident.
Proof.
  unfold EvidenceRoute.POST, Db.evidence_create. intros Hs. branches.
  do 3 eexists. rewrite lookup_insert_eq. done.
Qed.

Section Adder.
Context `{Platform}.

(** C9: when POST /incidents/:id/evidence, behind the gate, answers 201,
    the request carried a token that verifies under the cached key and the
    stored evidence has for addedById the userId of that token, as the
    gate writes it in X-User-Id, whatever the body and the headers of the
    request say. *)
Theorem evidence_adder_is_caller (s : Middleware.State) (st : Store) (env : Env)
    (request : Request) :
  Middleware.matcher (pathname request) = true ->
  http_status (Middleware.guarded (EvidenceRoute.POST st env) st s request).1.1 = 201%Z ->
  exists tok key p e,
    Middleware.token request = Some tok
    /\ Middleware.cached_key s = Some key
    /\ jwtVerify tok key = Verified p
    /\ evidence (Middleware.guarded (EvidenceRoute.POST st env) st s request).1.2
         !! cuid_id env = Some e
    /\ Middleware.claim p "userId" = Some (addedById e).
Proof.
  intros Hm. unfold Middleware.guarded, Middleware.gate. rewrite Hm.
  unfold Middleware.middleware.
  destruct (Middleware.token request) as [[|c r]|]; [done| |done].
  destruct (Middleware.cached_key s) as [key|]; [|done].
  destruct (jwtVerify _ key) as [p|code] eqn:Hv; [|done].
  rewrite set_identity.
  destruct (Middleware.claim p "userId") as [u|] eqn:Hcu; [|done].
  destruct (Middleware.claim p "badgeId") as [b|]; [|done].
  destruct (Middleware.claim p "isAdmin") as [a|]; [|done].
  simpl. intros Hs.
  destruct (evidence_POST_201 _ _ _ Hs) as (uid & _ & e & Hu & _ & He & Ha & _).
  exists (String c r), key, p, e. repeat split; try done.
  unfold loggedInUserId in Hu. simpl in Hu.
  destruct (injected_headers (headers request) u b a) as (Hid & _).
  rewrite Hid in Hu. congruence.
Qed.

End Adder.

Lemma evidence_adder_is_caller_witness :
  exists tok key p e,
    Middleware.token Sample.add_evidence = Some tok
    /\ Middleware.cached_key Sample.state = Some key
    /\ jwtVerify (Platform:=Sample.platform) tok key = Verified p
    /\ evidence (Middleware.guarded (H:=Sample.platform)
                   (EvidenceRoute.POST Sample.store Sample.env)
                   Sample.store Sample.state Sample.add_evidence).1.2
         !! cuid_id Sample.env = Some e
    /\ Middleware.claim (H:=Sample.platform) p "userId" = Some (addedById e).
Proof.
  apply (evidence_adder_is_caller (H:=Sample.platform) Sample.state Sample.store
           Sample.env Sample.add_evidence); vm_compute; reflexivity.
Defined.

Example body_cannot_name_adder :
  addedById <$> evidence (Middleware.guarded (H:=Sample.platform)
                            (EvidenceRoute.POST Sample.store Sample.env)
                            Sample.store Sample.state Sample.add_evidence).1.2
                  !! "cnew00001"
  = Some "cuser0001".
Proof. vm_compute. reflexivity. Qed.

(** ** The incident list: sorting *)

Lemma includes_In (xs : list string) (x : string) :
  Js.includes xs x = true <-> In x xs.
Proof.
  unfold Js.includes. rewrite existsb_exists. split.
  - intros (y & Hy & He). apply String.eqb_eq in He. by subst.
  - intros Hx. exists x. split; [done|]. apply String.eqb_refl.
Qed.

(** A sort field of the handler's list with a direction is applied as
    given. *)
Lemma orderBy_applied (request : Request) :
  In (IncidentsRoute.sortBy request) IncidentsRoute.allowedSortByFields ->
  In (IncidentsRoute.sortOrder request) ["asc"; "desc"] ->
  IncidentsRoute.orderByClause request
  = {| ob_field := IncidentsRoute.sortBy request;
       ob_order := IncidentsRoute.sortOrder request |}.
Proof.
  intros Hf Ho. unfold IncidentsRoute.orderByClause.
  apply includes_In in Hf, Ho. by rewrite Hf, Ho.
Qed.

(** Any other field or direction gives the default. *)
Lemma orderBy_fallback (request : Request) :
  ~ In (IncidentsRoute.sortBy request) IncidentsRoute.allowedSortByFields
  \/ ~ In (IncidentsRoute.sortOrder request) ["asc"; "desc"] ->
  IncidentsRoute.orderByClause request
  = {| ob_field := "reportedAt"; ob_order := "desc" |}.
Proof.
  intros Hno. unfold IncidentsRoute.orderByClause.
  destruct (Js.includes _ (IncidentsRoute.sortBy request)) eqn:Hf; [|done].
  destruct (Js.includes _ (IncidentsRoute.sortOrder request)) eqn:Ho; [|done].
  apply includes_In in Hf, Ho. tauto.
Qed.

Example closed_by_location :
  let request := Sample.listing [("status", "Closed"); ("sortBy", "location");
                                 ("sortOrder", "asc")] in
  IncidentsRoute.orderByClause request = {| ob_field := "location"; ob_order := "asc" |}
  /\ Db.where_status (IncidentsRoute.whereClause request) = Some "Closed"
  /\ Db.selected (H:=Sample.platform) Sample.store (IncidentsRoute.whereClause request)
     = [Sample.burglary].
Proof. vm_compute. done. Qed.

(** C4, the failing request: GET /incidents?sortBy=caseNumber&sortOrder=asc
    is sorted by reportedAt descending, caseNumber not being in
    allowedSortByFields. *)
Theorem caseNumber_sort_ignored :
  ~ In "caseNumber" IncidentsRoute.allowedSortByFields
  /\ IncidentsRoute.sortBy (Sample.listing [("sortBy", "caseNumber"); ("sortOrder", "asc")])
     = "caseNumber"
  /\ IncidentsRoute.sortOrder (Sample.listing [("sortBy", "caseNumber"); ("sortOrder", "asc")])
     = "asc"
  /\ IncidentsRoute.orderByClause
       (Sample.listing [("sortBy", "caseNumber"); ("sortOrder", "asc")])
     = {| ob_field := "reportedAt"; ob_order := "desc" |}.
Proof.
  split; [|by repeat split].
  unfold IncidentsRoute.allowedSortByFields. simpl. intros H.
  repeat (destruct H as [H|H]; [discriminate H|]). exact H.
Qed.

(** ** The incident list: pagination *)

Lemma ceil_div_bounds (a b : Z) :
  (0 < b)%Z ->
  ((Js.ceil_div a b - 1) * b < a <= Js.ceil_div a b * b)%Z.
Proof.
  intros Hb. unfold Js.ceil_div.
  pose proof (Z.div_mod (- a) b ltac:(lia)) as Hd.
  pose proof (Z.mod_pos_bound (- a) b Hb) as Hm.
  nia.
Qed.

Lemma double_small (z : Z) : (Z.abs z < 2 ^ 53)%Z -> Js.double z = Js.Int z.
Proof.
  intros Hz. unfold Js.double. cbv zeta.
  by destruct (Z.ltb_spec (Z.abs z) (2 ^ 53)); [|lia].
Qed.

Section Page.
Context `{Platform}.

(** Query values that parse as integers, the page at most 2^47 so that the
    offset is computed exactly, with a client that takes the offset and
    the limit: the page is at least 1, the limit within [1, 50], the count
    is that of the rows matching the filter, the page count its ceiling
    quotient by the limit, and no more rows than the limit come back. *)
Lemma numeric_page (st : Store) (request : Request) (p l : Z) :
  IncidentsRoute.page request = Js.Int p ->
  IncidentsRoute.limit request = Js.Int l ->
  (p <= 2 ^ 47)%Z ->
  (forall z, (0 <= z < 2 ^ 53)%Z -> dbInt z = true) ->
  exists rows vp vl tp,
    IncidentsRoute.GET st request
    = respond (IncidentPage rows
                 {| currentPage := Js.Int vp; totalPages := Js.Int tp;
                    totalCount := Z.of_nat (length (Db.selected st
                                                      (IncidentsRoute.whereClause request)));
                    limit := Js.Int vl |}) 200
    /\ IncidentsRoute.validatedPage request = Js.Int vp
    /\ IncidentsRoute.validatedLimit request = Js.Int vl
    /\ (1 <= vp)%Z /\ (1 <= vl <= 50)%Z
    /\ (Z.of_nat (length rows) <= vl)%Z
    /\ ((tp - 1) * vl
        < Z.of_nat (length (Db.selected st (IncidentsRoute.whereClause request)))
        <= tp * vl)%Z.
Proof.
  intros Hp Hl Hsmall Hdb.
  set (vp := Z.max 1 p). set (vl := Z.max 1 (Z.min 50 l)).
  assert (Hpow : (2 ^ 53 = 9007199254740992)%Z) by reflexivity.
  assert (Hpow' : (2 ^ 47 = 140737488355328)%Z) by reflexivity.
  exists ((fun i => (i, Db.summary st (reportedById i)))
            <$> firstn (Z.to_nat vl)
                  (skipn (Z.to_nat ((vp - 1) * vl))
                     (orderRows (IncidentsRoute.orderByClause request)
                        ((vp - 1) * vl) vl
                        (Db.selected st (IncidentsRoute.whereClause request))))),
    vp, vl,
    (Js.ceil_div (Z.of_nat (length (Db.selected st (IncidentsRoute.whereClause request))))
                 vl).
  assert (Hvp : IncidentsRoute.validatedPage request = Js.Int vp).
  { unfold IncidentsRoute.validatedPage. by rewrite Hp. }
  assert (Hvl : IncidentsRoute.validatedLimit request = Js.Int vl).
  { unfold IncidentsRoute.validatedLimit. by rewrite Hl. }
  assert (Hsk : IncidentsRoute.skip request = Js.Int ((vp - 1) * vl)).
  { unfold IncidentsRoute.skip. rewrite Hvp, Hvl. unfold Js.sub.
    rewrite double_small by lia. unfold Js.mul. rewrite double_small by nia. done. }
  repeat split; try done; try lia.
  - unfold IncidentsRoute.GET, Db.findMany, Db.count.
    rewrite Hsk, Hvp, Hvl. rewrite !Hdb by nia. simpl.
    destruct (Z.eqb_spec vl 0) as [E|_]; [lia|]. done.
  - rewrite length_fmap, length_firstn. lia.
  - apply ceil_div_bounds. lia.
  - apply ceil_div_bounds. lia.
Qed.

End Page.

(** A page beyond the client's integers: parseInt rounds to 1e20, the
    offset is 1e21, findMany throws. *)
Example huge_page_refused :
  IncidentsRoute.skip (Sample.listing [("page", "99999999999999999999")])
  = Js.Int (10 ^ 21)
  /\ IncidentsRoute.GET (H:=Sample.platform) Sample.store
       (Sample.listing [("page", "99999999999999999999")])
     = respond (Message "Failed to retrieve incidents.") 500.
Proof. split; vm_compute; reflexivity. Qed.

(** C5, the failing requests: GET /incidents?page=abc and
    GET /incidents?limit=abc.  parseInt yields NaN, Math.max and Math.min
    pass it on: the effective page is not at least 1, the effective limit
    not within [1, 50], and skip is NaN as well. *)
Theorem nonnumeric_page_not_clamped :
  IncidentsRoute.validatedPage (Sample.listing [("page", "abc")]) = Js.NaN
  /\ ~ Js.ge (IncidentsRoute.validatedPage (Sample.listing [("page", "abc")])) 1
  /\ IncidentsRoute.validatedLimit (Sample.listing [("limit", "abc")]) = Js.NaN
  /\ ~ (Js.ge (IncidentsRoute.validatedLimit (Sample.listing [("limit", "abc")])) 1
        /\ Js.le (IncidentsRoute.validatedLimit (Sample.listing [("limit", "abc")])) 50)
  /\ IncidentsRoute.skip (Sample.listing [("page", "abc")]) = Js.NaN.
Proof.
  repeat split; try reflexivity.
  - intros Hge. exact Hge.
  - intros [Hge _]. exact Hge.
Qed.

(* ===================================================================== *)
(** * Further properties of the handlers                                  *)
(* ===================================================================== *)

(** ** Reading an incident back *)

Lemma string_trim_min1_valid (x : json) (t : string) :
  Schemas.string_trim_min1 x = Schemas.Valid t ->
  exists s, x = JStr s /\ t = Js.trim s /\ t <> "".
Proof.
  unfold Schemas.string_trim_min1. destruct x; try done.
  case_bool_decide; [done|]. intros [= <-]. eauto.
Qed.

Lemma required_trim_min1_valid (x : option json) (t : string) :
  Schemas.required Schemas.string_trim_min1 x = Schemas.Valid t ->
  exists s, x = Some (JStr s) /\ t = Js.trim s /\ t <> "".
Proof.
  destruct x as [x|]; [|done]. simpl. intros Hv.
  destruct (string_trim_min1_valid x t Hv) as (s & -> & ? & ?). eauto.
Qed.

(** GET /incidents/:id on a stored incident, and on an id that is not
    stored. *)
Lemma GET_found (st : Store) (get : Request) (key : string) (i : Incident) :
  IncidentIdRoute.path_id get = Some key -> key <> "" -> key <> "[id]" ->
  incidents st !! key = Some i ->
  IncidentIdGet.GET st get = respond (IncidentJson i (Db.summary st (reportedById i))) 200.
Proof.
  intros Hp Hne Hne' Hi. unfold IncidentIdGet.GET. rewrite Hp.
  destruct key as [|a k]; [done|].
  rewrite bool_decide_eq_false_2 by done. by rewrite Hi.
Qed.

Lemma GET_missing (st : Store) (get : Request) (key : string) :
  IncidentIdRoute.path_id get = Some key -> key <> "" -> key <> "[id]" ->
  incidents st !! key = None ->
  http_status (IncidentIdGet.GET st get) = 404%Z.
Proof.
  intros Hp Hne Hne' Hi. unfold IncidentIdGet.GET. rewrite Hp.
  destruct key as [|a k]; [done|].
  rewrite bool_decide_eq_false_2 by done. by rewrite Hi.
Qed.

Section ReadBack.
Context `{Platform}.

Local Arguments Schemas.IncidentCreateSchema : simpl never.
Local Arguments Db.caseNumber_taken : simpl never.

Lemma create_schema_texts (body : json) (d : Schemas.IncidentCreate) :
  Schemas.IncidentCreateSchema body = Schemas.Success d ->
  exists props l c e,
    body = JObj props
    /\ prop "location" props = Some (JStr l) /\ Schemas.new_location d = Js.trim l
    /\ prop "crimeType" props = Some (JStr c) /\ Schemas.new_crimeType d = Js.trim c
    /\ prop "description" props = Some (JStr e) /\ Schemas.new_description d = Js.trim e
    /\ Schemas.new_location d <> "" /\ Schemas.new_crimeType d <> ""
    /\ Schemas.new_description d <> ""
    /\ prop "occurredAt" props = Some (JStr (Schemas.new_occurredAt d)).
Proof.
  unfold Schemas.IncidentCreateSchema. intros Hs.
  destruct body; try done.
  destruct (Schemas.required Schemas.string_datetime _) eqn:Ho; try done.
  destruct (Schemas.required Schemas.string_trim_min1 (prop "location" _)) eqn:Hl; try done.
  destruct (Schemas.required Schemas.string_trim_min1 (prop "crimeType" _)) eqn:Hc; try done.
  destruct (Schemas.required Schemas.string_trim_min1 (prop "description" _)) eqn:Hd;
    try done.
  destruct (Schemas.required Schemas.string_cuid _); try done.
  destruct (Schemas.optional (Schemas.enum _) _); try done.
  simplify_eq. simpl.
  destruct (required_trim_min1_valid _ _ Hl) as (l & Hl1 & Hl2 & Hl3).
  destruct (required_trim_min1_valid _ _ Hc) as (c & Hc1 & Hc2 & Hc3).
  destruct (required_trim_min1_valid _ _ Hd) as (e & Hd1 & Hd2 & Hd3).
  exists props, l, c, e. repeat split; try done.
  unfold Schemas.required, Schemas.string_datetime in Ho.
  destruct (prop "occurredAt" props) as [[]|]; try done.
  destruct (_ && _); by simplify_eq.
Qed.

(** The row a POST answering 201 has stored. *)
Lemma POST_created (st : Store) (env : Env) (request : Request) :
  http_status (IncidentsRoute.POST st env request).1 = 201%Z ->
  exists body d occ,
    json_body request = Some body
    /\ Schemas.IncidentCreateSchema body = Schemas.Success d
    /\ newDate (JStr (Schemas.new_occurredAt d)) = Some occ
    /\ incidents st !! cuid_id env = None
    /\ Db.caseNumber_taken st (cuid_caseNumber env) = false
    /\ is_Some (users st !! Schemas.new_reportedById d)
    /\ let i := {| id := cuid_id env;
                   caseNumber := cuid_caseNumber env;
                   reportedAt := now env;
                   occurredAt := occ;
                   location := Schemas.new_location d;
                   crimeType := Schemas.new_crimeType d;
                   description := Schemas.new_description d;
                   status := Js.or_default (Schemas.new_status d) "Open";
                   closingReason := None;
                   createdAt := now env;
                   updatedAt := now env;
                   reportedById := Schemas.new_reportedById d |} in
       let st' := {| users := users st;
                     incidents := <[cuid_id env := i]> (incidents st);
                     evidence := evidence st |} in
       IncidentsRoute.POST st env request
       = (respond (IncidentJson i (Db.summary st' (Schemas.new_reportedById d))) 201, st').
Proof.
  unfold IncidentsRoute.POST, Db.incident_create. intros Hs. branches.
  do 3 eexists. repeat split; done.
Qed.

(** X1: an incident created by POST /incidents is read back by GET
    /incidents/:id as the very document the creation answered: id and case
    number are the generated ones, the three texts are the trimmed texts of
    the body, the status is the body's or 'Open', closingReason is null and
    the owner is the body's reportedById, whatever other keys the body
    has. *)
Theorem create_then_get (st : Store) (env : Env) (request get : Request) :
  http_status (IncidentsRoute.POST st env request).1 = 201%Z ->
  IncidentIdRoute.path_id get = Some (cuid_id env) ->
  cuid_id env <> "" -> cuid_id env <> "[id]" ->
  exists props l c e r i by_,
    json_body request = Some (JObj props)
    /\ prop "location" props = Some (JStr l)
    /\ prop "crimeType" props = Some (JStr c)
    /\ prop "description" props = Some (JStr e)
    /\ prop "reportedById" props = Some (JStr r)
    /\ IncidentIdGet.GET (IncidentsRoute.POST st env request).2 get
       = respond (IncidentJson i by_) 200
    /\ payload (IncidentsRoute.POST st env request).1 = IncidentJson i by_
    /\ id i = cuid_id env /\ caseNumber i = cuid_caseNumber env
    /\ reportedAt i = now env
    /\ location i = Js.trim l /\ crimeType i = Js.trim c /\ description i = Js.trim e
    /\ status i = match prop "status" props with Some (JStr s) => s | _ => "Open" end
    /\ closingReason i = None
    /\ reportedById i = r.
Proof.
  intros Hs Hp Hne Hne'.
  destruct (POST_created st env request Hs)
    as (body & d & occ & Hb & Hd & _ & _ & _ & _ & Heq).
  destruct (create_schema_texts _ _ Hd)
    as (props & l & c & e & -> & Hl & Hl' & Hc & Hc' & He & He' & _).
  destruct (create_schema_success _ _ Hd) as (props' & [= <-] & Hr & Hst).
  simpl in Heq. rewrite Heq. simpl.
  exists props, l, c, e, (Schemas.new_reportedById d). do 2 eexists.
  split; [done|]. do 4 (split; [eassumption|]).
  split.
  { apply (GET_found _ get (cuid_id env)); try done. simpl. apply lookup_insert_eq. }
  repeat split; try done. simpl.
  destruct (optional_enum_valid _ _ Hst) as [[-> ->]|(t & -> & -> & Ht)]; [done|].
  by destruct Ht as [-> | [-> | ->]].
Qed.

End ReadBack.

Lemma create_then_get_witness :
  exists props l c e r i by_,
    json_body (Sample.create "cuser0001" (Sample.report "cuser0002" [])) = Some (JObj props)
    /\ prop "location" props = Some (JStr l)
    /\ prop "crimeType" props = Some (JStr c)
    /\ prop "description" props = Some (JStr e)
    /\ prop "reportedById" props = Some (JStr r)
    /\ IncidentIdGet.GET
         (IncidentsRoute.POST (H:=Sample.platform) Sample.store Sample.env
            (Sample.create "cuser0001" (Sample.report "cuser0002" []))).2
         (Sample.request "/api/incidents/cnew00001" ∅ [] None)
       = respond (IncidentJson i by_) 200
    /\ payload (IncidentsRoute.POST (H:=Sample.platform) Sample.store Sample.env
                  (Sample.create "cuser0001" (Sample.report "cuser0002" []))).1
       = IncidentJson i by_
    /\ id i = cuid_id Sample.env /\ caseNumber i = cuid_caseNumber Sample.env
    /\ reportedAt i = now Sample.env
    /\ location i = Js.trim l /\ crimeType i = Js.trim c /\ description i = Js.trim e
    /\ status i = match prop "status" props with Some (JStr s) => s | _ => "Open" end
    /\ closingReason i = None
    /\ reportedById i = r.
Proof.
  apply (create_then_get (H:=Sample.platform) Sample.store Sample.env
           (Sample.create "cuser0001" (Sample.report "cuser0002" []))
           (Sample.request "/api/incidents/cnew00001" ∅ [] None));
    first [discriminate | vm_compute; reflexivity].
Defined.

(** ** Deleting an incident *)

(** The path DELETE took when it answers 204. *)
Lemma DELETE_204 (st : Store) (request : Request) :
  http_status (IncidentIdRoute.DELETE st request).1 = 204%Z ->
  exists key uid i,
    IncidentIdRoute.path_id request = Some key /\ key <> "" /\ key <> "[id]"
    /\ loggedInUserId request = Some uid /\ uid <> ""
    /\ incidents st !! key = Some i
    /\ allowed (isAdmin_header request) uid (reportedById i) = true
    /\ (IncidentIdRoute.DELETE st request).2 = Db.incident_delete st key.
Proof.
  unfold IncidentIdRoute.DELETE. intros Hs. branches.
  do 3 eexists. repeat split; try done.
  - match goal with E : bool_decide _ = false |- _ => by apply bool_decide_eq_false in E end.
  - by apply allowed_true.
Qed.

Lemma DELETE_unchanged (st : Store) (request : Request) :
  http_status (IncidentIdRoute.DELETE st request).1 <> 204%Z ->
  (IncidentIdRoute.DELETE st request).2 = st.
Proof. unfold IncidentIdRoute.DELETE. intros Hs. branches. Qed.

(** X2: a DELETE /incidents/:id answering 204 removes the incident and
    exactly the evidence attached to it; the other incidents, the other
    evidence and the users stay as they were. *)
Theorem delete_cascades (st : Store) (request : Request) (key : string) :
  http_status (IncidentIdRoute.DELETE st request).1 = 204%Z ->
  IncidentIdRoute.path_id request = Some key ->
  let st' := (IncidentIdRoute.DELETE st request).2 in
  incidents st' !! key = None
  /\ (forall k, k <> key -> incidents st' !! k = incidents st !! k)
  /\ (forall k e, evidence st' !! k = Some e
                  <-> evidence st !! k = Some e /\ incidentId e <> key)
  /\ users st' = users st.
Proof.
  intros Hs Hp.
  destruct (DELETE_204 st request Hs) as (key' & uid & i & Hp' & _ & _ & _ & _ & _ & _ & ->).
  simplify_eq. simpl. split; [apply lookup_delete_eq|].
  split; [intros k Hk; by apply lookup_delete_ne|]. split; [|done].
  intros k e. rewrite map_lookup_filter_Some. done.
Qed.

Lemma delete_cascades_witness :
  let st' := (IncidentIdRoute.DELETE Sample.store
                (Sample.on_theft "cuser0001" false None)).2 in
  incidents st' !! "cinc00001" = None
  /\ (forall k, k <> "cinc00001" -> incidents st' !! k = incidents Sample.store !! k)
  /\ (forall k e, evidence st' !! k = Some e
                  <-> evidence Sample.store !! k = Some e /\ incidentId e <> "cinc00001")
  /\ users st' = users Sample.store.
Proof.
  apply (delete_cascades Sample.store (Sample.on_theft "cuser0001" false None) "cinc00001");
    vm_compute; reflexivity.
Defined.

(** X3: once a DELETE /incidents/:id has answered 204, the same request
    again, and a GET of the same path, answer 404; the repeated DELETE
    changes nothing. *)
Theorem delete_twice (st : Store) (request : Request) :
  http_status (IncidentIdRoute.DELETE st request).1 = 204%Z ->
  let st' := (IncidentIdRoute.DELETE st request).2 in
  http_status (IncidentIdRoute.DELETE st' request).1 = 404%Z
  /\ (IncidentIdRoute.DELETE st' request).2 = st'
  /\ http_status (IncidentIdGet.GET st' request) = 404%Z.
Proof.
  intros Hs.
  destruct (DELETE_204 st request Hs)
    as (key & uid & i & Hp & Hk & Hk' & Hu & Hu' & _ & _ & Heq).
  simpl. rewrite Heq.
  assert (Hgone : incidents (Db.incident_delete st key) !! key = None)
    by apply lookup_delete_eq.
  assert (H404 : http_status (IncidentIdRoute.DELETE (Db.incident_delete st key) request).1
                 = 404%Z).
  { unfold IncidentIdRoute.DELETE. rewrite Hp, Hu.
    destruct key as [|a k]; [done|]. rewrite bool_decide_eq_false_2 by done.
    destruct uid as [|a' u]; [done|]. by rewrite Hgone. }
  split; [done|]. split.
  - apply DELETE_unchanged. rewrite H404. done.
  - by apply (GET_missing _ request key).
Qed.

Lemma delete_twice_witness :
  let st' := (IncidentIdRoute.DELETE Sample.store
                (Sample.on_theft "cuser0001" false None)).2 in
  http_status (IncidentIdRoute.DELETE st' (Sample.on_theft "cuser0001" false None)).1
  = 404%Z
  /\ (IncidentIdRoute.DELETE st' (Sample.on_theft "cuser0001" false None)).2 = st'
  /\ http_status (IncidentIdGet.GET st' (Sample.on_theft "cuser0001" false None)) = 404%Z.
Proof.
  apply (delete_twice Sample.store (Sample.on_theft "cuser0001" false None)).
  vm_compute. reflexivity.
Defined.

(** ** Updating an incident: what a patch leaves alone *)

Lemma optional_trim_min1_valid (x : option json) (r : option string) :
  Schemas.optional Schemas.string_trim_min1 x = Schemas.Valid r ->
  match x with
  | None => r = None
  | Some (JStr s) => r = Some (Js.trim s) /\ Js.trim s <> ""
  | Some _ => False
  end.
Proof.
  unfold Schemas.optional. destruct x as [x|]; [|by intros [= <-]].
  destruct (Schemas.string_trim_min1 x) as [t|] eqn:E; [|done]. intros [= <-].
  destruct (string_trim_min1_valid x t E) as (s & -> & -> & ?). done.
Qed.

Section Frame.
Context `{Platform}.

Lemma update_schema_texts (body : json) (v : Schemas.IncidentUpdate) :
  Schemas.IncidentUpdateSchema body = Schemas.Success v ->
  exists props, body = JObj props
    /\ Schemas.optional Schemas.coerce_date (prop "occurredAt" props)
       = Schemas.Valid (Schemas.up_occurredAt v)
    /\ Schemas.optional Schemas.string_trim_min1 (prop "location" props)
       = Schemas.Valid (Schemas.up_location v)
    /\ Schemas.optional Schemas.string_trim_min1 (prop "crimeType" props)
       = Schemas.Valid (Schemas.up_crimeType v)
    /\ Schemas.optional Schemas.string_trim_min1 (prop "description" props)
       = Schemas.Valid (Schemas.up_description v).
Proof.
  unfold Schemas.IncidentUpdateSchema. intros Hs.
  destruct body; try done. exists props.
  destruct (Schemas.optional Schemas.coerce_date _); try done.
  destruct (Schemas.optional Schemas.string_trim_min1 (prop "location" _)); try done.
  destruct (Schemas.optional Schemas.string_trim_min1 (prop "crimeType" _)); try done.
  destruct (Schemas.optional Schemas.string_trim_min1 (prop "description" _)); try done.
  destruct (Schemas.optional (Schemas.enum _) _); try done.
  destruct (Schemas.optional (Schemas.nullable _) _); try done.
  destruct (Nat.ltb 0 _); by simplify_eq.
Qed.

(** The text a patch sets for one of the three required texts. *)
Lemma patched_text (x : option json) (r : option string) (old : string) :
  Schemas.optional Schemas.string_trim_min1 x = Schemas.Valid r ->
  default old r = match x with Some (JStr s) => Js.trim s | _ => old end.
Proof.
  intros Hv. apply optional_trim_min1_valid in Hv.
  destruct x as [[| | |s| |]|]; try done.
  - by destruct Hv as [-> _].
  - by subst.
Qed.

(** X4: a PATCH answering 200 rewrites the addressed incident only: its
    id, case number, reportedAt, createdAt and owner stay, updatedAt
    becomes the time of the call, each of location, crimeType and
    description becomes the trimmed text of the patch or stays when the
    patch has no such key, occurredAt stays when the patch has none; the
    other incidents, the evidence and the users are as before. *)
Theorem patch_frame (st : Store) (env : Env) (request : Request)
    (key : string) (i : Incident) :
  http_status (IncidentIdRoute.PATCH st env request).1 = 200%Z ->
  IncidentIdRoute.path_id request = Some key ->
  incidents st !! key = Some i ->
  let st' := (IncidentIdRoute.PATCH st env request).2 in
  exists props i',
    json_body request = Some (JObj props)
    /\ incidents st' !! key = Some i'
    /\ id i' = id i /\ caseNumber i' = caseNumber i /\ reportedAt i' = reportedAt i
    /\ createdAt i' = createdAt i /\ reportedById i' = reportedById i
    /\ updatedAt i' = now env
    /\ location i' = match prop "location" props with
                     | Some (JStr s) => Js.trim s | _ => location i end
    /\ crimeType i' = match prop "crimeType" props with
                      | Some (JStr s) => Js.trim s | _ => crimeType i end
    /\ description i' = match prop "description" props with
                        | Some (JStr s) => Js.trim s | _ => description i end
    /\ (prop "occurredAt" props = None -> occurredAt i' = occurredAt i)
    /\ (forall k, k <> key -> incidents st' !! k = incidents st !! k)
    /\ users st' = users st /\ evidence st' = evidence st.
Proof.
  intros Hs Hk Hi.
  destruct (PATCH_200 st env request Hs)
    as (key' & uid & i0 & body & v & Hk' & _ & _ & _ & _ & Hi' & _ & Hb & Hv & _ & Heq).
  simplify_eq.
  destruct (update_schema_texts _ _ Hv) as (props & -> & Ho & Hl & Hc & Hd).
  simpl. rewrite Heq. simpl.
  exists props, (Db.write (now env) (IncidentIdRoute.updateData v) i).
  split; [done|]. split; [by rewrite lookup_alter_eq, Hi|].
  do 6 (split; [done|]). simpl.
  split; [by apply patched_text|]. split; [by apply patched_text|].
  split; [by apply patched_text|]. split.
  { intros Hn. rewrite Hn in Ho. simpl in Ho. by injection Ho as <-. }
  split; [|done]. intros k Hne. by apply lookup_alter_ne.
Qed.

Lemma write_twice (t : Z) (d : Db.IncidentUpdateInput) (i : Incident) :
  Db.write t d (Db.write t d i) = Db.write t d i.
Proof.
  destruct d as [[?|] [?|] [?|] [?|] [?|] [?|]]; reflexivity.
Qed.

Lemma incident_update_twice (st : Store) (t : Z) (key : string)
    (d : Db.IncidentUpdateInput) :
  Db.incident_update (Db.incident_update st t key d) t key d
  = Db.incident_update st t key d.
Proof.
  unfold Db.incident_update. simpl. f_equal.
  apply map_eq. intros k. destruct (decide (key = k)) as [->|Hne].
  - rewrite !lookup_alter_eq. destruct (incidents st !! k); simpl; [|done].
    by rewrite write_twice.
  - by rewrite !lookup_alter_ne.
Qed.

(** X5: PATCH is idempotent: sending the same patch again, at the same
    time, gives the same answer and the same store as sending it once. *)
Theorem patch_idempotent (st : Store) (env : Env) (request : Request) :
  IncidentIdRoute.PATCH (IncidentIdRoute.PATCH st env request).2 env request
  = IncidentIdRoute.PATCH st env request.
Proof.
  destruct (decide (http_status (IncidentIdRoute.PATCH st env request).1 = 200%Z))
    as [Hs|Hs]; [|by rewrite (PATCH_unchanged st env request Hs)].
  destruct (PATCH_200 st env request Hs)
    as (key & uid & i & body & v & Hk & Hk1 & Hk2 & Hu & Hu1 & Hi & Ha & Hb & Hv & Hn & Heq).
  rewrite Heq. simpl.
  unfold IncidentIdRoute.PATCH at 1. rewrite Hk, Hu.
  destruct key as [|a k]; [done|]. rewrite bool_decide_eq_false_2 by done.
  destruct uid as [|a' u]; [done|].
  assert (Hi' : incidents (Db.incident_update st (now env) (String a k)
                             (IncidentIdRoute.updateData v)) !! String a k
                = Some (Db.write (now env) (IncidentIdRoute.updateData v) i)).
  { unfold Db.incident_update. simpl. by rewrite lookup_alter_eq, Hi. }
  rewrite Hi'.
  change (reportedById (Db.write (now env) (IncidentIdRoute.updateData v) i))
    with (reportedById i).
  destruct (negb _ && negb _) eqn:Hd.
  { apply allowed_false in Hd. congruence. }
  rewrite Hb, Hv. apply Nat.eqb_neq in Hn. rewrite Hn.
  by rewrite write_twice, incident_update_twice.
Qed.

End Frame.

Lemma patch_frame_witness :
  let st' := (IncidentIdRoute.PATCH (H:=Sample.platform) Sample.store Sample.env
                Sample.reopen_with_reason).2 in
  exists props i',
    json_body Sample.reopen_with_reason = Some (JObj props)
    /\ incidents st' !! "cinc00001" = Some i'
    /\ id i' = id Sample.theft /\ caseNumber i' = caseNumber Sample.theft
    /\ reportedAt i' = reportedAt Sample.theft
    /\ createdAt i' = createdAt Sample.theft
    /\ reportedById i' = reportedById Sample.theft
    /\ updatedAt i' = now Sample.env
    /\ location i' = match prop "location" props with
                     | Some (JStr s) => Js.trim s | _ => location Sample.theft end
    /\ crimeType i' = match prop "crimeType" props with
                      | Some (JStr s) => Js.trim s | _ => crimeType Sample.theft end
    /\ description i' = match prop "description" props with
                        | Some (JStr s) => Js.trim s | _ => description Sample.theft end
    /\ (prop "occurredAt" props = None -> occurredAt i' = occurredAt Sample.theft)
    /\ (forall k, k <> "cinc00001" -> incidents st' !! k = incidents Sample.store !! k)
    /\ users st' = users Sample.store /\ evidence st' = evidence Sample.store.
Proof.
  apply (patch_frame (H:=Sample.platform) Sample.store Sample.env
           Sample.reopen_with_reason "cinc00001" Sample.theft);
    vm_compute; reflexivity.
Defined.

(** ** Requests without an identity *)

Section Blind.
Context `{Platform}.

(** X6: a request without X-User-Id (or with an empty one) to update or
    delete an incident, to delete evidence or to add evidence is answered
    400 or 401 by the handler itself, changes nothing, and gets the same
    answer whatever the store holds: it learns nothing about what
    exists. *)
Theorem unauthenticated_blind (op : Mutation) (st1 st2 : Store) (env : Env)
    (request : Request) :
  Js.truthy (loggedInUserId request) = false ->
  ((mutate op st1 request).1 = (mutate op st2 request).1
   /\ (mutate op st1 request).2 = st1
   /\ (http_status (mutate op st1 request).1 = 400%Z
       \/ http_status (mutate op st1 request).1 = 401%Z))
  /\ ((EvidenceRoute.POST st1 env request).1 = (EvidenceRoute.POST st2 env request).1
      /\ (EvidenceRoute.POST st1 env request).2 = st1
      /\ (http_status (EvidenceRoute.POST st1 env request).1 = 400%Z
          \/ http_status (EvidenceRoute.POST st1 env request).1 = 401%Z)).
Proof.
  intros Hu. split.
  - destruct op as [env'| |params]; simpl;
      unfold IncidentIdRoute.PATCH, IncidentIdRoute.DELETE, EvidenceIdRoute.DELETE;
      destruct (loggedInUserId request) as [[|a u]|]; try done;
      repeat case_match; simpl; auto.
  - unfold EvidenceRoute.POST.
    destruct (loggedInUserId request) as [[|a u]|]; try done;
      repeat case_match; simpl; auto.
Qed.

End Blind.

Lemma unauthenticated_blind_witness :
  ((mutate (H:=Sample.platform) RemoveIncident Sample.store
      (Sample.request "/api/incidents/cinc00001" ∅ [] None)).1
   = (mutate (H:=Sample.platform) RemoveIncident
        (IncidentIdRoute.DELETE Sample.store (Sample.on_theft "cuser0001" false None)).2
        (Sample.request "/api/incidents/cinc00001" ∅ [] None)).1
   /\ (mutate (H:=Sample.platform) RemoveIncident Sample.store
         (Sample.request "/api/incidents/cinc00001" ∅ [] None)).2 = Sample.store
   /\ (http_status (mutate (H:=Sample.platform) RemoveIncident Sample.store
                      (Sample.request "/api/incidents/cinc00001" ∅ [] None)).1 = 400%Z
       \/ http_status (mutate (H:=Sample.platform) RemoveIncident Sample.store
                         (Sample.request "/api/incidents/cinc00001" ∅ [] None)).1 = 401%Z))
  /\ ((EvidenceRoute.POST Sample.store Sample.env
         (Sample.request "/api/incidents/cinc00001" ∅ [] None)).1
      = (EvidenceRoute.POST
           (IncidentIdRoute.DELETE Sample.store (Sample.on_theft "cuser0001" false None)).2
           Sample.env (Sample.request "/api/incidents/cinc00001" ∅ [] None)).1
      /\ (EvidenceRoute.POST Sample.store Sample.env
            (Sample.request "/api/incidents/cinc00001" ∅ [] None)).2 = Sample.store
      /\ (http_status (EvidenceRoute.POST Sample.store Sample.env
                         (Sample.request "/api/incidents/cinc00001" ∅ [] None)).1 = 400%Z
          \/ http_status (EvidenceRoute.POST Sample.store Sample.env
                            (Sample.request "/api/incidents/cinc00001" ∅ [] None)).1
             = 401%Z)).
Proof.
  apply (unauthenticated_blind (H:=Sample.platform) RemoveIncident Sample.store
           (IncidentIdRoute.DELETE Sample.store (Sample.on_theft "cuser0001" false None)).2
           Sample.env (Sample.request "/api/incidents/cinc00001" ∅ [] None)).
  vm_compute. reflexivity.
Defined.

(** ** The incident list: what a page holds *)

(** X7: whatever sortBy and sortOrder say, the list is ordered by one of the
    five columns of allowedSortByFields, ascending or descending. *)
Theorem orderBy_safe (request : Request) :
  In (ob_field (IncidentsRoute.orderByClause request)) IncidentsRoute.allowedSortByFields
  /\ In (ob_order (IncidentsRoute.orderByClause request)) ["asc"; "desc"].
Proof.
  unfold IncidentsRoute.orderByClause.
  destruct (Js.includes _ (IncidentsRoute.sortBy request)) eqn:Hf;
    [destruct (Js.includes _ (IncidentsRoute.sortOrder request)) eqn:Ho|]; simpl.
  - apply includes_In in Hf, Ho. done.
  - split; [by left|by right; left].
  - split; [by left|by right; left].
Qed.

Lemma In_take_drop {A : Type} (x : A) (n m : nat) (l : list A) :
  In x (firstn n (skipn m l)) -> In x l.
Proof.
  rewrite <- !list_elem_of_In. intros Hx.
  by eapply subseteq_drop, subseteq_take.
Qed.

Section Rows.
Context `{Platform}.

Lemma GET_rows (st : Store) (request : Request)
    (rows : list (Incident * option UserSummary)) (pg : Pagination) :
  IncidentsRoute.GET st request = respond (IncidentPage rows pg) 200 ->
  exists sk tk,
    IncidentsRoute.skip request = Js.Int sk
    /\ IncidentsRoute.validatedLimit request = Js.Int tk
    /\ rows = (fun i => (i, Db.summary st (reportedById i)))
                <$> firstn (Z.to_nat tk)
                      (skipn (Z.to_nat sk)
                         (orderRows (IncidentsRoute.orderByClause request) sk tk
                            (Db.selected st (IncidentsRoute.whereClause request)))).
Proof.
  unfold IncidentsRoute.GET, Db.findMany. intros Hg.
  destruct (IncidentsRoute.skip request) as [|sk|]; [done| |done].
  destruct (IncidentsRoute.validatedLimit request) as [|tk|]; [done| |done].
  destruct (dbInt sk && dbInt tk); [|done].
  exists sk, tk. injection Hg as <- _. done.
Qed.

Lemma selected_stored (st : Store) (w : Db.Where) (i : Incident) :
  In i (Db.selected st w) <->
  (exists k, incidents st !! k = Some i) /\ Db.matches w i = true.
Proof.
  unfold Db.selected. rewrite filter_In, <- list_elem_of_In, list_elem_of_fmap.
  split.
  - intros [([k i'] & -> & Hin) Hm]. apply elem_of_map_to_list in Hin. eauto.
  - intros [[k Hk] Hm]. split; [|done]. exists (k, i). split; [done|].
    by apply elem_of_map_to_list.
Qed.

(** X8: when the database's ORDER BY returns rows of its input only, every
    row of a page of GET /incidents is a stored incident, with the summary
    of its reporter, that matches the filter of the query: it has the
    requested status when that is one of the three values. *)
Theorem list_rows_match (st : Store) (request : Request)
    (rows : list (Incident * option UserSummary)) (pg : Pagination)
    (i : Incident) (by_ : option UserSummary) :
  (forall ob sk tk l x, In x (orderRows ob sk tk l) -> In x l) ->
  IncidentsRoute.GET st request = respond (IncidentPage rows pg) 200 ->
  In (i, by_) rows ->
  (exists k, incidents st !! k = Some i)
  /\ by_ = Db.summary st (reportedById i)
  /\ Db.matches (IncidentsRoute.whereClause request) i = true
  /\ (forall s, searchParams_get (searchParams request) "status" = Some s ->
                In s Schemas.statuses -> status i = s).
Proof.
  intros Hord Hg Hin.
  destruct (GET_rows st request rows pg Hg) as (sk & tk & _ & _ & ->).
  apply list_elem_of_In, list_elem_of_fmap in Hin as (i0 & [= <- ->] & Hin).
  apply list_elem_of_In in Hin.
  assert (Hsel : In i (Db.selected st (IncidentsRoute.whereClause request))).
  { eapply Hord, In_take_drop, Hin. }
  apply selected_stored in Hsel as [Hk Hm].
  repeat split; try done.
  intros s Hs Hin'. unfold Db.matches, IncidentsRoute.whereClause in Hm.
  rewrite Hs in Hm. apply includes_In in Hin'.
  destruct s as [|a s]; [done|].
  cbn [Db.where_status Js.truthy andb] in Hm. rewrite Hin' in Hm.
  apply andb_true_iff in Hm as [Hm _]. by apply String.eqb_eq in Hm.
Qed.

End Rows.

Section Tiling.
Context `{Platform}.

(** The rows of the page a numeric query asks for. *)
Lemma page_rows_slice (st : Store) (request : Request) (k : nat) (l : Z) :
  (1 <= l <= 50)%Z ->
  (Z.of_nat k * l < 2 ^ 53)%Z ->
  (forall z, (0 <= z < 2 ^ 53)%Z -> dbInt z = true) ->
  IncidentsRoute.page request = Js.Int (Z.of_nat k + 1) ->
  IncidentsRoute.limit request = Js.Int l ->
  page_rows (IncidentsRoute.GET st request)
  = (fun i => (i, Db.summary st (reportedById i)))
      <$> firstn (Z.to_nat l)
            (skipn (k * Z.to_nat l)
               (orderRows (IncidentsRoute.orderByClause request) (Z.of_nat k * l) l
                  (Db.selected st (IncidentsRoute.whereClause request)))).
Proof.
  intros Hl Hk Hdb Hp Hlim.
  assert (Hpow : (2 ^ 53 = 9007199254740992)%Z) by reflexivity.
  unfold IncidentsRoute.GET, Db.findMany, IncidentsRoute.skip,
    IncidentsRoute.validatedPage, IncidentsRoute.validatedLimit.
  rewrite Hp, Hlim. cbn [Js.max Js.min].
  replace (Z.max 1 (Z.min 50 l)) with l by lia.
  replace (Z.max 1 (Z.of_nat k + 1)) with (Z.of_nat k + 1)%Z by lia.
  unfold Js.sub. replace (Z.of_nat k + 1 - 1)%Z with (Z.of_nat k) by lia.
  rewrite double_small by nia. unfold Js.mul. rewrite double_small by nia.
  rewrite !Hdb by nia. simpl.
  replace (Z.to_nat (Z.of_nat k * l)) with (k * Z.to_nat l)%nat by lia.
  done.
Qed.

(** X9: paging through the list visits every matching incident once, in
    order, when the database puts the rows in the same order for every
    page.  For a limit within [1, 50] and fewer than 2^53 matching rows,
    the pages 1, 2, ..., totalPages of one query (same filter, same sort),
    put end to end, are the whole ordered list of the incidents matching
    the filter, provided that the database's ORDER BY keeps the number of
    rows and orders them independently of the offset and the limit of the
    query (as it does when no two rows are equal on the sort column; on
    equal rows the database promises no order, and a row may then come
    twice or not at all), and that the client takes the offsets. *)
Theorem pages_tile (st : Store) (reqs : list Request) (l : Z) (w : Db.Where)
    (ob : OrderBy) :
  (forall o sk tk rows, length (orderRows o sk tk rows) = length rows) ->
  (forall o sk tk sk' tk' rows, orderRows o sk tk rows = orderRows o sk' tk' rows) ->
  (forall z, (0 <= z < 2 ^ 53)%Z -> dbInt z = true) ->
  (1 <= l <= 50)%Z ->
  (Db.count st w < 2 ^ 53)%Z ->
  (forall k r, reqs !! k = Some r ->
               IncidentsRoute.page r = Js.Int (Z.of_nat k + 1)
               /\ IncidentsRoute.limit r = Js.Int l
               /\ IncidentsRoute.whereClause r = w
               /\ IncidentsRoute.orderByClause r = ob) ->
  Z.of_nat (length reqs) = Js.ceil_div (Db.count st w) l ->
  concat ((fun r => page_rows (IncidentsRoute.GET st r)) <$> reqs)
  = (fun i => (i, Db.summary st (reportedById i)))
      <$> orderRows ob 0 l (Db.selected st w).
Proof.
  intros Hlen Hsame Hdb Hl Hcount Hreqs Htotal.
  pose proof (ceil_div_bounds (Db.count st w) l ltac:(lia)) as Hb.
  assert (Hbound : ((Z.of_nat (length reqs) - 1) * l < 2 ^ 53)%Z) by lia.
  assert (Hpre : concat ((fun r => page_rows (IncidentsRoute.GET st r)) <$> reqs)
                 = (fun i => (i, Db.summary st (reportedById i)))
                     <$> firstn (length reqs * Z.to_nat l)
                           (orderRows ob 0 l (Db.selected st w))).
  { clear Htotal Hb. induction reqs as [|r reqs IH] using rev_ind; [done|].
    rewrite length_app in Hbound. simpl in Hbound.
    rewrite fmap_app, concat_app, IH; clear IH.
    - destruct (Hreqs (length reqs) r) as (Hp & Hlim & Hw & Hob).
      { by rewrite lookup_app_r, Nat.sub_diag by lia. }
      simpl. rewrite app_nil_r.
      rewrite (page_rows_slice st r (length reqs) l Hl ltac:(lia) Hdb Hp Hlim).
      rewrite Hw, Hob, (Hsame ob (Z.of_nat (length reqs) * l)%Z l 0%Z l).
      rewrite <- fmap_app, take_take_drop, length_app. simpl.
      f_equal. f_equal. lia.
    - intros k r' Hk. apply Hreqs. by apply lookup_app_l_Some.
    - nia. }
  rewrite Hpre. f_equal. apply take_ge.
  rewrite Hlen. unfold Db.count in *. nia.
Qed.

End Tiling.

(** The sample ORDER BY permutes its rows. *)
Lemma place_In (ob : OrderBy) (x y : Incident) (rows : list Incident) :
  In x (Sample.place ob y rows) <-> y = x \/ In x rows.
Proof.
  induction rows as [|z rows IH]; simpl; [tauto|].
  destruct (Sample.before ob y z); simpl; [tauto|]. rewrite IH. tauto.
Qed.

Lemma sort_In (ob : OrderBy) (x : Incident) (rows : list Incident) :
  In x (Sample.sort ob rows) <-> In x rows.
Proof.
  unfold Sample.sort. induction rows as [|y rows IH]; simpl; [tauto|].
  rewrite place_In, IH. tauto.
Qed.

Lemma place_length (ob : OrderBy) (y : Incident) (rows : list Incident) :
  length (Sample.place ob y rows) = S (length rows).
Proof.
  induction rows as [|z rows IH]; simpl; [done|].
  destruct (Sample.before ob y z); simpl; [done|]. by rewrite IH.
Qed.

Lemma sort_length (ob : OrderBy) (rows : list Incident) :
  length (Sample.sort ob rows) = length rows.
Proof.
  unfold Sample.sort. induction rows as [|y rows IH]; simpl; [done|].
  by rewrite place_length, IH.
Qed.

Lemma list_rows_match_witness :
  (exists k, incidents Sample.store !! k = Some Sample.burglary)
  /\ Some {| us_id := "cuser0002"; us_name := "OFFICER456"; us_badgeId := "OFFICER456" |}
     = Db.summary Sample.store (reportedById Sample.burglary)
  /\ Db.matches (H:=Sample.platform)
       (IncidentsRoute.whereClause (Sample.listing [("status", "Closed")]))
       Sample.burglary = true
  /\ (forall s, searchParams_get (searchParams (Sample.listing [("status", "Closed")]))
                  "status" = Some s ->
                In s Schemas.statuses -> status Sample.burglary = s).
Proof.
  eapply (list_rows_match (H:=Sample.platform) Sample.store
            (Sample.listing [("status", "Closed")])).
  - intros ob sk tk l x Hx. by apply sort_In in Hx.
  - vm_compute. reflexivity.
  - left. reflexivity.
Defined.

(** The two pages of the default listing with one row a page: the later
    report first. *)
Lemma pages_tile_witness :
  concat ((fun r => page_rows (IncidentsRoute.GET (H:=Sample.platform) Sample.store r))
            <$> [Sample.listing [("page", "1"); ("limit", "1")];
                 Sample.listing [("page", "2"); ("limit", "1")]])
  = (fun i => (i, Db.summary Sample.store (reportedById i)))
      <$> orderRows (Platform:=Sample.platform)
            {| ob_field := "reportedAt"; ob_order := "desc" |} 0 1
            (Db.selected (H:=Sample.platform) Sample.store
               {| Db.where_status := None; Db.where_OR := None |}).
Proof.
  apply (pages_tile (H:=Sample.platform) Sample.store
           [Sample.listing [("page", "1"); ("limit", "1")];
            Sample.listing [("page", "2"); ("limit", "1")]] 1).
  - intros o sk tk rows. apply sort_length.
  - intros o sk tk sk' tk' rows. reflexivity.
  - intros z Hz. simpl. apply andb_true_iff. split; [apply Z.leb_le|apply Z.ltb_lt]; lia.
  - lia.
  - vm_compute. reflexivity.
  - intros [|[|k]] r Hr; [| |discriminate Hr]; injection Hr as <-; vm_compute; done.
  - vm_compute. reflexivity.
Defined.

Example first_page_is_latest :
  fst <$> page_rows (IncidentsRoute.GET (H:=Sample.platform) Sample.store
                       (Sample.listing [("page", "1"); ("limit", "1")]))
  = [Sample.burglary].
Proof. vm_compute. reflexivity. Qed.

(** ** The dashboard's sort against the list route *)

Section Sorting.
Context `{Services}.

Lemma fetch_sort (s : Dashboard.State) (filters : Dashboard.Filters)
    (h : gmap string string) :
  IncidentsRoute.sortBy (Dashboard.fetch s filters h)
  = Dashboard.field_string (Dashboard.sortBy s)
  /\ IncidentsRoute.sortOrder (Dashboard.fetch s filters h)
     = Dashboard.order_string (Dashboard.sortOrder s).
Proof.
  unfold IncidentsRoute.sortBy, IncidentsRoute.sortOrder, Dashboard.fetch,
    Dashboard.params. cbn [searchParams].
  destruct (Js.truthy (Some (Dashboard.filter_status filters)));
    destruct (Js.truthy (Some (Dashboard.filter_search filters)) && _);
    destruct (Dashboard.sortBy s), (Dashboard.sortOrder s); split; reflexivity.
Qed.

(** X10: after a click on a column header of the dashboard, the list route
    sorts by that column, ascending, or descending when the column was
    already sorted ascending, and the dashboard is back on page 1; except
    for the 'Case #' column, whose query is sorted by reportedAt descending
    whichever direction it asks for. *)
Theorem dashboard_sort (s : Dashboard.State) (field : Dashboard.SortField)
    (filters : Dashboard.Filters) (h : gmap string string) :
  let s' := Dashboard.handleSort s field in
  Dashboard.currentPage s' = 1%Z
  /\ Dashboard.sortOrder s'
     = (if bool_decide (Dashboard.sortBy s = field
                        /\ Dashboard.sortOrder s = Dashboard.Asc)
        then Dashboard.Desc else Dashboard.Asc)
  /\ IncidentsRoute.orderByClause (Dashboard.fetch s' filters h)
     = (if bool_decide (field = Dashboard.ByCaseNumber)
        then {| ob_field := "reportedAt"; ob_order := "desc" |}
        else {| ob_field := Dashboard.field_string field;
                ob_order := Dashboard.order_string (Dashboard.sortOrder s') |}).
Proof.
  simpl. split; [done|]. split.
  { repeat case_bool_decide; simpl; try done; exfalso; tauto. }
  unfold IncidentsRoute.orderByClause.
  destruct (fetch_sort (Dashboard.handleSort s field) filters h) as [-> ->].
  simpl. destruct field;
    destruct (bool_decide _ && bool_decide _); reflexivity.
Qed.

End Sorting.

(** ** Evidence: adding, listing, deleting *)

Lemma enum_valid (values : list string) (x : json) (t : string) :
  Schemas.enum values x = Schemas.Valid t -> x = JStr t /\ In t values.
Proof.
  unfold Schemas.enum. destruct x; try done.
  destruct (Js.includes values s) eqn:E; [|done]. intros [= <-].
  by apply includes_In in E.
Qed.

Lemma evidence_schema_success (body : json) (d : Schemas.EvidenceCreate) :
  Schemas.EvidenceCreateSchema body = Schemas.Success d ->
  exists props des ref,
    body = JObj props
    /\ prop "description" props = Some (JStr des)
    /\ Schemas.new_ev_description d = Js.trim des
    /\ prop "type" props = Some (JStr (Schemas.new_ev_type d))
    /\ prop "storageReference" props = Some (JStr ref)
    /\ Schemas.new_ev_storageReference d = Js.trim ref
    /\ Schemas.new_ev_description d <> ""
    /\ In (Schemas.new_ev_type d) Schemas.evidenceTypes
    /\ Schemas.new_ev_storageReference d <> "".
Proof.
  unfold Schemas.EvidenceCreateSchema. intros Hs. destruct body; try done.
  destruct (Schemas.required Schemas.string_trim_min1 (prop "description" _)) eqn:Hd;
    try done.
  destruct (Schemas.required (Schemas.enum _) _) eqn:Ht; try done.
  destruct (Schemas.required Schemas.string_trim_min1 (prop "storageReference" _)) eqn:Hr;
    try done.
  simplify_eq. simpl.
  destruct (required_trim_min1_valid _ _ Hd) as (des & Hd1 & Hd2 & Hd3).
  destruct (required_trim_min1_valid _ _ Hr) as (ref & Hr1 & Hr2 & Hr3).
  unfold Schemas.required in Ht.
  destruct (prop "type" props) as [x|] eqn:Hx; [|done].
  apply enum_valid in Ht as [-> Hin].
  exists props, des, ref. repeat split; done.
Qed.

(** The row a POST answering 201 has stored. *)
Lemma evidence_POST_created (st : Store) (env : Env) (request : Request) :
  http_status (EvidenceRoute.POST st env request).1 = 201%Z ->
  exists pid uid body d,
    EvidenceRoute.path_incidentId request = Some pid /\ pid <> "" /\ pid <> "[id]"
    /\ loggedInUserId request = Some uid /\ uid <> ""
    /\ is_Some (incidents st !! pid) /\ is_Some (users st !! uid)
    /\ evidence st !! cuid_id env = None
    /\ json_body request = Some body
    /\ Schemas.EvidenceCreateSchema body = Schemas.Success d
    /\ let e := {| ev_id := cuid_id env;
                   ev_description := Schemas.new_ev_description d;
                   ev_type := Schemas.new_ev_type d;
                   ev_storageReference := Schemas.new_ev_storageReference d;
                   ev_createdAt := now env;
                   ev_updatedAt := now env;
                   incidentId := pid;
                   addedById := uid |} in
       let st' := {| users := users st; incidents := incidents st;
                     evidence := <[cuid_id env := e]> (evidence st) |} in
       EvidenceRoute.POST st env request
       = (respond (EvidenceJson e (Db.summary st' uid)) 201, st').
Proof.
  unfold EvidenceRoute.POST, Db.evidence_create. intros Hs. branches.
  do 4 eexists. repeat split; try done.
  match goal with E : bool_decide _ = false |- _ => by apply bool_decide_eq_false in E end.
Qed.

Lemma evidence_POST_unchanged (st : Store) (env : Env) (request : Request) :
  http_status (EvidenceRoute.POST st env request).1 <> 201%Z ->
  (EvidenceRoute.POST st env request).2 = st.
Proof. unfold EvidenceRoute.POST, Db.evidence_create. intros Hs. branches. Qed.

(** X11: POST /incidents/:id/evidence changes the store by at most one
    evidence row, stored under a fresh id: users and incidents are as
    before, no existing evidence is touched, and any answer other than 201
    leaves the store unchanged.  The stored row carries the trimmed,
    non-empty description and storageReference of the body, a type of the
    enumeration, the incident of the path, which exists, and the time of
    the call. *)
Theorem evidence_post_frame (st : Store) (env : Env) (request : Request) :
  let st' := (EvidenceRoute.POST st env request).2 in
  users st' = users st /\ incidents st' = incidents st
  /\ (forall k e, evidence st !! k = Some e -> evidence st' !! k = Some e)
  /\ (http_status (EvidenceRoute.POST st env request).1 <> 201%Z -> st' = st)
  /\ (http_status (EvidenceRoute.POST st env request).1 = 201%Z ->
      exists props des ref pid e,
        json_body request = Some (JObj props)
        /\ prop "description" props = Some (JStr des)
        /\ prop "storageReference" props = Some (JStr ref)
        /\ EvidenceRoute.path_incidentId request = Some pid
        /\ evidence st !! cuid_id env = None
        /\ evidence st' = <[cuid_id env := e]> (evidence st)
        /\ ev_id e = cuid_id env
        /\ ev_description e = Js.trim des /\ ev_description e <> ""
        /\ ev_storageReference e = Js.trim ref /\ ev_storageReference e <> ""
        /\ prop "type" props = Some (JStr (ev_type e))
        /\ In (ev_type e) Schemas.evidenceTypes
        /\ incidentId e = pid /\ is_Some (incidents st !! pid)
        /\ ev_createdAt e = now env).
Proof.
  simpl.
  destruct (decide (http_status (EvidenceRoute.POST st env request).1 = 201%Z)) as [Hs|Hs].
  - destruct (evidence_POST_created st env request Hs)
      as (pid & uid & body & d & Hp & _ & _ & _ & _ & Hi & _ & Hfresh & Hb & Hd & Heq).
    simpl in Heq. rewrite Heq. simpl.
    split; [done|]. split; [done|]. split.
    { intros k e He. rewrite lookup_insert_ne; [done|]. intros E. rewrite <- E in He.
      congruence. }
    split; [done|]. intros _.
    destruct (evidence_schema_success _ _ Hd)
      as (props & des & ref & -> & Hdes & Hdes' & Hty & Href & Href' & Hne & Hin & Hne').
    exists props, des, ref, pid. eexists.
    split; [done|]. do 3 (split; [eassumption|]). split; [done|].
    split; [reflexivity|]. simpl. repeat split; done.
  - rewrite (evidence_POST_unchanged st env request Hs). repeat split; done.
Qed.

Section Listing.
Context `{Services}.

Lemma findMany_rows (st : Store) (pid : string) (e : Evidence)
    (by_ : option UserSummary) :
  (forall rows, Permutation (orderEvidence rows) rows) ->
  In (e, by_) (EvidenceList.findMany st pid)
  <-> (exists k, evidence st !! k = Some e) /\ incidentId e = pid
      /\ by_ = Db.summary st (addedById e).
Proof.
  intros Hperm. unfold EvidenceList.findMany.
  rewrite <- list_elem_of_In, list_elem_of_fmap. split.
  - intros (e0 & [= <- ->] & Hin).
    rewrite (Hperm _) in Hin. apply list_elem_of_In, filter_In in Hin as [Hin Hpid].
    apply list_elem_of_In, list_elem_of_fmap in Hin as ([k e'] & -> & Hin).
    apply elem_of_map_to_list in Hin. apply bool_decide_eq_true in Hpid. eauto.
  - intros ([k Hk] & Hpid & ->). exists e. split; [done|].
    rewrite (Hperm _). apply list_elem_of_In, filter_In. split.
    + apply list_elem_of_In, list_elem_of_fmap. exists (k, e). split; [done|].
      by apply elem_of_map_to_list.
    + by apply bool_decide_eq_true.
Qed.

Lemma GET_listed (st : Store) (request : Request) (pid uid : string) (i : Incident) :
  EvidenceRoute.path_incidentId request = Some pid -> pid <> "" -> pid <> "[id]" ->
  loggedInUserId request = Some uid -> uid <> "" ->
  incidents st !! pid = Some i ->
  EvidenceList.GET st request = inr (EvidenceList.findMany st pid).
Proof.
  intros Hp Hne Hne' Hu Hune Hi. unfold EvidenceList.GET. rewrite Hp, Hu.
  destruct pid as [|a p]; [done|]. rewrite bool_decide_eq_false_2 by done.
  destruct uid as [|a' u]; [done|]. by rewrite Hi.
Qed.

(** X12: for an authenticated caller, GET /incidents/:id/evidence answers
    404 when the incident does not exist and otherwise 200 with exactly the
    stored evidence of that incident, each row with the summary of the
    user who added it, provided the database's ORDER BY permutes its
    rows. *)
Theorem evidence_list_exact (st : Store) (request : Request) (pid uid : string) :
  (forall rows, Permutation (orderEvidence rows) rows) ->
  EvidenceRoute.path_incidentId request = Some pid -> pid <> "" -> pid <> "[id]" ->
  loggedInUserId request = Some uid -> uid <> "" ->
  match incidents st !! pid with
  | None => exists r, EvidenceList.GET st request = inl r /\ http_status r = 404%Z
  | Some _ =>
      exists rows,
        EvidenceList.GET st request = inr rows
        /\ forall e by_,
             In (e, by_) rows
             <-> (exists k, evidence st !! k = Some e) /\ incidentId e = pid
                 /\ by_ = Db.summary st (addedById e)
  end.
Proof.
  intros Hperm Hp Hne Hne' Hu Hune.
  destruct (incidents st !! pid) as [i|] eqn:Hi.
  - rewrite (GET_listed st request pid uid i) by done.
    eexists. split; [done|]. intros e by_. by apply findMany_rows.
  - unfold EvidenceList.GET. rewrite Hp, Hu.
    destruct pid as [|a p]; [done|]. rewrite bool_decide_eq_false_2 by done.
    destruct uid as [|a' u]; [done|]. rewrite Hi. by eexists.
Qed.

(** X13: evidence added by a POST answering 201 is listed by the GET of
    the same path, for the same caller, with the caller as its adder and
    with the document the POST answered. *)
Theorem evidence_add_then_list (st : Store) (env : Env) (request : Request) :
  (forall rows, Permutation (orderEvidence rows) rows) ->
  http_status (EvidenceRoute.POST st env request).1 = 201%Z ->
  exists rows e by_ uid,
    EvidenceList.GET (EvidenceRoute.POST st env request).2 request = inr rows
    /\ In (e, by_) rows
    /\ payload (EvidenceRoute.POST st env request).1 = EvidenceJson e by_
    /\ ev_id e = cuid_id env
    /\ loggedInUserId request = Some uid /\ addedById e = uid.
Proof.
  intros Hperm Hs.
  destruct (evidence_POST_created st env request Hs)
    as (pid & uid & body & d & Hp & Hp1 & Hp2 & Hu & Hu1 & [i Hi] & _ & _ & _ & _ & Heq).
  simpl in Heq. rewrite Heq. simpl.
  match goal with |- context [EvidenceList.GET ?s _] => set (st' := s) end.
  exists (EvidenceList.findMany st' pid). do 2 eexists. exists uid.
  split; [by apply (GET_listed st' request pid uid i)|].
  split; [|done]. apply findMany_rows; [done|]. split; [|done].
  exists (cuid_id env). subst st'. simpl. apply lookup_insert_eq.
Qed.

End Listing.

Lemma evidence_list_exact_witness :
  exists rows,
    EvidenceList.GET (H:=Scenario.services) Sample.store
      (Scenario.list_evidence "cinc00001" "cuser0002") = inr rows
    /\ forall e by_,
         In (e, by_) rows
         <-> (exists k, evidence Sample.store !! k = Some e) /\ incidentId e = "cinc00001"
             /\ by_ = Db.summary Sample.store (addedById e).
Proof.
  apply (evidence_list_exact (H:=Scenario.services) Sample.store
           (Scenario.list_evidence "cinc00001" "cuser0002") "cinc00001" "cuser0002");
    first [discriminate | intros rows; reflexivity | vm_compute; reflexivity].
Defined.

Lemma evidence_add_then_list_witness :
  exists rows e by_ uid,
    EvidenceList.GET (H:=Scenario.services)
      (EvidenceRoute.POST Sample.store Sample.env
         (Scenario.post_evidence "cinc00001" "cuser0002" Scenario.cctv)).2
      (Scenario.post_evidence "cinc00001" "cuser0002" Scenario.cctv) = inr rows
    /\ In (e, by_) rows
    /\ payload (EvidenceRoute.POST Sample.store Sample.env
                  (Scenario.post_evidence "cinc00001" "cuser0002" Scenario.cctv)).1
       = EvidenceJson e by_
    /\ ev_id e = cuid_id Sample.env
    /\ loggedInUserId (Scenario.post_evidence "cinc00001" "cuser0002" Scenario.cctv)
       = Some uid
    /\ addedById e = uid.
Proof.
  apply (evidence_add_then_list (H:=Scenario.services) Sample.store Sample.env
           (Scenario.post_evidence "cinc00001" "cuser0002" Scenario.cctv));
    first [intros rows; reflexivity | vm_compute; reflexivity].
Defined.

Lemma evidence_post_frame_witness :
  let request := Scenario.post_evidence "cinc00001" "cuser0002" Scenario.cctv_nbsp in
  exists props des ref pid e,
    json_body request = Some (JObj props)
    /\ prop "description" props = Some (JStr des)
    /\ prop "storageReference" props = Some (JStr ref)
    /\ EvidenceRoute.path_incidentId request = Some pid
    /\ evidence Sample.store !! cuid_id Sample.env = None
    /\ evidence (EvidenceRoute.POST Sample.store Sample.env request).2
       = <[cuid_id Sample.env := e]> (evidence Sample.store)
    /\ ev_id e = cuid_id Sample.env
    /\ ev_description e = Js.trim des /\ ev_description e <> ""
    /\ ev_storageReference e = Js.trim ref /\ ev_storageReference e <> ""
    /\ prop "type" props = Some (JStr (ev_type e))
    /\ In (ev_type e) Schemas.evidenceTypes
    /\ incidentId e = pid /\ is_Some (incidents Sample.store !! pid)
    /\ ev_createdAt e = now Sample.env.
Proof.
  apply (proj2 (proj2 (proj2 (proj2
           (evidence_post_frame Sample.store Sample.env
              (Scenario.post_evidence "cinc00001" "cuser0002" Scenario.cctv_nbsp)))))).
  vm_compute. reflexivity.
Defined.

(** The no-break space in front of the description is trimmed away. *)
Example evidence_trimmed :
  ev_description
    <$> evidence (EvidenceRoute.POST Sample.store Sample.env
                    (Scenario.post_evidence "cinc00001" "cuser0002"
                       Scenario.cctv_nbsp)).2 !! "cnew00001"
  = Some "CCTV still".
Proof. vm_compute. reflexivity. Qed.

(** The path the evidence DELETE took when it answers 204. *)
Lemma evidence_DELETE_204 (st : Store) (request : Request)
    (params : EvidenceIdRoute.RouteParams) :
  http_status (EvidenceIdRoute.DELETE st request params).1 = 204%Z ->
  exists uid e,
    EvidenceIdRoute.param_id params <> ""
    /\ EvidenceIdRoute.param_evidenceId params <> ""
    /\ loggedInUserId request = Some uid /\ uid <> ""
    /\ evidence st !! EvidenceIdRoute.param_evidenceId params = Some e
    /\ incidentId e = EvidenceIdRoute.param_id params
    /\ allowed (isAdmin_header request) uid (addedById e) = true
    /\ (EvidenceIdRoute.DELETE st request params).2
       = Db.evidence_delete st (EvidenceIdRoute.param_evidenceId params).
Proof.
  unfold EvidenceIdRoute.DELETE. intros Hs.
  destruct (bool_decide (EvidenceIdRoute.param_id params = "")) eqn:E1; [done|].
  destruct (bool_decide (EvidenceIdRoute.param_evidenceId params = "")) eqn:E2; [done|].
  apply bool_decide_eq_false in E1, E2. simpl in *.
  destruct (loggedInUserId request) as [[|a u]|]; try done.
  destruct (evidence st !! _) as [e|]; [|done].
  destruct (bool_decide (incidentId e = _)) eqn:E3; [|done].
  apply bool_decide_eq_true in E3. simpl in *.
  destruct (negb _ && negb _) eqn:E4; [done|].
  exists (String a u), e. repeat split; try done. by apply allowed_true.
Qed.

(** X14: once DELETE /incidents/:id/evidence/:evidenceId has answered 204,
    the same request again answers 404 and changes nothing; the delete
    removed that evidence only. *)
Theorem evidence_delete_twice (st : Store) (request : Request)
    (params : EvidenceIdRoute.RouteParams) :
  http_status (EvidenceIdRoute.DELETE st request params).1 = 204%Z ->
  let st' := (EvidenceIdRoute.DELETE st request params).2 in
  http_status (EvidenceIdRoute.DELETE st' request params).1 = 404%Z
  /\ (EvidenceIdRoute.DELETE st' request params).2 = st'
  /\ (forall k, k <> EvidenceIdRoute.param_evidenceId params ->
                evidence st' !! k = evidence st !! k).
Proof.
  intros Hs.
  destruct (evidence_DELETE_204 st request params Hs)
    as (uid & e & Hp & Hp' & Hu & Hu' & _ & _ & _ & Heq).
  simpl. rewrite Heq.
  assert (Hgone : evidence (Db.evidence_delete st (EvidenceIdRoute.param_evidenceId params))
                    !! EvidenceIdRoute.param_evidenceId params = None)
    by apply lookup_delete_eq.
  unfold EvidenceIdRoute.DELETE at 1 2. rewrite Hu, Hgone.
  rewrite !bool_decide_eq_false_2 by done. simpl.
  destruct uid as [|a u]; [done|]. repeat split.
  intros k Hk. by apply lookup_delete_ne.
Qed.

Lemma evidence_delete_twice_witness :
  let st' := (EvidenceIdRoute.DELETE Sample.store
                (Sample.delete_photo "cinc00001" "cuser0001" false)
                (Sample.photo_params "cinc00001")).2 in
  http_status (EvidenceIdRoute.DELETE st'
                 (Sample.delete_photo "cinc00001" "cuser0001" false)
                 (Sample.photo_params "cinc00001")).1 = 404%Z
  /\ (EvidenceIdRoute.DELETE st'
        (Sample.delete_photo "cinc00001" "cuser0001" false)
        (Sample.photo_params "cinc00001")).2 = st'
  /\ (forall k, k <> EvidenceIdRoute.param_evidenceId (Sample.photo_params "cinc00001") ->
                evidence st' !! k = evidence Sample.store !! k).
Proof.
  apply (evidence_delete_twice Sample.store
           (Sample.delete_photo "cinc00001" "cuser0001" false)
           (Sample.photo_params "cinc00001")).
  vm_compute. reflexivity.
Defined.

Section AfterDelete.
Context `{Services}.

(** X15: after DELETE /incidents/:id has answered 204, the evidence routes
    of that incident answer 404 to an authenticated caller: the list, the
    creation (which stores nothing) and the deletion of any evidence the
    incident had. *)
Theorem evidence_after_incident_delete (st : Store) (del request : Request) (env : Env)
    (key uid : string) (params : EvidenceIdRoute.RouteParams) (e : Evidence) :
  http_status (IncidentIdRoute.DELETE st del).1 = 204%Z ->
  IncidentIdRoute.path_id del = Some key ->
  EvidenceRoute.path_incidentId request = Some key ->
  loggedInUserId request = Some uid -> uid <> "" ->
  EvidenceIdRoute.param_id params = key ->
  evidence st !! EvidenceIdRoute.param_evidenceId params = Some e ->
  incidentId e = key ->
  EvidenceIdRoute.param_evidenceId params <> "" ->
  let st' := (IncidentIdRoute.DELETE st del).2 in
  (exists r, EvidenceList.GET st' request = inl r /\ http_status r = 404%Z)
  /\ http_status (EvidenceRoute.POST st' env request).1 = 404%Z
  /\ (EvidenceRoute.POST st' env request).2 = st'
  /\ http_status (EvidenceIdRoute.DELETE st' request params).1 = 404%Z.
Proof.
  intros Hs Hk Hp Hu Hu' Hpid He Hinc Hne.
  destruct (DELETE_204 st del Hs) as (key' & _ & i & Hk' & Hk1 & Hk2 & _ & _ & _ & _ & Heq).
  simplify_eq. simpl. rewrite Heq.
  assert (Hgone : incidents (Db.incident_delete st (EvidenceIdRoute.param_id params))
                    !! EvidenceIdRoute.param_id params = None)
    by apply lookup_delete_eq.
  assert (Hev : evidence (Db.incident_delete st (EvidenceIdRoute.param_id params))
                  !! EvidenceIdRoute.param_evidenceId params = None).
  { simpl. apply map_lookup_filter_None. right. intros e' He'. simplify_eq. simpl. tauto. }
  assert (H404 : http_status (EvidenceRoute.POST
                   (Db.incident_delete st (EvidenceIdRoute.param_id params))
                   env request).1 = 404%Z).
  { unfold EvidenceRoute.POST. rewrite Hp, Hu.
    destruct (EvidenceIdRoute.param_id params) as [|a k]; [done|].
    rewrite bool_decide_eq_false_2 by done.
    destruct uid as [|a' u]; [done|]. by rewrite Hgone. }
  split; [|split; [done|split]].
  - unfold EvidenceList.GET. rewrite Hp, Hu.
    destruct (EvidenceIdRoute.param_id params) as [|a k]; [done|].
    rewrite bool_decide_eq_false_2 by done.
    destruct uid as [|a' u]; [done|]. rewrite Hgone. by eexists.
  - apply evidence_POST_unchanged. by rewrite H404.
  - unfold EvidenceIdRoute.DELETE. rewrite Hu, Hev.
    rewrite !bool_decide_eq_false_2 by done. simpl.
    by destruct uid as [|a' u].
Qed.

End AfterDelete.

Lemma evidence_after_incident_delete_witness :
  let st' := (IncidentIdRoute.DELETE Sample.store
                (Sample.on_theft "cuser0001" false None)).2 in
  (exists r, EvidenceList.GET (H:=Scenario.services) st'
               (Scenario.post_evidence "cinc00001" "cuser0002" Scenario.cctv) = inl r
             /\ http_status r = 404%Z)
  /\ http_status (EvidenceRoute.POST st' Sample.env
                    (Scenario.post_evidence "cinc00001" "cuser0002" Scenario.cctv)).1
     = 404%Z
  /\ (EvidenceRoute.POST st' Sample.env
        (Scenario.post_evidence "cinc00001" "cuser0002" Scenario.cctv)).2 = st'
  /\ http_status (EvidenceIdRoute.DELETE st'
                    (Scenario.post_evidence "cinc00001" "cuser0002" Scenario.cctv)
                    (Sample.photo_params "cinc00001")).1 = 404%Z.
Proof.
  apply (evidence_after_incident_delete (H:=Scenario.services) Sample.store
           (Sample.on_theft "cuser0001" false None)
           (Scenario.post_evidence "cinc00001" "cuser0002" Scenario.cctv)
           Sample.env "cinc00001" "cuser0002" (Sample.photo_params "cinc00001")
           Sample.photo);
    first [discriminate | vm_compute; reflexivity].
Defined.

(** ** Invariants of the store under the API *)

Lemma caseNumber_free (st : Store) (cn : string) :
  Db.caseNumber_taken st cn = false <->
  forall k i, incidents st !! k = Some i -> caseNumber i <> cn.
Proof.
  unfold Db.caseNumber_taken. rewrite bool_decide_eq_false, Exists_exists. split.
  - intros Hno k i Hi Hcn. apply Hno. exists (k, i). split; [|done].
    by apply elem_of_map_to_list.
  - intros Hfree ([k i] & Hin & Hcn). apply elem_of_map_to_list in Hin. by eapply Hfree.
Qed.

Section Invariants.
Context `{Platform}.

Lemma handle_users (st : Store) (c : Call) : users (handle st c).2 = users st.
Proof.
  destruct c as [env request|request|env request|request|env request|request params]; simpl.
  - destruct (decide (http_status (IncidentIdRoute.PATCH st env request).1 = 200%Z))
      as [Hs|Hs]; [|by rewrite (PATCH_unchanged st env request Hs)].
    destruct (PATCH_200 st env request Hs)
      as (? & ? & ? & ? & ? & _ & _ & _ & _ & _ & _ & _ & _ & _ & _ & Heq).
    by rewrite Heq.
  - unfold IncidentIdRoute.DELETE. branches.
  - destruct (decide (http_status (IncidentsRoute.POST st env request).1 = 201%Z))
      as [Hs|Hs]; [|by rewrite (POST_unchanged st env request Hs)].
    by destruct (POST_201 st env request Hs)
      as (? & ? & ? & _ & _ & _ & _ & _ & _ & _ & ? & _).
  - done.
  - unfold EvidenceRoute.POST, Db.evidence_create. branches.
  - unfold EvidenceIdRoute.DELETE. branches.
Qed.

(** An incident found after a call: untouched; or rewritten by a PATCH,
    keeping id, case number and owner, its required texts kept or set to
    non-empty ones; or created by this call under a fresh id and a fresh
    case number, for an existing user, with non-empty texts. *)
Lemma handle_columns (st : Store) (c : Call) (k : string) (i' : Incident) :
  incidents (handle st c).2 !! k = Some i' ->
  incidents st !! k = Some i'
  \/ (exists i, incidents st !! k = Some i
                /\ id i' = id i /\ caseNumber i' = caseNumber i
                /\ reportedById i' = reportedById i
                /\ (location i' = location i \/ location i' <> "")
                /\ (crimeType i' = crimeType i \/ crimeType i' <> "")
                /\ (description i' = description i \/ description i' <> ""))
  \/ (incidents st !! k = None /\ creates k c /\ id i' = k
      /\ Db.caseNumber_taken st (caseNumber i') = false
      /\ is_Some (users st !! reportedById i')
      /\ texts_filled i').
Proof.
  destruct c as [env request|request|env request|request|env request|request params];
    simpl; intros Hl.
  - destruct (decide (http_status (IncidentIdRoute.PATCH st env request).1 = 200%Z))
      as [Hs|Hs]; [|rewrite (PATCH_unchanged st env request Hs) in Hl; auto].
    destruct (PATCH_200 st env request Hs)
      as (key & uid & i & body & v & Hk & _ & _ & _ & _ & Hi & _ & Hb & Hv & _ & Heq).
    destruct (decide (key = k)) as [->|Hne].
    + rewrite Heq in Hl. simpl in Hl. rewrite lookup_alter_eq, Hi in Hl.
      injection Hl as <-.
      destruct (update_schema_texts _ _ Hv) as (props & _ & _ & Hl1 & Hc1 & Hd1).
      right; left. exists i. do 4 (split; [done|]). simpl.
      rewrite (patched_text _ _ (location i) Hl1), (patched_text _ _ (crimeType i) Hc1),
        (patched_text _ _ (description i) Hd1).
      apply optional_trim_min1_valid in Hl1, Hc1, Hd1.
      repeat split.
      * destruct (prop "location" _) as [[]|]; auto. right. by destruct Hl1.
      * destruct (prop "crimeType" _) as [[]|]; auto. right. by destruct Hc1.
      * destruct (prop "description" _) as [[]|]; auto. right. by destruct Hd1.
    + rewrite Heq in Hl. simpl in Hl. rewrite lookup_alter_ne in Hl by done. auto.
  - left. by eapply DELETE_incidents.
  - destruct (decide (http_status (IncidentsRoute.POST st env request).1 = 201%Z))
      as [Hs|Hs]; [|rewrite (POST_unchanged st env request Hs) in Hl; auto].
    destruct (POST_created st env request Hs)
      as (body & d & occ & _ & Hd & _ & Hfresh & Hcn & Hu & Heq).
    simpl in Heq. rewrite Heq in Hl. simpl in Hl.
    destruct (decide (cuid_id env = k)) as [<-|Hne].
    + rewrite lookup_insert_eq in Hl. injection Hl as <-.
      destruct (create_schema_texts _ _ Hd) as (? & ? & ? & ? & _ & _ & _ & _ & _ & _ & _
                                                & Hl1 & Hc1 & Hd1 & _).
      right; right. repeat split; done.
    + rewrite lookup_insert_ne in Hl by done. auto.
  - auto.
  - rewrite evidence_POST_incidents in Hl. auto.
  - rewrite evidence_DELETE_incidents in Hl. auto.
Qed.

(** A call removes no incident but the one a DELETE answering 204
    addresses; that one has no evidence left. *)
Lemma handle_evidence (st : Store) (c : Call) (k : string) (e : Evidence) :
  evidence (handle st c).2 !! k = Some e ->
  (evidence st !! k = Some e
   /\ (is_Some (incidents st !! incidentId e) ->
       is_Some (incidents (handle st c).2 !! incidentId e)))
  \/ (evidence st !! k = None
      /\ is_Some (incidents (handle st c).2 !! incidentId e)
      /\ is_Some (users st !! addedById e)).
Proof.
  destruct c as [env request|request|env request|request|env request|request params];
    simpl; intros Hl.
  - destruct (decide (http_status (IncidentIdRoute.PATCH st env request).1 = 200%Z))
      as [Hs|Hs]; [|rewrite (PATCH_unchanged st env request Hs) in *; auto].
    destruct (PATCH_200 st env request Hs)
      as (key & ? & ? & ? & ? & _ & _ & _ & _ & _ & _ & _ & _ & _ & _ & Heq).
    rewrite Heq in *. simpl in *. left. split; [done|].
    rewrite lookup_alter_is_Some. done.
  - destruct (decide (http_status (IncidentIdRoute.DELETE st request).1 = 204%Z))
      as [Hs|Hs]; [|rewrite (DELETE_unchanged st request Hs) in *; auto].
    destruct (DELETE_204 st request Hs) as (key & ? & ? & Hp & _ & _ & _ & _ & _ & _ & Heq).
    rewrite Heq in *. simpl in *.
    apply map_lookup_filter_Some in Hl as [Hl Hne]. left. split; [done|].
    by rewrite lookup_delete_ne.
  - destruct (decide (http_status (IncidentsRoute.POST st env request).1 = 201%Z))
      as [Hs|Hs]; [|rewrite (POST_unchanged st env request Hs) in *; auto].
    destruct (POST_201 st env request Hs)
      as (? & ? & ? & _ & _ & _ & _ & _ & _ & _ & _ & Hev & Hinc).
    rewrite Hev in Hl. rewrite Hinc. left. split; [done|].
    intros Hsome. rewrite lookup_insert_is_Some. destruct (decide (cuid_id env = incidentId e));
      auto.
  - auto.
  - rewrite evidence_POST_incidents.
    destruct (decide (http_status (EvidenceRoute.POST st env request).1 = 201%Z))
      as [Hs|Hs]; [|rewrite (evidence_POST_unchanged st env request Hs) in Hl; auto].
    destruct (evidence_POST_created st env request Hs)
      as (pid & uid & ? & ? & _ & _ & _ & _ & _ & Hi & Hu & Hfresh & _ & _ & Heq).
    simpl in Heq. rewrite Heq in Hl. simpl in Hl.
    destruct (decide (cuid_id env = k)) as [<-|Hne].
    + rewrite lookup_insert_eq in Hl. injection Hl as <-. right. done.
    + rewrite lookup_insert_ne in Hl by done. auto.
  - rewrite evidence_DELETE_incidents.
    destruct (decide (http_status (EvidenceIdRoute.DELETE st request params).1 = 204%Z))
      as [Hs|Hs].
    + destruct (evidence_DELETE_204 st request params Hs)
        as (? & ? & _ & _ & _ & _ & _ & _ & _ & Heq).
      rewrite Heq in Hl. simpl in Hl. apply lookup_delete_Some in Hl as [_ Hl]. auto.
    + assert ((EvidenceIdRoute.DELETE st request params).2 = st) as Hun.
      { clear Hl. unfold EvidenceIdRoute.DELETE in *. branches. }
      rewrite Hun in Hl. auto.
Qed.

(** X16: incidents stay stored under their own id and no two incidents
    ever share a case number, through any sequence of calls. *)
Theorem keys_stay_unique (st : Store) (calls : list Call) :
  keyed_by_id st -> unique_caseNumbers st ->
  keyed_by_id (run st calls) /\ unique_caseNumbers (run st calls).
Proof.
  revert st. induction calls as [|c rest IH]; intros st Hid Hcn; simpl; [done|].
  apply IH.
  - intros k i' Hl.
    destruct (handle_columns st c k i' Hl)
      as [Hsame|[(i & Hi & Hid' & _)|(_ & _ & Hid' & _)]]; eauto.
    rewrite Hid'. by eapply Hid.
  - intros k1 k2 i1 i2 H1 H2 Heq.
    destruct (handle_columns st c k1 i1 H1)
      as [Ha|[(j1 & Ha & _ & Hc1 & _)|(Hn1 & Hcr1 & _ & Hf1 & _)]];
      destruct (handle_columns st c k2 i2 H2)
        as [Hb|[(j2 & Hb & _ & Hc2 & _)|(Hn2 & Hcr2 & _ & Hf2 & _)]];
      try (eapply Hcn; eauto; congruence).
    + exfalso. eapply caseNumber_free in Hf2; [apply Hf2|exact Ha]. congruence.
    + exfalso. eapply caseNumber_free in Hf2; [apply Hf2|exact Ha]. congruence.
    + exfalso. eapply caseNumber_free in Hf1; [apply Hf1|exact Hb]. congruence.
    + exfalso. eapply caseNumber_free in Hf1; [apply Hf1|exact Hb]. congruence.
    + destruct c; simpl in *; try done. congruence.
Qed.

(** X17: the foreign keys hold through any sequence of calls: every
    incident is owned by a stored user, every evidence row belongs to a
    stored incident and was added by a stored user. *)
Theorem references_kept (st : Store) (calls : list Call) :
  references_hold st -> references_hold (run st calls).
Proof.
  revert st. induction calls as [|c rest IH]; intros st [Hinc Hev]; simpl; [done|].
  apply IH. split.
  - intros k i' Hl. rewrite handle_users.
    destruct (handle_columns st c k i' Hl)
      as [Hsame|[(i & Hi & _ & _ & Hr & _)|(_ & _ & _ & _ & Hu & _)]]; eauto.
    rewrite Hr. eauto.
  - intros k e Hl. rewrite handle_users.
    destruct (handle_evidence st c k e Hl) as [[He Hkeep]|(_ & Hi & Hu)]; [|done].
    destruct (Hev k e He) as [Hi Hu]. auto.
Qed.

(** X18: location, crimeType and description of a stored incident are
    never empty, through any sequence of calls. *)
Theorem texts_stay_filled (st : Store) (calls : list Call) :
  (forall k i, incidents st !! k = Some i -> texts_filled i) ->
  forall k i, incidents (run st calls) !! k = Some i -> texts_filled i.
Proof.
  revert st. induction calls as [|c rest IH]; intros st Hinv; simpl; [done|].
  apply IH. intros k i' Hl.
  destruct (handle_columns st c k i' Hl)
    as [Hsame|[(i & Hi & _ & _ & _ & Hl' & Hc' & Hd')|(_ & _ & _ & _ & _ & Ht)]]; eauto.
  destruct (Hinv k i Hi) as (Hl0 & Hc0 & Hd0).
  repeat split.
  - destruct Hl' as [->|?]; done.
  - destruct Hc' as [->|?]; done.
  - destruct Hd' as [->|?]; done.
Qed.

End Invariants.

Lemma keys_stay_unique_witness :
  keyed_by_id (run (H:=Sample.platform) Sample.store
                 [CreateIncident Sample.env
                    (Sample.create "cuser0001" (Sample.report "cuser0002" []));
                  Sample.close_filed])
  /\ unique_caseNumbers (run (H:=Sample.platform) Sample.store
                           [CreateIncident Sample.env
                              (Sample.create "cuser0001" (Sample.report "cuser0002" []));
                            Sample.close_filed]).
Proof.
  apply (keys_stay_unique (H:=Sample.platform)).
  - apply (bool_decide_unpack (map_Forall (fun k i => id i = k) (incidents Sample.store))).
    vm_compute. exact I.
  - intros k1 k2 i1 i2 H1 H2. revert k2 i2 H2. revert k1 i1 H1.
    apply (bool_decide_unpack
             (map_Forall (fun k1 i1 =>
                map_Forall (fun k2 i2 => caseNumber i1 = caseNumber i2 -> k1 = k2)
                  (incidents Sample.store)) (incidents Sample.store))).
    vm_compute. exact I.
Defined.

Lemma references_kept_witness :
  references_hold (run (H:=Sample.platform) Sample.store
                     [CreateEvidence Sample.env
                        (Scenario.post_evidence "cinc00001" "cuser0002" Scenario.cctv);
                      DeleteIncident (Sample.on_theft "cuser0001" false None)]).
Proof.
  apply (references_kept (H:=Sample.platform)). split.
  - apply (bool_decide_unpack
             (map_Forall (fun _ i => is_Some (users Sample.store !! reportedById i))
                (incidents Sample.store))).
    vm_compute. exact I.
  - apply (bool_decide_unpack
             (map_Forall (fun _ e => is_Some (incidents Sample.store !! incidentId e)
                                     /\ is_Some (users Sample.store !! addedById e))
                (evidence Sample.store))).
    vm_compute. exact I.
Defined.

Lemma texts_stay_filled_witness : texts_filled Sample.filed_closed.
Proof.
  apply (texts_stay_filled (H:=Sample.platform) Sample.store
           [CreateIncident Sample.env
              (Sample.create "cuser0001" (Sample.report "cuser0002" []));
            Sample.close_filed]) with (k := "cnew00001").
  - apply (bool_decide_unpack
             (map_Forall (fun _ i => location i <> "" /\ crimeType i <> ""
                                     /\ description i <> "")
                (incidents Sample.store))).
    vm_compute. exact I.
  - vm_compute. reflexivity.
Defined.

(** ** Behind the gate: who changes what *)

Lemma allowed_cases (a : bool) (uid o : string) :
  allowed a uid o = true -> a = true \/ o = uid.
Proof.
  unfold allowed. destruct a; [auto|]. simpl. intros Hd.
  apply bool_decide_eq_true in Hd. auto.
Qed.

Section Gated.
Context `{Platform}.

(** What an update or delete that succeeded says about its caller. *)
Lemma mutate_done (op : Mutation) (st : Store) (request : Request) :
  http_status (mutate op st request).1 = 200%Z
  \/ http_status (mutate op st request).1 = 204%Z
  \/ (mutate op st request).2 <> st ->
  exists uid o,
    loggedInUserId request = Some uid
    /\ owner op st request = Some o
    /\ allowed (isAdmin_header request) uid o = true.
Proof.
  intros Hdone. destruct op as [env| |params]; simpl in *.
  - assert (Hs : http_status (IncidentIdRoute.PATCH st env request).1 = 200%Z).
    { destruct (decide (http_status (IncidentIdRoute.PATCH st env request).1 = 200%Z))
        as [?|Hn]; [done|exfalso].
      destruct Hdone as [?|[Hd|Hd]]; [done| |by apply Hd, PATCH_unchanged].
      clear Hn. unfold IncidentIdRoute.PATCH in Hd. branches. }
    destruct (PATCH_200 st env request Hs)
      as (key & uid & i & ? & ? & Hk & _ & _ & Hu & _ & Hi & Ha & _).
    exists uid, (reportedById i). by rewrite Hk, Hi.
  - assert (Hs : http_status (IncidentIdRoute.DELETE st request).1 = 204%Z).
    { destruct (decide (http_status (IncidentIdRoute.DELETE st request).1 = 204%Z))
        as [?|Hn]; [done|exfalso].
      destruct Hdone as [Hd|[?|Hd]]; [|done|by apply Hd, DELETE_unchanged].
      clear Hn. unfold IncidentIdRoute.DELETE in Hd. branches. }
    destruct (DELETE_204 st request Hs) as (key & uid & i & Hk & _ & _ & Hu & _ & Hi & Ha & _).
    exists uid, (reportedById i). by rewrite Hk, Hi.
  - assert (Hs : http_status (EvidenceIdRoute.DELETE st request params).1 = 204%Z).
    { destruct (decide (http_status (EvidenceIdRoute.DELETE st request params).1 = 204%Z))
        as [?|Hn]; [done|exfalso].
      destruct Hdone as [Hd|[?|Hd]]; [|done|].
      - clear Hn. unfold EvidenceIdRoute.DELETE in Hd. branches.
      - apply Hd. clear Hd. unfold EvidenceIdRoute.DELETE in *. branches. }
    destruct (evidence_DELETE_204 st request params Hs)
      as (uid & e & _ & _ & Hu & _ & He & _ & Ha & _).
    exists uid, (addedById e). by rewrite He.
Qed.

(** X19: behind the gate, an incident is updated or deleted, and evidence
    deleted, only for a request whose bearer token verifies and whose
    verified claims name an admin or the owner of the record: the identity
    headers the request itself carries play no part. *)
Theorem gated_mutation_authorized (op : Mutation) (s : Middleware.State) (st : Store)
    (request : Request) :
  Middleware.matcher (pathname request) = true ->
  http_status (Middleware.guarded (mutate op st) st s request).1.1 = 200%Z
  \/ http_status (Middleware.guarded (mutate op st) st s request).1.1 = 204%Z
  \/ (Middleware.guarded (mutate op st) st s request).1.2 <> st ->
  exists tok key p o,
    Middleware.token request = Some tok
    /\ Middleware.cached_key s = Some key
    /\ jwtVerify tok key = Verified p
    /\ owner op st request = Some o
    /\ (Middleware.claim p "isAdmin" = Some "true"
        \/ Middleware.claim p "userId" = Some o).
Proof.
  intros Hm. unfold Middleware.guarded, Middleware.gate. rewrite Hm.
  unfold Middleware.middleware.
  destruct (Middleware.token request) as [[|c r]|]; simpl; [by intros [?|[?|?]]| |by intros [?|[?|?]]].
  destruct (Middleware.cached_key s) as [key|]; simpl; [|by intros [?|[?|?]]].
  destruct (jwtVerify _ key) as [p|code] eqn:Hv; simpl; [|by intros [?|[?|?]]].
  rewrite set_identity.
  destruct (Middleware.claim p "userId") as [u|] eqn:Hcu; [|by intros [?|[?|?]]].
  destruct (Middleware.claim p "badgeId") as [b|]; [|by intros [?|[?|?]]].
  destruct (Middleware.claim p "isAdmin") as [a|] eqn:Hca; [|by intros [?|[?|?]]].
  intros Hdone.
  destruct (mutate_done op st _ Hdone) as (uid & o & Hu & Ho & Ha).
  destruct (injected_headers (headers request) u b a) as (Hid & _ & Hadm & _).
  unfold loggedInUserId in Hu. simpl in Hu. rewrite Hid in Hu. injection Hu as <-.
  unfold isAdmin_header in Ha. simpl in Ha. rewrite Hadm in Ha.
  exists (String c r), key, p, o. repeat split; try done.
  apply allowed_cases in Ha as [Ha| ->]; [left|by right].
  apply bool_decide_eq_true in Ha. congruence.
Qed.

End Gated.

Lemma gated_mutation_authorized_witness :
  exists tok key p o,
    Middleware.token (Scenario.bearer "signed.by.officer" None) = Some tok
    /\ Middleware.cached_key Sample.state = Some key
    /\ jwtVerify (Platform:=Sample.platform) tok key = Verified p
    /\ owner RemoveIncident Sample.store
         (Scenario.bearer "signed.by.officer" None) = Some o
    /\ (Middleware.claim (H:=Sample.platform) p "isAdmin" = Some "true"
        \/ Middleware.claim (H:=Sample.platform) p "userId" = Some o).
Proof.
  apply (gated_mutation_authorized (H:=Sample.platform) RemoveIncident Sample.state
           Sample.store (Scenario.bearer "signed.by.officer" None)).
  - vm_compute. reflexivity.
  - right. left. vm_compute. reflexivity.
Defined.

(** ** The paths of the routes *)

Lemma split_go_segment (cur s t : string) :
  slash_free s = true ->
  Js.split_go "/" cur s = [String.rev (String.rev_app s cur)]
  /\ Js.split_go "/" cur (s ++ String "/" t)
     = String.rev (String.rev_app s cur) :: Js.split_go "/" "" t.
Proof.
  revert cur. induction s as [|c s IH]; intros cur Hs.
  { rewrite append_empty_l. done. }
  rewrite append_cons. simpl in *.
  apply andb_true_iff in Hs as [Hc Hs]. apply negb_true_iff in Hc. rewrite Hc.
  apply (IH (String c cur) Hs).
Qed.

Lemma split_segment (s t : string) :
  slash_free s = true ->
  Js.split_go "/" "" s = [s]
  /\ Js.split_go "/" "" (s ++ String "/" t) = s :: Js.split_go "/" "" t.
Proof.
  intros Hs. destruct (split_go_segment "" s t Hs) as [-> ->].
  by rewrite rev_rev_app.
Qed.

(** X20: the handlers recover the id from the path of their route, and
    the gate covers every incident and evidence route: for an incident id
    and an evidence id that are path segments, /api/incidents/:id yields
    the id as its last segment, /api/incidents/:id/evidence yields it as
    the segment before the last, and these paths, like
    /api/incidents/:id/evidence/:evidenceId, match the middleware's
    matcher. *)
Theorem route_paths (i e : string) (r1 r2 r3 : Request) :
  segment i -> segment e ->
  pathname r1 = "/api/incidents/" ++ i ->
  pathname r2 = "/api/incidents/" ++ i ++ "/evidence" ->
  pathname r3 = "/api/incidents/" ++ i ++ "/evidence/" ++ e ->
  IncidentIdRoute.path_id r1 = Some i
  /\ EvidenceRoute.path_incidentId r2 = Some i
  /\ Middleware.matcher (pathname r1) = true
  /\ Middleware.matcher (pathname r2) = true
  /\ Middleware.matcher (pathname r3) = true.
Proof.
  intros [Hi Hi'] [He He'] H1 H2 H3.
  destruct (split_segment i "evidence" Hi') as [Hs1 Hs2].
  destruct (split_segment i ("evidence/" ++ e) Hi') as [_ Hs3].
  destruct (split_segment e "" He') as [Hs5 _].
  assert (Hok : negb (bool_decide (i = "")) = true)
    by by rewrite bool_decide_eq_false_2.
  assert (Hoke : negb (bool_decide (e = "")) = true)
    by by rewrite bool_decide_eq_false_2.
  unfold IncidentIdRoute.path_id, EvidenceRoute.path_incidentId, Middleware.matcher, Js.split.
  rewrite H1, H2, H3.
  change ("/evidence" : string) with (String "/" "evidence").
  change ("/evidence/" ++ e) with (String "/" ("evidence" ++ String "/" e)).
  change ("evidence/" ++ e) with ("evidence" ++ String "/" e) in Hs3.
  rewrite !append_cons, !append_empty_l in *. simpl.
  rewrite Hs1, Hs2, Hs3. simpl. rewrite Hs5. simpl.
  destruct i as [|a i]; [done|]. destruct e as [|b e]; [done|]. done.
Qed.

Lemma route_paths_witness :
  IncidentIdRoute.path_id (Sample.on_theft "cuser0001" false None) = Some "cinc00001"
  /\ EvidenceRoute.path_incidentId (Scenario.list_evidence "cinc00001" "cuser0001")
     = Some "cinc00001"
  /\ Middleware.matcher (pathname (Sample.on_theft "cuser0001" false None)) = true
  /\ Middleware.matcher (pathname (Scenario.list_evidence "cinc00001" "cuser0001")) = true
  /\ Middleware.matcher (pathname (Sample.delete_photo "cinc00001" "cuser0001" false))
     = true.
Proof.
  apply (route_paths "cinc00001" "cevid0001" (Sample.on_theft "cuser0001" false None)
           (Scenario.list_evidence "cinc00001" "cuser0001")
           (Sample.delete_photo "cinc00001" "cuser0001" false));
    first [reflexivity | split; [discriminate|reflexivity]].
Defined.

Example unmatched_paths :
  Middleware.matcher "/api/users" = false
  /\ Middleware.matcher "/api/auth/login" = false
  /\ Middleware.matcher "/api/incidentsreport" = false
  /\ Middleware.matcher "/api/incidents" = true
  /\ Middleware.matcher "/api/incidents/" = true
  /\ Middleware.matcher "/api/incidents.json" = true
  /\ Middleware.matcher "/_next/data/build1/api/incidents/cinc00001" = true.
Proof. repeat split. Qed.

(** ** Accounts: sign-up and login *)

Lemma length_nonempty (s : string) : 1 <= Js.length s <-> s <> "".
Proof.
  unfold Js.length. destruct s as [|c r]; simpl.
  - split; [lia|done].
  - split; [done|]. intros _. rewrite andb_false_r.
    repeat (case (Nat.ltb _ _)); lia.
Qed.

Lemma string_min_valid (n : nat) (x : json) (s : string) :
  UsersRoute.string_min n x = Schemas.Valid s <-> x = JStr s /\ n <= Js.length s.
Proof.
  unfold UsersRoute.string_min.
  destruct x as [| | |s0| |]; try (split; [done|by intros [? _]]).
  destruct (Nat.leb_spec n (Js.length s0)).
  - split; [by intros [= ->]|by intros [[= ->] _]].
  - split; [done|]. intros [[= ->] ?]. lia.
Qed.

Lemma required_min_valid (n : nat) (x : option json) (s : string) :
  Schemas.required (UsersRoute.string_min n) x = Schemas.Valid s
  <-> x = Some (JStr s) /\ n <= Js.length s.
Proof.
  destruct x as [x|]; simpl; [|split; [done|by intros [? _]]].
  rewrite string_min_valid. split; intros [E ?]; split; congruence.
Qed.

Lemma findUnique_badgeId_Some (st : Store) (b : string) (u : User) :
  UsersRoute.findUnique_badgeId st b = Some u ->
  (exists k, users st !! k = Some u) /\ user_badgeId u = b.
Proof.
  unfold UsersRoute.findUnique_badgeId. intros Hh.
  assert (Hin : In u (List.filter (fun u => bool_decide (user_badgeId u = b))
                        (snd <$> map_to_list (users st)))).
  { destruct (List.filter _ _) as [|u0 l]; [done|]. injection Hh as ->. by left. }
  apply filter_In in Hin as [Hin Hb]. apply bool_decide_eq_true in Hb.
  apply list_elem_of_In, list_elem_of_fmap in Hin as ([k u'] & -> & Hin).
  apply elem_of_map_to_list in Hin. eauto.
Qed.

Lemma findUnique_badgeId_None (st : Store) (b : string) :
  UsersRoute.findUnique_badgeId st b = None ->
  forall k u, users st !! k = Some u -> user_badgeId u <> b.
Proof.
  unfold UsersRoute.findUnique_badgeId. intros Hh k u Hk Hb.
  assert (Hin : In u (List.filter (fun u => bool_decide (user_badgeId u = b))
                        (snd <$> map_to_list (users st)))).
  { apply filter_In. split; [|by apply bool_decide_eq_true].
    apply list_elem_of_In, list_elem_of_fmap. exists (k, u). split; [done|].
    by apply elem_of_map_to_list. }
  by destruct (List.filter _ _).
Qed.

Lemma login_schema_success (body : json) (data : LoginRoute.Login) :
  LoginRoute.LoginSchema body = Schemas.Success data <->
  exists props b,
    body = JObj props
    /\ prop "badgeId" props = Some (JStr b)
    /\ LoginRoute.login_badgeId data = Js.trim b /\ Js.trim b <> ""
    /\ prop "password" props = Some (JStr (LoginRoute.login_password data))
    /\ LoginRoute.login_password data <> "".
Proof.
  unfold LoginRoute.LoginSchema. split.
  - intros Hs. destruct body as [| | | | |props]; try done. exists props.
    destruct (Schemas.required Schemas.string_trim_min1 _) as [b'|] eqn:Hb;
      [|by destruct (Schemas.required (UsersRoute.string_min 1) _)].
    destruct (Schemas.required (UsersRoute.string_min 1) _) as [p|] eqn:Hp; [|done].
    injection Hs as <-. simpl.
    apply required_trim_min1_valid in Hb as (b & Hb & -> & Hne).
    apply required_min_valid in Hp as [Hp Hl].
    exists b. repeat split; try done. by apply length_nonempty.
  - intros (props & b & -> & Hb & Hd & Hne & Hp & Hpne).
    rewrite Hb, Hp. unfold Schemas.required, Schemas.string_trim_min1,
      UsersRoute.string_min. cbv zeta. rewrite bool_decide_eq_false_2 by done.
    destruct data as [db dp]. simpl in Hd, Hpne. subst db.
    apply length_nonempty, Nat.leb_le in Hpne.
    cbn [LoginRoute.login_password]. by rewrite Hpne.
Qed.

Section Login.
Context `{Services}.

(** The path the login took when it answers a token. *)
Lemma POST_token (st : Store) (secret : option string) (t : Z) (request : Request)
    (tok : string) :
  LoginRoute.POST st secret t request = LoginRoute.Token tok ->
  exists body data u key,
    json_body request = Some body
    /\ LoginRoute.LoginSchema body = Schemas.Success data
    /\ UsersRoute.findUnique_badgeId st (LoginRoute.login_badgeId data) = Some u
    /\ bcryptCompare (LoginRoute.login_password data) (user_password u) = true
    /\ secret = Some key /\ key <> ""
    /\ tok = signJWT (LoginRoute.payload_of u) t key.
Proof.
  unfold LoginRoute.POST. intros Hp.
  destruct (json_body request) as [body|]; [|done].
  destruct (LoginRoute.LoginSchema body) as [data|] eqn:Hs; [|done].
  destruct (UsersRoute.findUnique_badgeId _ _) as [u|] eqn:Hf; [|done].
  destruct (bcryptCompare _ _) eqn:Hc; [|done].
  destruct secret as [[|c r]|]; try done. injection Hp as <-.
  by exists body, data, u, (String c r).
Qed.

(** X21: a login answers a token only for a body with a badge id and a
    password, a stored user with the trimmed badge id whose stored hash
    bcrypt accepts for that password, and a configured, non-empty secret;
    the token is the signature of that user's id, badge id and isAdmin. *)
Theorem login_token_sound (st : Store) (secret : option string) (t : Z)
    (request : Request) (tok : string) :
  LoginRoute.POST st secret t request = LoginRoute.Token tok ->
  exists props b pw k u key,
    json_body request = Some (JObj props)
    /\ prop "badgeId" props = Some (JStr b)
    /\ prop "password" props = Some (JStr pw)
    /\ users st !! k = Some u /\ user_badgeId u = Js.trim b
    /\ bcryptCompare pw (user_password u) = true
    /\ secret = Some key /\ key <> ""
    /\ tok = signJWT {| userId := user_id u; badgeId := user_badgeId u;
                        isAdmin := user_isAdmin u |} t key.
Proof.
  intros Hp.
  destruct (POST_token st secret t request tok Hp)
    as (body & data & u & key & Hb & Hs & Hf & Hc & Hk & Hne & ->).
  apply login_schema_success in Hs as (props & b & -> & Hbad & Hd & _ & Hpw & _).
  apply findUnique_badgeId_Some in Hf as [[k Hu] Hbu].
  exists props, b, (LoginRoute.login_password data), k, u, key.
  repeat split; try done. by rewrite Hbu.
Qed.

(** X22: for a well-formed body, an unknown badge id and a wrong password
    get the same answer, 401 "Invalid credentials.", whatever the secret
    is: when bcrypt accepts the password for no stored user with the
    trimmed badge id, that is the reply. *)
Theorem login_refusal_uniform (st : Store) (secret : option string) (t : Z)
    (request : Request) (props : list (string * json)) (b pw : string) :
  json_body request = Some (JObj props) ->
  prop "badgeId" props = Some (JStr b) -> Js.trim b <> "" ->
  prop "password" props = Some (JStr pw) -> pw <> "" ->
  (forall k u, users st !! k = Some u -> user_badgeId u = Js.trim b ->
               bcryptCompare pw (user_password u) = false) ->
  LoginRoute.POST st secret t request
  = LoginRoute.Refused (respond (Message "Invalid credentials.") 401).
Proof.
  intros Hb Hbad Hne Hpw Hpne Hno. unfold LoginRoute.POST. rewrite Hb.
  assert (Hs : LoginRoute.LoginSchema (JObj props)
               = Schemas.Success {| LoginRoute.login_badgeId := Js.trim b;
                                    LoginRoute.login_password := pw |}).
  { apply login_schema_success. by exists props, b. }
  rewrite Hs. simpl.
  destruct (UsersRoute.findUnique_badgeId st (Js.trim b)) as [u|] eqn:Hf; [|done].
  apply findUnique_badgeId_Some in Hf as [[k Hu] Hbu].
  by rewrite (Hno k u Hu Hbu).
Qed.

End Login.

Lemma login_token_sound_witness :
  exists props b pw k u key,
    json_body (Scenario.credentials " OFFICER123 " "hash") = Some (JObj props)
    /\ prop "badgeId" props = Some (JStr b)
    /\ prop "password" props = Some (JStr pw)
    /\ users Sample.store !! k = Some u /\ user_badgeId u = Js.trim b
    /\ bcryptCompare (Services:=Scenario.services) pw (user_password u) = true
    /\ Some "s3cret" = Some key /\ key <> ""
    /\ "signed.by.officer"
       = signJWT (Services:=Scenario.services)
           {| userId := user_id u; badgeId := user_badgeId u;
              isAdmin := user_isAdmin u |} 0 key.
Proof.
  apply (login_token_sound (H:=Scenario.services) Sample.store (Some "s3cret") 0
           (Scenario.credentials " OFFICER123 " "hash") "signed.by.officer").
  vm_compute. reflexivity.
Defined.

Lemma login_refusal_uniform_witness :
  LoginRoute.POST (H:=Scenario.services) Sample.store (Some "s3cret") 0
    (Scenario.credentials "OFFICER123" "guess")
  = LoginRoute.Refused (respond (Message "Invalid credentials.") 401).
Proof.
  apply (login_refusal_uniform (H:=Scenario.services) Sample.store (Some "s3cret") 0
           (Scenario.credentials "OFFICER123" "guess")
           [("badgeId", JStr "OFFICER123"); ("password", JStr "guess")]
           "OFFICER123" "guess");
    try first [reflexivity | discriminate].
  intros k u. revert k u.
  apply (bool_decide_unpack
           (map_Forall (fun _ u => user_badgeId u = Js.trim "OFFICER123" ->
                                   bcryptCompare (Services:=Scenario.services) "guess"
                                     (user_password u) = false)
              (users Sample.store))).
  vm_compute. exact I.
Defined.

Section Session.
Context `{Platform} `{Services}.


End Session.


Section SignUp.
Context `{Services}.

(** A sign-up is refused with 400 or 409 and an unchanged store, or it
    creates the user of its body. *)
Lemma POST_user_cases (st : Store) (env : Env) (salt : string) (request : Request) :
  ((UsersRoute.POST st env salt request).2 = st
   /\ exists r, (UsersRoute.POST st env salt request).1 = UsersRoute.Refused r
                /\ (http_status r = 400%Z \/ http_status r = 409%Z))
  \/ exists props b n pw,
       json_body request = Some (JObj props)
       /\ prop "badgeId" props = Some (JStr b) /\ Js.trim b <> ""
       /\ prop "name" props = Some (JStr n) /\ Js.trim n <> ""
       /\ prop "password" props = Some (JStr pw) /\ 6 <= Js.length pw
       /\ UsersRoute.findUnique_badgeId st (Js.trim b) = None
       /\ users st !! cuid_id env = None
       /\ UsersRoute.POST st env salt request
          = (UsersRoute.Created
               {| UsersRoute.json_id := cuid_id env; UsersRoute.json_badgeId := Js.trim b;
                  UsersRoute.json_name := Js.trim n;
                  UsersRoute.json_createdAt := now env;
                  UsersRoute.json_updatedAt := now env |},
             {| users := <[cuid_id env :=
                             {| user_id := cuid_id env; user_badgeId := Js.trim b;
                                user_name := Js.trim n;
                                user_password := bcryptHash salt UsersRoute.SALT_ROUNDS pw;
                                user_isAdmin := false |}]> (users st);
                incidents := incidents st; evidence := evidence st |}).
Proof.
  unfold UsersRoute.POST.
  destruct (json_body request) as [body|]; [|left; split; [done|eexists; split; [done|by left]]].
  unfold UsersRoute.CreateUserSchema.
  destruct body as [| | | | |props];
    try (left; split; [done|eexists; split; [done|by left]]).
  destruct (Schemas.required Schemas.string_trim_min1 (prop "badgeId" props))
    as [b'|] eqn:Hb.
  2:{ destruct (Schemas.required Schemas.string_trim_min1 (prop "name" props));
        destruct (Schemas.required (UsersRoute.string_min 6) _);
        left; split; try done; eexists; split; try done; by left. }
  destruct (Schemas.required Schemas.string_trim_min1 (prop "name" props))
    as [n'|] eqn:Hn.
  2:{ destruct (Schemas.required (UsersRoute.string_min 6) _);
        left; split; try done; eexists; split; try done; by left. }
  destruct (Schemas.required (UsersRoute.string_min 6) _) as [pw|] eqn:Hp;
    [|left; split; [done|eexists; split; [done|by left]]].
  simpl.
  destruct (UsersRoute.findUnique_badgeId st b') eqn:Hf;
    [left; split; [done|eexists; split; [done|by right]]|].
  destruct (users st !! cuid_id env) eqn:Hk;
    [left; split; [done|eexists; split; [done|by right]]|].
  apply required_trim_min1_valid in Hb as (b & Hb & -> & Hbne).
  apply required_trim_min1_valid in Hn as (n & Hn & -> & Hnne).
  apply required_min_valid in Hp as [Hp Hl].
  right. by exists props, b, n, pw.
Qed.

(** X24: a sign-up keeps badge ids unique and never touches incidents,
    evidence or the users already stored; a user it adds is stored under
    a fresh id with the trimmed badge id and name of the body, the bcrypt
    hash (10 rounds) of its password of at least six characters, and
    isAdmin false. *)
Theorem signup_outcome (st : Store) (env : Env) (salt : string) (request : Request) :
  unique_badgeIds st ->
  let st' := (UsersRoute.POST st env salt request).2 in
  unique_badgeIds st'
  /\ incidents st' = incidents st /\ evidence st' = evidence st
  /\ (forall k u, users st !! k = Some u -> users st' !! k = Some u)
  /\ (forall k u, users st' !! k = Some u -> users st !! k = None ->
        exists props b n pw,
          json_body request = Some (JObj props)
          /\ prop "badgeId" props = Some (JStr b)
          /\ prop "name" props = Some (JStr n)
          /\ prop "password" props = Some (JStr pw)
          /\ 6 <= Js.length pw
          /\ k = cuid_id env
          /\ u = {| user_id := cuid_id env; user_badgeId := Js.trim b;
                    user_name := Js.trim n;
                    user_password := bcryptHash salt UsersRoute.SALT_ROUNDS pw;
                    user_isAdmin := false |}).
Proof.
  intros Hu st'. subst st'.
  destruct (POST_user_cases st env salt request)
    as [[Heq _]|(props & b & n & pw & Hb & Hbad & Hbne & Hn & Hnne & Hp & Hl & Hf & Hk & ->)].
  { rewrite Heq. repeat split; try done. intros k u Hk Hk'. congruence. }
  simpl. repeat split.
  - intros k1 k2 u1 u2 H1 H2 Hbb. simpl in H1, H2.
    destruct (decide (k1 = cuid_id env)) as [->|N1];
      destruct (decide (k2 = cuid_id env)) as [->|N2]; [done| | |].
    + rewrite lookup_insert_eq in H1. rewrite lookup_insert_ne in H2 by done.
      injection H1 as <-. simpl in Hbb.
      by destruct (findUnique_badgeId_None st _ Hf k2 u2 H2).
    + rewrite lookup_insert_eq in H2. rewrite lookup_insert_ne in H1 by done.
      injection H2 as <-. simpl in Hbb.
      by destruct (findUnique_badgeId_None st _ Hf k1 u1 H1).
    + rewrite lookup_insert_ne in H1, H2 by done. by eapply Hu.
  - intros k u Hku. rewrite lookup_insert_ne; [done|]. intros <-. congruence.
  - intros k u Hk' Hnone.
    destruct (decide (k = cuid_id env)) as [->|N].
    + rewrite lookup_insert_eq in Hk'. injection Hk' as <-.
      by exists props, b, n, pw.
    + rewrite lookup_insert_ne in Hk' by done. congruence.
Qed.

(** X25: a badge id that is taken cannot be signed up again: when a stored
    user has the trimmed badge id of the body, the sign-up answers an error
    with status 400 or 409 and the store is unchanged. *)
Theorem signup_taken_badge (st : Store) (env : Env) (salt : string) (request : Request)
    (props : list (string * json)) (b : string) (k : string) (u : User) :
  json_body request = Some (JObj props) ->
  prop "badgeId" props = Some (JStr b) ->
  users st !! k = Some u -> user_badgeId u = Js.trim b ->
  (UsersRoute.POST st env salt request).2 = st
  /\ exists r, (UsersRoute.POST st env salt request).1 = UsersRoute.Refused r
               /\ (http_status r = 400%Z \/ http_status r = 409%Z).
Proof.
  intros Hb Hbad Hk Hbu.
  destruct (POST_user_cases st env salt request)
    as [?|(props' & b' & _ & _ & Hb' & Hbad' & _ & _ & _ & _ & _ & Hf & _)]; [done|].
  exfalso. rewrite Hb in Hb'. injection Hb' as <-. rewrite Hbad in Hbad'.
  injection Hbad' as <-.
  by destruct (findUnique_badgeId_None st _ Hf k u Hk).
Qed.

(** X26: who signed up can log in.  When bcrypt accepts a password for
    the hash it made of it, a login with the badge id and the password of
    a sign-up that answered 201 (the badge id up to surrounding white
    space) answers, on the store the sign-up left and with a configured
    secret, the token signed for the id and badge id the sign-up answered,
    with isAdmin false. *)
Theorem signup_then_login (st : Store) (env : Env) (salt : string) (t : Z)
    (signup login : Request) (props lprops : list (string * json))
    (uj : UsersRoute.UserJson) (lb key : string) :
  (forall s p, bcryptCompare p (bcryptHash s UsersRoute.SALT_ROUNDS p) = true) ->
  (UsersRoute.POST st env salt signup).1 = UsersRoute.Created uj ->
  json_body signup = Some (JObj props) ->
  json_body login = Some (JObj lprops) ->
  prop "badgeId" lprops = Some (JStr lb) -> Js.trim lb = UsersRoute.json_badgeId uj ->
  prop "password" lprops = prop "password" props ->
  key <> "" ->
  LoginRoute.POST (UsersRoute.POST st env salt signup).2 (Some key) t login
  = LoginRoute.Token
      (signJWT {| userId := UsersRoute.json_id uj;
                  badgeId := UsersRoute.json_badgeId uj; isAdmin := false |} t key).
Proof.
  intros Hcmp Hc Hb Hlb Hlbad Htrim Hlpw Hkey.
  destruct (POST_user_cases st env salt signup)
    as [(_ & r & Hr & _)|
        (props' & b & n & pw & Hb' & Hbad & Hbne & Hn & Hnne & Hp & Hl & Hf & Hk & Heq)];
    [congruence|].
  rewrite Hb in Hb'. injection Hb' as <-.
  rewrite Heq in Hc |- *. simpl in Hc. injection Hc as <-. simpl in Htrim |- *.
  match goal with |- LoginRoute.POST ?s _ _ _ = _ => set (st' := s) end.
  set (u := {| user_id := cuid_id env; user_badgeId := Js.trim b;
               user_name := Js.trim n;
               user_password := bcryptHash salt UsersRoute.SALT_ROUNDS pw;
               user_isAdmin := false |}).
  assert (Hs : LoginRoute.LoginSchema (JObj lprops)
               = Schemas.Success {| LoginRoute.login_badgeId := Js.trim b;
                                    LoginRoute.login_password := pw |}).
  { apply login_schema_success. exists lprops, lb. simpl.
    rewrite Hlbad, Hlpw, Htrim. repeat split; try done. apply length_nonempty. lia. }
  assert (Hf' : UsersRoute.findUnique_badgeId st' (Js.trim b) = Some u).
  { destruct (UsersRoute.findUnique_badgeId st' (Js.trim b)) as [u'|] eqn:Hf'.
    - apply findUnique_badgeId_Some in Hf' as [[k Hu'] Hbu]. subst st'. simpl in Hu'.
      destruct (decide (k = cuid_id env)) as [->|N].
      + rewrite lookup_insert_eq in Hu'. by injection Hu' as <-.
      + rewrite lookup_insert_ne in Hu' by done.
        by destruct (findUnique_badgeId_None st _ Hf k u' Hu').
    - exfalso. apply (findUnique_badgeId_None st' _ Hf' (cuid_id env) u); [|done].
      subst st'. simpl. apply lookup_insert_eq. }
  unfold LoginRoute.POST. rewrite Hlb, Hs. simpl. rewrite Hf'. simpl.
  rewrite Hcmp. by destruct key.
Qed.

End SignUp.

(** A password of three characters in six bytes is too short. *)
Example short_password_refused :
  (UsersRoute.POST (H:=Scenario.services) Sample.store Sample.env "salt"
     (Scenario.signup "OFFICER789" "Asha Rao"
        (Sample.e_acute ++ Sample.e_acute ++ Sample.e_acute))).1
  = UsersRoute.Refused (respond (InvalidInput "Invalid input." ["password"]) 400).
Proof. vm_compute. reflexivity. Qed.

(** A badge id followed by a no-break space logs the officer in. *)
Example login_trims_unicode :
  LoginRoute.POST (H:=Scenario.services) Sample.store (Some "s3cret") 0
    (Scenario.credentials ("OFFICER123" ++ Sample.nbsp) "hash")
  = LoginRoute.Token "signed.by.officer".
Proof. vm_compute. reflexivity. Qed.

Lemma signup_outcome_witness :
  let st' := (UsersRoute.POST (H:=Scenario.services) Sample.store Sample.env "salt"
                (Scenario.signup " OFFICER789 " "Asha Rao" "s3cure!")).2 in
  unique_badgeIds st'
  /\ incidents st' = incidents Sample.store /\ evidence st' = evidence Sample.store
  /\ (forall k u, users Sample.store !! k = Some u -> users st' !! k = Some u)
  /\ (forall k u, users st' !! k = Some u -> users Sample.store !! k = None ->
        exists props b n pw,
          json_body (Scenario.signup " OFFICER789 " "Asha Rao" "s3cure!")
          = Some (JObj props)
          /\ prop "badgeId" props = Some (JStr b)
          /\ prop "name" props = Some (JStr n)
          /\ prop "password" props = Some (JStr pw)
          /\ 6 <= Js.length pw
          /\ k = cuid_id Sample.env
          /\ u = {| user_id := cuid_id Sample.env; user_badgeId := Js.trim b;
                    user_name := Js.trim n;
                    user_password := bcryptHash (Services:=Scenario.services) "salt"
                                       UsersRoute.SALT_ROUNDS pw;
                    user_isAdmin := false |}).
Proof.
  apply (signup_outcome (H:=Scenario.services) Sample.store Sample.env "salt"
           (Scenario.signup " OFFICER789 " "Asha Rao" "s3cure!")).
  intros k1 k2 u1 u2 H1 H2. revert k2 u2 H2. revert k1 u1 H1.
  apply (bool_decide_unpack
           (map_Forall (fun k1 u1 =>
              map_Forall (fun k2 u2 => user_badgeId u1 = user_badgeId u2 -> k1 = k2)
                (users Sample.store)) (users Sample.store))).
  vm_compute. exact I.
Defined.

Lemma signup_taken_badge_witness :
  (UsersRoute.POST (H:=Scenario.services) Sample.store Sample.env "salt"
     (Scenario.signup " OFFICER123" "Asha Rao" "s3cure!")).2 = Sample.store
  /\ exists r,
       (UsersRoute.POST (H:=Scenario.services) Sample.store Sample.env "salt"
          (Scenario.signup " OFFICER123" "Asha Rao" "s3cure!")).1 = UsersRoute.Refused r
       /\ (http_status r = 400%Z \/ http_status r = 409%Z).
Proof.
  apply (signup_taken_badge (H:=Scenario.services) Sample.store Sample.env "salt"
           (Scenario.signup " OFFICER123" "Asha Rao" "s3cure!")
           [("badgeId", JStr " OFFICER123"); ("name", JStr "Asha Rao");
            ("password", JStr "s3cure!")]
           " OFFICER123" "cuser0001" (Sample.user "cuser0001" "OFFICER123" false));
    vm_compute; reflexivity.
Defined.

Lemma signup_then_login_witness :
  LoginRoute.POST (H:=Scenario.services)
    (UsersRoute.POST (H:=Scenario.services) Sample.store Sample.env "salt"
       (Scenario.signup " OFFICER789 " "Asha Rao" "s3cure!")).2
    (Some "s3cret") 5 (Scenario.credentials "OFFICER789" "s3cure!")
  = LoginRoute.Token
      (signJWT (Services:=Scenario.services)
         {| userId := "cnew00001"; badgeId := "OFFICER789"; isAdmin := false |}
         5 "s3cret").
Proof.
  apply (signup_then_login (H:=Scenario.services) Sample.store Sample.env "salt" 5
           (Scenario.signup " OFFICER789 " "Asha Rao" "s3cure!")
           (Scenario.credentials "OFFICER789" "s3cure!")
           [("badgeId", JStr " OFFICER789 "); ("name", JStr "Asha Rao");
            ("password", JStr "s3cure!")]
           [("badgeId", JStr "OFFICER789"); ("password", JStr "s3cure!")]
           {| UsersRoute.json_id := "cnew00001"; UsersRoute.json_badgeId := "OFFICER789";
              UsersRoute.json_name := "Asha Rao"; UsersRoute.json_createdAt := 1000;
              UsersRoute.json_updatedAt := 1000 |} "OFFICER789" "s3cret").
  - intros s p. apply bool_decide_eq_true. reflexivity.
  - vm_compute. reflexivity.
  - reflexivity.
  - reflexivity.
  - reflexivity.
  - vm_compute. reflexivity.
  - reflexivity.
  - discriminate.
Defined.

(** ** The edit form and the PATCH it sends *)

Section Form.
Context `{Platform} `{Services}.

(** X27: an update made through the edit form leaves a closing reason on
    closed incidents only.  When the PATCH carrying the form's payload
    answers 200, the stored status is the form's, the stored closingReason
    is null unless that status is 'Closed', and for 'Closed' it is the
    trimmed reason of the form, or null when the form has none or a blank
    one. *)
Theorem form_edit_closing (st : Store) (env : Env) (request : Request)
    (data : IncidentForm.IncidentFormData) (userIdProp : string) :
  json_body request = Some (IncidentForm.incidentPayload true userIdProp data) ->
  http_status (IncidentIdRoute.PATCH st env request).1 = 200%Z ->
  exists key i',
    IncidentIdRoute.path_id request = Some key
    /\ incidents (IncidentIdRoute.PATCH st env request).2 !! key = Some i'
    /\ status i' = IncidentForm.form_status data
    /\ (status i' <> "Closed" -> closingReason i' = None)
    /\ (status i' = "Closed" ->
        closingReason i'
        = match IncidentForm.form_closingReason data with
          | Some (Some r) => if bool_decide (Js.trim r = "") then None else Some (Js.trim r)
          | _ => None
          end).
Proof.
  intros Hb Hs.
  destruct (PATCH_200 st env request Hs)
    as (key & uid & i & body & v & Hp & _ & _ & _ & _ & Hi & _ & Hb' & Hv & _ & Heq).
  rewrite Hb in Hb'. injection Hb' as <-.
  destruct (update_schema_success _ _ Hv) as (props & [= <-] & Hst & Hcl & _).
  change (prop "status" (IncidentForm.basePayload data))
    with (Some (JStr (IncidentForm.form_status data))) in Hst.
  change (prop "closingReason" (IncidentForm.basePayload data))
    with (Some (if bool_decide (IncidentForm.form_status data = "Closed")
                then IncidentForm.or_null (IncidentForm.form_closingReason data)
                else JNull)) in Hcl.
  apply optional_enum_valid in Hst as [[? _]|(s & [= <-] & Hst & _)]; [done|].
  apply optional_closing_valid in Hcl.
  exists key, (Db.write (now env) (IncidentIdRoute.updateData v) i).
  rewrite Heq. simpl. rewrite lookup_alter_eq, Hi. simpl.
  split; [done|]. split; [done|]. rewrite Hst. simpl.
  split; [done|]. case_bool_decide as Hc.
  - rewrite Hc. simpl. split; [done|]. intros _.
    destruct (IncidentForm.form_closingReason data) as [[[|c r]|]|]; simpl in Hcl;
      rewrite Hcl; simpl; try done.
    case_bool_decide as E.
    + injection E as E. by rewrite E, bool_decide_eq_true_2.
    + rewrite bool_decide_eq_false_2; [done|]. intros E'. by rewrite E' in E.
  - split; [|done]. intros _. simpl in Hcl. rewrite Hcl.
    by destruct (_ && _).
Qed.

End Form.

Lemma form_edit_closing_witness :
  exists key i',
    IncidentIdRoute.path_id Scenario.edit_theft = Some key
    /\ incidents (IncidentIdRoute.PATCH (H:=Sample.platform) Sample.store Sample.env
                    Scenario.edit_theft).2 !! key = Some i'
    /\ status i' = IncidentForm.form_status Scenario.form_values
    /\ (status i' <> "Closed" -> closingReason i' = None)
    /\ (status i' = "Closed" ->
        closingReason i'
        = match IncidentForm.form_closingReason Scenario.form_values with
          | Some (Some r) => if bool_decide (Js.trim r = "") then None else Some (Js.trim r)
          | _ => None
          end).
Proof.
  apply (form_edit_closing (H:=Sample.platform) (H0:=Scenario.services) Sample.store
           Sample.env Scenario.edit_theft Scenario.form_values "cuser0001").
  - reflexivity.
  - vm_compute. reflexivity.
Defined.
